(** * go-productionize: the runtime-metrics Reporter

    A shallow embedding of [reporter/reporter.go] and [svcinfo/svcinfo.go].
    The reporter samples the Go runtime on a period and pushes each number
    to a statsd client.  The client is modelled by the sequence of calls it
    receives, the Go runtime by the values it reports when asked, and the
    worker goroutine of [watch] by a step function over the two cases of
    its [select]. *)

From Stdlib Require Import ZArith List String Ascii Bool Lia.
From Stdlib Require Import DecimalString DecimalN.
Import ListNotations.

Local Open Scope string_scope.
Local Open Scope list_scope.
Local Open Scope Z_scope.

(** ** Machine integers *)

Definition MaxUint32 : Z := 2 ^ 32 - 1.
Definition MaxInt64 : Z := 2 ^ 63 - 1.

(** uint32 arithmetic wraps modulo 2^32. *)
Definition wrap32 (x : Z) : Z := x mod 2 ^ 32.

(** int64 arithmetic wraps into [-2^63, 2^63). *)
Definition wrap64 (x : Z) : Z := (x + 2 ^ 63) mod 2 ^ 64 - 2 ^ 63.

(** A float64 is kept as the expression that produced it: the reporter only
    converts integers and passes one runtime float through, and never
    computes with the result. *)
Inductive float64 : Type :=
| float64_of (n : Z)          (* the conversion float64(n) of an integer n *)
| float64_bits (b : Z).       (* a float handed over by the runtime, by its bits *)

Definition f1_0 : float64 := float64_of 1.   (* the literal 1.0 *)

(** ** Package fmt *)

Module fmt.
(** The verb %d on a non-negative integer. *)
Definition d (n : Z) : string := NilEmpty.string_of_uint (N.to_uint (Z.to_N n)).

(** Sprintf(prefix + "%s", s) and Sprintf(prefix + "%d", n). *)
Definition Sprintf_s (prefix s : string) : string := (prefix ++ s)%string.
Definition Sprintf_d (prefix : string) (n : Z) : string := (prefix ++ d n)%string.
End fmt.

(** ** Package time *)

Module time.
(** A Duration is an int64 count of nanoseconds. *)
Definition Duration : Type := Z.
Definition Nanosecond : Duration := 1.
Definition Second : Duration := 1000000000 * Nanosecond.

(** [ParseDuration (Sprintf "%dns" p)] for an unsigned p.  Both functions
    are Go's standard library: the string is p in decimal followed by the
    unit ns, and ParseDuration accepts it exactly when p fits a Duration,
    answering that many nanoseconds; otherwise it answers an error. *)
Definition ParseDuration_ns (p : Z) : option Duration :=
  if p <=? MaxInt64 then Some p else None.
End time.

(** ** Package runtime: what the reporter reads from the Go runtime *)

Module SizeClass.
(** One element of MemStats.BySize. *)
Record t : Type := mk { Size : Z; Mallocs : Z; Frees : Z }.
End SizeClass.

Module runtime.
(** runtime.MemStats, with the fields the reporter reads.  PauseNs is the
    array [256]uint64, BySize the array of size classes. *)
Record MemStats : Type := mkMemStats {
  Alloc : Z; TotalAlloc : Z; Sys : Z; Lookups : Z; Mallocs : Z; Frees : Z;
  HeapAlloc : Z; HeapSys : Z; HeapIdle : Z; HeapInuse : Z;
  HeapReleased : Z; HeapObjects : Z;
  StackInuse : Z; StackSys : Z; MSpanInuse : Z; MSpanSys : Z;
  MCacheInuse : Z; MCacheSys : Z; BuckHashSys : Z; GCSys : Z; OtherSys : Z;
  NextGC : Z; LastGC : Z; PauseTotalNs : Z;
  PauseNs : list Z;
  NumGC : Z; NumForcedGC : Z;
  GCCPUFraction : float64;
  BySize : list SizeClass.t
}.

(** The zero value runtime.MemStats{} (61 size classes, all zero). *)
Definition MemStats0 : MemStats :=
  mkMemStats 0 0 0 0 0 0 0 0 0 0 0 0 0 0 0 0 0 0 0 0 0 0 0 0
             (repeat 0 256) 0 0 (float64_of 0)
             (repeat (SizeClass.mk 0 0 0) 61).

(** What the toolchain fixes for the whole life of the process. *)
Record Build : Type := mkBuild { Version : string; GOARCH : string; GOOS : string }.

(** What the runtime answers at one instant: ReadMemStats, NumCPU(),
    NumCgoCall(), NumGoroutine() and GOMAXPROCS(0). *)
Record Now : Type := mkNow {
  ReadMemStats : MemStats;
  NumCPU : Z; NumCgoCall : Z; NumGoroutine : Z; GOMAXPROCS : Z
}.
End runtime.

(** ** Package statsd: the client, as the calls it receives *)

Module statsd.
Inductive call : Type :=
| Gauge (name : string) (value : float64) (tags : list string) (rate : float64)
| Count (name : string) (value : Z) (tags : list string) (rate : float64)
| Timing (name : string) (value : time.Duration) (tags : list string) (rate : float64).

(** The client is the list of the calls made on it, oldest first.  The
    error each call returns is dropped by every caller in this package. *)
Definition Client : Type := list call.

Definition name_of (c : call) : string :=
  match c with Gauge n _ _ _ | Count n _ _ _ | Timing n _ _ _ => n end.

Definition tags_of (c : call) : list string :=
  match c with Gauge _ _ t _ | Count _ _ t _ | Timing _ _ t _ => t end.

Definition is_gauge (c : call) : bool :=
  match c with Gauge _ _ _ _ => true | _ => false end.

Definition is_timing (c : call) : bool :=
  match c with Timing _ _ _ _ => true | _ => false end.
End statsd.

(** ** Package svcinfo *)

Module svcinfo.
(** The package variables as they stand once the package is initialised:
    set at link time, or taken from the environment, or empty. *)
Record Vars : Type := mkVars {
  var_CommitSHA : string; var_BuildDate : string; var_Version : string
}.

Record ServiceInfo : Type := mkServiceInfo {
  BuildDate : string; CommitSHA : string; Version : string
}.

Definition nonempty (s : string) : bool :=
  match s with EmptyString => false | _ => true end.

Definition GetDDTags (v : Vars) : list string :=
  let infoTags := [] in
  let infoTags :=
    if nonempty (var_CommitSHA v)
    then infoTags ++ [fmt.Sprintf_s "commit:" (var_CommitSHA v)] else infoTags in
  let infoTags :=
    if nonempty (var_BuildDate v)
    then infoTags ++ [fmt.Sprintf_s "build_date:" (var_BuildDate v)] else infoTags in
  let infoTags :=
    if nonempty (var_Version v)
    then infoTags ++ [fmt.Sprintf_s "version:" (var_Version v)] else infoTags in
  infoTags.

Definition GetInfo (v : Vars) : ServiceInfo :=
  {| BuildDate := var_BuildDate v;
     CommitSHA := var_CommitSHA v;
     Version := var_Version v |}.
End svcinfo.

(** ** Package reporter *)

Import statsd.

Definition DefaultPeriod : time.Duration := 5 * time.Second.

(** The package variable defaultTags. *)
Definition pkg_defaultTags : list string := [].

Record GoInfo : Type := mkGoInfo { Arch : string; OS : string; Version : string }.

Record RuntimeStats : Type := mkRuntimeStats {
  MaxProcs : Z; NumCPU : Z; NumCgoCall : Z; NumGoroutine : Z
}.

Record Stats : Type := mkStats {
  Stats_GoInfo : GoInfo;
  Stats_Mem : runtime.MemStats;
  Stats_Runtime : RuntimeStats;
  Stats_ServiceInfo : svcinfo.ServiceInfo
}.

(** The zero value Stats{}. *)
Definition Stats0 : Stats :=
  mkStats (mkGoInfo EmptyString EmptyString EmptyString)
          runtime.MemStats0 (mkRuntimeStats 0 0 0 0)
          (svcinfo.mkServiceInfo EmptyString EmptyString EmptyString).

(** The Reporter.  [ctx] is true once the context is done, which is all
    cancelFunc does; [dd] is the client with the calls made so far.  The
    embedded RWMutex is left to the locking model further down. *)
Record Reporter : Type := mkReporter {
  ctx : bool;
  dd : statsd.Client;
  period : time.Duration;
  stats : Stats;
  defaultTags : list string;
  infoTags : list string;
  runtimeTags : list string
}.

Definition set_period (t : time.Duration) (r : Reporter) : Reporter :=
  mkReporter (ctx r) (dd r) t (stats r) (defaultTags r) (infoTags r) (runtimeTags r).

Definition set_defaultTags (tags : list string) (r : Reporter) : Reporter :=
  mkReporter (ctx r) (dd r) (period r) (stats r) tags (infoTags r) (runtimeTags r).

Definition set_stats (s : Stats) (r : Reporter) : Reporter :=
  mkReporter (ctx r) (dd r) (period r) s (defaultTags r) (infoTags r) (runtimeTags r).

Definition set_dd (c : statsd.Client) (r : Reporter) : Reporter :=
  mkReporter (ctx r) c (period r) (stats r) (defaultTags r) (infoTags r) (runtimeTags r).

Definition set_ctx (b : bool) (r : Reporter) : Reporter :=
  mkReporter b (dd r) (period r) (stats r) (defaultTags r) (infoTags r) (runtimeTags r).

(** A []string is taken by its contents, and append by the contents of its
    result: each call on the client is recorded with the tags its slice
    holds at that moment.  For r.defaultTags and r.infoTags, and for the
    tags of the size-class gauges, this is what the code does whatever the
    slices are.  For r.runtimeTags it is what the code does as long as the
    slice of default tags has room for fewer than three more elements, as
    the package default and every slice literal have: with more room
    buildTags builds the runtime tags inside the array of the default tags
    and the size-class loop writes over the first of them.  The slices
    themselves, with their arrays, are modelled further down (TagSlices),
    where the two cases are told apart. *)

(** The option functions handed to New. *)
Definition Period (t : time.Duration) : Reporter -> Reporter :=
  fun r => set_period t r.

Definition DefaultTags (tags : list string) : Reporter -> Reporter :=
  fun r => set_defaultTags tags r.

Definition buildTags (v : svcinfo.Vars) (r : Reporter) : Reporter :=
  let infoTags' := svcinfo.GetDDTags v in
  let runtimeTags' := defaultTags r in
  let runtimeTags' :=
    runtimeTags' ++ [fmt.Sprintf_s "version:" (Version (Stats_GoInfo (stats r)));
                     fmt.Sprintf_s "arch:" (Arch (Stats_GoInfo (stats r)));
                     fmt.Sprintf_s "os:" (OS (Stats_GoInfo (stats r)))] in
  mkReporter (ctx r) (dd r) (period r) (stats r) (defaultTags r) infoTags' runtimeTags'.

(** fillStats: under the write lock, Mem is overwritten by ReadMemStats and
    Runtime by a fresh RuntimeStats. *)
Definition fillStats (now : runtime.Now) (r : Reporter) : Reporter :=
  set_stats
    {| Stats_GoInfo := Stats_GoInfo (stats r);
       Stats_Mem := runtime.ReadMemStats now;
       Stats_Runtime :=
         {| NumCPU := runtime.NumCPU now;
            NumCgoCall := runtime.NumCgoCall now;
            NumGoroutine := runtime.NumGoroutine now;
            MaxProcs := runtime.GOMAXPROCS now |};
       Stats_ServiceInfo := Stats_ServiceInfo (stats r) |}
    r.

Definition exportRuntimeStats (r : Reporter) : list call :=
  [ Gauge "go.num_cpu" (float64_of (NumCPU (Stats_Runtime (stats r)))) (defaultTags r) f1_0;
    Gauge "go.num_cgo_calls" (float64_of (NumCgoCall (Stats_Runtime (stats r)))) (defaultTags r) f1_0;
    Gauge "go.goroutines" (float64_of (NumGoroutine (Stats_Runtime (stats r)))) (defaultTags r) f1_0;
    Gauge "go.max_procs" (float64_of (MaxProcs (Stats_Runtime (stats r)))) (defaultTags r) f1_0 ].

(** exportRuntimeInfo, with the runtime tags by their contents (see the
    note on the tag slices above). *)
Definition exportRuntimeInfo (r : Reporter) : list call :=
  [ Gauge "go.runtime" f1_0 (runtimeTags r) f1_0 ].

Definition exportServiceInfo (r : Reporter) : list call :=
  if (0 <? Z.of_nat (List.length (infoTags r)))
  then [ Gauge "info" f1_0 (infoTags r) f1_0 ]
  else [].

(** *** exportMemStats *)

Section ExportMemStats.
Variable r : Reporter.

Let Mem : runtime.MemStats := Stats_Mem (stats r).

Definition gauge (name : string) (v : Z) : call :=
  Gauge name (float64_of v) (defaultTags r) f1_0.

(** The gauges sent before the pause loop. *)
Definition memGauges : list call :=
  [ gauge "go.mem.total_alloc" (runtime.TotalAlloc Mem);
    gauge "go.mem.alloc" (runtime.Alloc Mem);
    gauge "go.mem.sys" (runtime.Sys Mem);
    gauge "go.mem.lookups" (runtime.Lookups Mem);
    gauge "go.mem.mallocs" (runtime.Mallocs Mem);
    gauge "go.mem.frees" (runtime.Frees Mem);
    gauge "go.mem.heap_alloc" (runtime.HeapAlloc Mem);
    gauge "go.mem.heap_sys" (runtime.HeapSys Mem);
    gauge "go.mem.heap_idle" (runtime.HeapIdle Mem);
    gauge "go.mem.heap_inuse" (runtime.HeapInuse Mem);
    gauge "go.mem.heap_released" (runtime.HeapReleased Mem);
    gauge "go.mem.heap_objects" (runtime.HeapObjects Mem);
    gauge "go.mem.stack_inuse" (runtime.StackInuse Mem);
    gauge "go.mem.stack_sys" (runtime.StackSys Mem);
    gauge "go.mem.mspan_inuse" (runtime.MSpanInuse Mem);
    gauge "go.mem.mspan_sys" (runtime.MSpanSys Mem);
    gauge "go.mem.mcache_inuse" (runtime.MCacheInuse Mem);
    gauge "go.mem.mcache_sys" (runtime.MCacheSys Mem);
    gauge "go.mem.buck_hash_sys" (runtime.BuckHashSys Mem);
    gauge "go.mem.gc_sys" (runtime.GCSys Mem);
    gauge "go.mem.other_sys" (runtime.OtherSys Mem);
    gauge "go.mem.next_gc" (runtime.NextGC Mem);
    gauge "go.mem.last_gc" (runtime.LastGC Mem);
    gauge "go.mem.pause_total_ns" (runtime.PauseTotalNs Mem) ].

(** PauseNs[i%256]. *)
Definition pauseAt (i : Z) : Z :=
  nth (Z.to_nat (i mod 256)) (runtime.PauseNs Mem) 0.

(** One pass through the body of the pause loop at index i: the Timing
    call, or nothing when the parse fails ([continue]). *)
Definition pauseBody (i : Z) : list call :=
  match time.ParseDuration_ns (pauseAt i) with
  | None => []
  | Some t => [ Timing "go.mem.pause_ns" t (defaultTags r) f1_0 ]
  end.

(** [for i := lastGCNum; i <= NumGC; i++] on a uint32 counter.  Each unit
    of fuel pays for one test of the condition; None is a loop that is
    still running when the fuel is spent. *)
Fixpoint pauseLoop (fuel : nat) (i : Z) : option (list call) :=
  match fuel with
  | O => None
  | S fuel' =>
      if i <=? runtime.NumGC Mem
      then option_map (app (pauseBody i)) (pauseLoop fuel' (wrap32 (i + 1)))
      else Some []
  end.

(** The gauges sent after the pause loop. *)
Definition gcGauges : list call :=
  [ gauge "go.mem.num_gc" (runtime.NumGC Mem);
    gauge "go.mem.num_forced_gc" (runtime.NumForcedGC Mem);
    Gauge "go.mem.gc_cpu_fraction" (runtime.GCCPUFraction Mem) (defaultTags r) f1_0;
    gauge "go.mem.num_forced_gc" (runtime.NumForcedGC Mem);
    gauge "go.mem.num_forced_gc" (runtime.NumForcedGC Mem) ].

(** The body of the loop over BySize. *)
Definition bySizeBody (b : SizeClass.t) : list call :=
  let tags := defaultTags r in
  let tags := tags ++ [fmt.Sprintf_d "size:" (SizeClass.Size b)] in
  [ Gauge "go.mem.mallocs_by_size" (float64_of (SizeClass.Mallocs b)) tags f1_0;
    Gauge "go.mem.frees_by_size" (float64_of (SizeClass.Frees b)) tags f1_0 ].

Definition bySizeGauges : list call :=
  flat_map bySizeBody (runtime.BySize Mem).

(** Fuel that pays for every test of a pause loop that ends: one per
    index from lastGCNum to NumGC and one for the test that fails. *)
Definition pauseFuel (lastGCNum : Z) : nat :=
  S (Z.to_nat (runtime.NumGC Mem - lastGCNum + 1)).

(** exportMemStats, as the calls it makes in order; None when the pause
    loop never ends. *)
Definition exportMemStats (lastGCNum : Z) : option (list call) :=
  match pauseLoop (pauseFuel lastGCNum) lastGCNum with
  | None => None
  | Some pauses => Some (memGauges ++ pauses ++ gcGauges ++ bySizeGauges)
  end.
End ExportMemStats.

(** GetStats: under the read lock, the stats by value. *)
Definition GetStats (r : Reporter) : Stats := stats r.

(** Cancel: cancelFunc marks the context done. *)
Definition Cancel (r : Reporter) : Reporter := set_ctx true r.

(** *** watch: the worker goroutine *)

(** A time.Timer delivers one value on its channel C.  [Armed t] is a timer
    created by NewTimer(t) whose value has not been received yet; [Drained]
    is a timer whose value has been received: nothing will arrive on its
    channel again.  There is no clock here: the value of an armed timer
    arrives at some moment, which is when the select may take its case. *)
Inductive Timer : Type :=
| Armed (t : time.Duration)
| Drained.

(** The variables of the goroutine, with [returned] set once it has left
    the loop. *)
Record Worker : Type := mkWorker {
  lastGCNum : Z;
  timer : Timer;
  returned : bool
}.

(** The Reporter and its worker. *)
Record System : Type := mkSystem { rep : Reporter; worker : Worker }.

(** The calls of one pass of the loop body on the freshly filled stats;
    None when exportMemStats never returns. *)
Definition passCalls (r : Reporter) (lastGCNum : Z) : option (list call) :=
  match exportMemStats r lastGCNum with
  | None => None
  | Some mem =>
      Some (mem ++ exportRuntimeStats r ++ exportRuntimeInfo r ++ exportServiceInfo r)
  end.

(** The timer the loop waits on after a pass that took processTime: a new
    one when period - processTime is positive; otherwise [timer] keeps the
    timer whose value this pass has just received. *)
Definition nextTimer (period processTime : time.Duration) : Timer :=
  if wrap64 (period - processTime) >? 0
  then Armed (wrap64 (period - processTime))
  else Drained.

(** The case of the select that is taken.  [TimerC now processTime]: the
    value of the timer is received; [now] is what the runtime answers during
    the pass and [processTime] is time.Since(start) at its end.  [CtxDone]:
    the context is done. *)
Inductive Case : Type :=
| TimerC (now : runtime.Now) (processTime : time.Duration)
| CtxDone.

(** What taking a case leads to.  [Spins] is a pass whose pause loop never
    ends: the worker keeps sending pause samples and does not come back to
    its select. *)
Inductive Outcome : Type :=
| Next (s : System)     (* back at the select, or returned *)
| NotReady              (* this case cannot be taken in this state *)
| Spins.                (* the pass never ends *)

Definition watch_select (s : System) (c : Case) : Outcome :=
  let r := rep s in
  let w := worker s in
  if returned w then NotReady else
  match c with
  | TimerC now processTime =>
      match timer w with
      | Drained => NotReady
      | Armed _ =>
          let lastGCNum := runtime.NumGC (Stats_Mem (stats r)) in
          let r := fillStats now r in
          match passCalls r lastGCNum with
          | None => Spins
          | Some calls =>
              Next {| rep := set_dd (dd r ++ calls) r;
                      worker := {| lastGCNum := lastGCNum;
                                   timer := nextTimer (period r) processTime;
                                   returned := false |} |}
          end
      end
  | CtxDone =>
      if ctx r
      then Next {| rep := r;
                   worker := {| lastGCNum := lastGCNum w;
                                timer := timer w;
                                returned := true |} |}
      else NotReady
  end.

(** watch starts the goroutine: lastGCNum is 0 and the timer is
    NewTimer(0). *)
Definition watch (r : Reporter) : System :=
  {| rep := r;
     worker := {| lastGCNum := 0; timer := Armed 0; returned := false |} |}.

(** *** New *)

(** What New reads from its surroundings: the variables of svcinfo and the
    constants of the toolchain. *)
Record Env : Type := mkEnv { env_svcinfo : svcinfo.Vars; env_build : runtime.Build }.

Definition New (e : Env) (client : statsd.Client)
           (options : list (Reporter -> Reporter)) : System :=
  let r := {| ctx := false;
              dd := client;
              period := DefaultPeriod;
              stats := Stats0;
              defaultTags := pkg_defaultTags;
              infoTags := [];
              runtimeTags := [] |} in
  let r := fold_left (fun r o => o r) options r in
  let r := set_stats
             {| Stats_GoInfo := {| Version := runtime.Version (env_build e);
                                   Arch := runtime.GOARCH (env_build e);
                                   OS := runtime.GOOS (env_build e) |};
                Stats_Mem := runtime.MemStats0;
                Stats_Runtime := mkRuntimeStats 0 0 0 0;
                Stats_ServiceInfo := svcinfo.GetInfo (env_svcinfo e) |} r in
  let r := buildTags (env_svcinfo e) r in
  let r := set_dd (dd r ++ [ Count "startup" 1 [] f1_0 ]) r in
  watch r.

(** *** Runs *)

(** What happens around a Reporter: its worker takes a case of its select,
    or some goroutine calls Cancel. *)
Inductive Action : Type :=
| Select (c : Case)
| CallCancel.

Definition act (s : System) (a : Action) : Outcome :=
  match a with
  | Select c => watch_select s c
  | CallCancel => Next {| rep := Cancel (rep s); worker := worker s |}
  end.

(** A run: the actions in order; None when one of them cannot be taken or
    never ends. *)
Fixpoint run (s : System) (l : list Action) : option System :=
  match l with
  | [] => Some s
  | a :: l' =>
      match act s a with
      | Next s' => run s' l'
      | NotReady | Spins => None
      end
  end.

(** ** fillStats and GetStats under the RWMutex

    The worker runs fillStats while other goroutines call GetStats.  Each
    of them is cut into its steps: taking the lock, each write or read of a
    field of r.stats, releasing the lock.  A schedule picks who makes its
    next step. *)

Module sync.
(** sync.RWMutex, after the documentation of package sync: the lock is held
    by one writer or by any number of readers, and once a writer has called
    Lock, the calls of RLock wait until that writer has had the lock and
    released it.  [readers] counts the readers that hold the lock,
    [blocked] those that wait in RLock. *)
Inductive Writer : Type :=
| NoWriter          (* no goroutine is in Lock or holds the lock *)
| WriterWaits       (* a writer is in Lock and waits for the readers to leave *)
| WriterHolds.      (* a writer has the lock *)

Record RWMutex : Type := mkRWMutex { writer : Writer; readers : nat; blocked : nat }.

Definition unlocked : RWMutex := mkRWMutex NoWriter 0 0.

(** The start of Lock: the writer announces itself, and has the lock at
    once when no reader holds it.  None: another writer is there, and the
    caller waits for it. *)
Definition Lock (m : RWMutex) : option RWMutex :=
  match writer m with
  | NoWriter =>
      Some (mkRWMutex (if (readers m =? 0)%nat then WriterHolds else WriterWaits)
                      (readers m) (blocked m))
  | _ => None
  end.

(** Unlock: the readers that waited in RLock hold the lock from now on. *)
Definition Unlock (m : RWMutex) : RWMutex :=
  mkRWMutex NoWriter (readers m + blocked m) 0.

(** RLock: the caller holds the lock (true), or there is a writer and the
    caller waits until its Unlock (false). *)
Definition RLock (m : RWMutex) : RWMutex * bool :=
  match writer m with
  | NoWriter => (mkRWMutex NoWriter (S (readers m)) (blocked m), true)
  | w => (mkRWMutex w (readers m) (S (blocked m)), false)
  end.

(** RUnlock: the last reader to leave hands the lock to the writer that
    waits for it. *)
Definition RUnlock (m : RWMutex) : RWMutex :=
  let n := pred (readers m) in
  mkRWMutex match writer m with
            | WriterWaits => if (n =? 0)%nat then WriterHolds else WriterWaits
            | w => w
            end
            n (blocked m).
End sync.

(** Where the worker is in fillStats. *)
Inductive FillPc : Type :=
| FillIdle                           (* outside fillStats *)
| FillWaiting (now : runtime.Now)    (* in r.Lock() *)
| FillLocked (now : runtime.Now)     (* r.Lock() done *)
| FillMem (now : runtime.Now)        (* ReadMemStats(&r.stats.Mem) done *)
| FillRuntime.                       (* r.stats.Runtime written, Unlock to come *)

(** Where a caller is in GetStats.  [return r.stats] copies the struct field
    after field into the result; the deferred RUnlock runs once the result
    is built. *)
Inductive GetPc : Type :=
| GetIdle                                                  (* not called yet *)
| GetWaiting                                               (* in r.RLock() *)
| GetLocked                                                (* r.RLock() done *)
| GetGoInfo (g : GoInfo)
| GetMem (g : GoInfo) (m : runtime.MemStats)
| GetRuntime (g : GoInfo) (m : runtime.MemStats) (rt : RuntimeStats)
| GetCopied (s : Stats)                                    (* result built *)
| GetReturned (s : Stats).                                 (* RUnlock done, s returned *)

Record Shared : Type := mkShared {
  mu : sync.RWMutex;                 (* the RWMutex embedded in the Reporter *)
  shared : Stats;                    (* r.stats *)
  filler : FillPc;
  getters : list GetPc
}.

Fixpoint set_at {A : Type} (l : list A) (i : nat) (v : A) : list A :=
  match l, i with
  | [], _ => []
  | _ :: l', O => v :: l'
  | x :: l', S i' => x :: set_at l' i' v
  end.

(** What Unlock does to a caller of GetStats: one that waited in RLock
    has the read lock. *)
Definition wake (p : GetPc) : GetPc :=
  match p with
  | GetWaiting => GetLocked
  | _ => p
  end.

(** The next step of the worker in fillStats; [now] is what the runtime
    answers to a pass that starts here.  None: the worker is in Lock and
    a reader still holds the lock. *)
Definition fillStats_step (now : runtime.Now) (c : Shared) : option Shared :=
  match filler c with
  | FillIdle =>
      match sync.Lock (mu c) with
      | Some m => Some (mkShared m (shared c) (FillWaiting now) (getters c))
      | None => None
      end
  | FillWaiting n =>
      match sync.writer (mu c) with
      | sync.WriterHolds => Some (mkShared (mu c) (shared c) (FillLocked n) (getters c))
      | _ => None
      end
  | FillLocked n =>
      Some (mkShared (mu c)
              {| Stats_GoInfo := Stats_GoInfo (shared c);
                 Stats_Mem := runtime.ReadMemStats n;
                 Stats_Runtime := Stats_Runtime (shared c);
                 Stats_ServiceInfo := Stats_ServiceInfo (shared c) |}
              (FillMem n) (getters c))
  | FillMem n =>
      Some (mkShared (mu c)
              {| Stats_GoInfo := Stats_GoInfo (shared c);
                 Stats_Mem := Stats_Mem (shared c);
                 Stats_Runtime :=
                   {| NumCPU := runtime.NumCPU n;
                      NumCgoCall := runtime.NumCgoCall n;
                      NumGoroutine := runtime.NumGoroutine n;
                      MaxProcs := runtime.GOMAXPROCS n |};
                 Stats_ServiceInfo := Stats_ServiceInfo (shared c) |}
              FillRuntime (getters c))
  | FillRuntime =>
      Some (mkShared (sync.Unlock (mu c)) (shared c) FillIdle (map wake (getters c)))
  end.

(** The next step of caller i in GetStats.  None: the caller waits in
    RLock, or has returned, or does not exist. *)
Definition GetStats_step (i : nat) (c : Shared) : option Shared :=
  let goes (m : sync.RWMutex) (p : GetPc) :=
    Some (mkShared m (shared c) (filler c) (set_at (getters c) i p)) in
  match nth_error (getters c) i with
  | Some GetIdle =>
      let (m, got) := sync.RLock (mu c) in
      goes m (if got then GetLocked else GetWaiting)
  | Some GetWaiting => None
  | Some GetLocked => goes (mu c) (GetGoInfo (Stats_GoInfo (shared c)))
  | Some (GetGoInfo g) => goes (mu c) (GetMem g (Stats_Mem (shared c)))
  | Some (GetMem g m) => goes (mu c) (GetRuntime g m (Stats_Runtime (shared c)))
  | Some (GetRuntime g m rt) =>
      goes (mu c) (GetCopied (mkStats g m rt (Stats_ServiceInfo (shared c))))
  | Some (GetCopied s) => goes (sync.RUnlock (mu c)) (GetReturned s)
  | Some (GetReturned _) => None
  | None => None
  end.

Inductive Move : Type :=
| Fill (now : runtime.Now)
| Get (i : nat).

Definition move (c : Shared) (m : Move) : option Shared :=
  match m with
  | Fill now => fillStats_step now c
  | Get i => GetStats_step i c
  end.

(** A schedule; None when a move is made by someone who has to wait or has
    nothing left to do. *)
Fixpoint schedule (c : Shared) (l : list Move) : option Shared :=
  match l with
  | [] => Some c
  | m :: l' =>
      match move c m with
      | Some c' => schedule c' l'
      | None => None
      end
  end.

(** What the runtime answered to the passes that started during a
    schedule: one sample for each call of fillStats, taken where the call
    starts. *)
Fixpoint samples (c : Shared) (l : list Move) : list runtime.Now :=
  match l with
  | [] => []
  | m :: l' =>
      match move c m with
      | Some c' =>
          match m, filler c with
          | Fill now, FillIdle => now :: samples c' l'
          | _, _ => samples c' l'
          end
      | None => []
      end
  end.

(** A Reporter between two passes, with n goroutines about to call
    GetStats. *)
Definition at_rest (r : Reporter) (n : nat) : Shared :=
  mkShared sync.unlocked (stats r) FillIdle (repeat GetIdle n).

(** One snapshot of a Reporter [r0] whose passes sampled [nows]: the stats
    as they were at the start, or the stats one whole fillStats leaves, Mem
    and Runtime both taken from the sample of that one pass. *)
Definition Snapshot (r0 : Reporter) (nows : list runtime.Now) (s : Stats) : Prop :=
  s = stats r0 \/ exists now, In now nows /\ s = stats (fillStats now r0).

(** * Vocabulary of the properties *)

(** The indices from [lo] to [hi], both included, in increasing order. *)
Definition indices (lo hi : Z) : list Z :=
  map (fun k => lo + Z.of_nat k) (seq 0 (Z.to_nat (hi - lo + 1))).

(** The go.mem.pause_ns timing samples among some calls, in order. *)
Definition pauseSamples (calls : list call) : list call :=
  filter (fun c => is_timing c && (name_of c =? "go.mem.pause_ns")%string) calls.

(** How many gauges of a given name there are among some calls. *)
Definition gaugeCount (name : string) (calls : list call) : nat :=
  List.length (filter (fun c => is_gauge c && (name_of c =? name)%string) calls).

(** NumGC of the stats a Reporter holds. *)
Definition numGC (r : Reporter) : Z := runtime.NumGC (Stats_Mem (stats r)).

(** The rule of the inclusive range, read as a count: a pass started with
    lastGCNum = last sends NumGC - last + 1 pause samples. *)
Definition sends_whole_range (r : Reporter) (last : Z) : Prop :=
  exists calls,
    exportMemStats r last = Some calls /\
    List.length (pauseSamples calls) = Z.to_nat (numGC r - last + 1).

(** Equality of tag lists. *)
Fixpoint tags_eqb (a b : list string) : bool :=
  match a, b with
  | [], [] => true
  | x :: a', y :: b' => (x =? y)%string && tags_eqb a' b'
  | _, _ => false
  end.

(** The calls of a given name that carry exactly the given tags. *)
Definition callsAt (name : string) (tags : list string) (calls : list call)
  : list call :=
  filter (fun c => (name_of c =? name)%string && tags_eqb (tags_of c) tags) calls.

(** The size-class gauges among some calls. *)
Definition bySizeCalls (calls : list call) : list call :=
  filter (fun c => (name_of c =? "go.mem.mallocs_by_size")%string
                   || (name_of c =? "go.mem.frees_by_size")%string) calls.

(** The default tags followed by the label of a size class. *)
Definition sizeTags (r : Reporter) (b : SizeClass.t) : list string :=
  defaultTags r ++ [fmt.Sprintf_d "size:" (SizeClass.Size b)].

(** The gauges of a given name among some calls. *)
Definition gaugesNamed (name : string) (calls : list call) : list call :=
  filter (fun c => is_gauge c && (name_of c =? name)%string) calls.

(** The reading of the calls of exportMemStats under which go.mem.num_forced_gc
    is the only gauge name sent more than once: it is sent three times,
    and every other go.mem. gauge name that is sent is sent once. *)
Definition forced_gc_alone_repeats (calls : list call) : Prop :=
  gaugeCount "go.mem.num_forced_gc" calls = 3%nat /\
  forall name,
    String.prefix "go.mem." name = true ->
    name <> "go.mem.num_forced_gc" ->
    (0 < gaugeCount name calls)%nat ->
    gaugeCount name calls = 1%nat.


(** The go.mem. gauge names exportMemStats has besides
    go.mem.num_forced_gc and the two names of the size-class loop. *)
Definition names_sent_once : list string :=
  [ "go.mem.total_alloc"; "go.mem.alloc"; "go.mem.sys"; "go.mem.lookups";
    "go.mem.mallocs"; "go.mem.frees"; "go.mem.heap_alloc"; "go.mem.heap_sys";
    "go.mem.heap_idle"; "go.mem.heap_inuse"; "go.mem.heap_released";
    "go.mem.heap_objects"; "go.mem.stack_inuse"; "go.mem.stack_sys";
    "go.mem.mspan_inuse"; "go.mem.mspan_sys"; "go.mem.mcache_inuse";
    "go.mem.mcache_sys"; "go.mem.buck_hash_sys"; "go.mem.gc_sys";
    "go.mem.other_sys"; "go.mem.next_gc"; "go.mem.last_gc";
    "go.mem.pause_total_ns"; "go.mem.num_gc"; "go.mem.gc_cpu_fraction" ].

(** What a Reporter keeps from construction on: the static part of the
    stats, the period and the three tag lists. *)
Definition fixed_part (r : Reporter)
  : GoInfo * svcinfo.ServiceInfo * time.Duration
    * list string * list string * list string :=
  (Stats_GoInfo (stats r), Stats_ServiceInfo (stats r), period r,
   defaultTags r, infoTags r, runtimeTags r).

(** The Reporter as New leaves it once the options are applied, before the
    stats are set. *)
Definition configured (client : statsd.Client)
           (options : list (Reporter -> Reporter)) : Reporter :=
  fold_left (fun r o => o r) options
    {| ctx := false; dd := client; period := DefaultPeriod; stats := Stats0;
       defaultTags := pkg_defaultTags; infoTags := []; runtimeTags := [] |}.


(** The wait of the older loop of watch, which sleeps instead of arming a
    timer: time.Sleep(period - processTime) when that is positive, no sleep
    otherwise; after it the next pass starts. *)
Definition sleepBeforeNextPass (period processTime : time.Duration) : time.Duration :=
  if wrap64 (period - processTime) >? 0
  then wrap64 (period - processTime)
  else 0.


(** A caller that holds the read lock. *)
Definition holding (p : GetPc) : bool :=
  match p with
  | GetIdle | GetWaiting | GetReturned _ => false
  | _ => true
  end.

(** A caller that waits in RLock. *)
Definition waiting (p : GetPc) : bool :=
  match p with
  | GetWaiting => true
  | _ => false
  end.

Definition nholding (l : list GetPc) : nat := List.length (filter holding l).

Definition nwaiting (l : list GetPc) : nat := List.length (filter waiting l).

Definition is_idle (f : FillPc) : bool :=
  match f with FillIdle => true | _ => false end.

(** The worker has the lock. *)
Definition writing (f : FillPc) : bool :=
  match f with
  | FillLocked _ | FillMem _ | FillRuntime => true
  | _ => false
  end.

(** What a caller has copied so far is what r.stats holds, and what it has
    returned is a snapshot. *)
Definition getter_ok (r0 : Reporter) (nows : list runtime.Now) (sh : Stats) (p : GetPc)
  : Prop :=
  match p with
  | GetIdle | GetWaiting | GetLocked => True
  | GetGoInfo g => g = Stats_GoInfo sh
  | GetMem g m => g = Stats_GoInfo sh /\ m = Stats_Mem sh
  | GetRuntime g m rt =>
      g = Stats_GoInfo sh /\ m = Stats_Mem sh /\ rt = Stats_Runtime sh
  | GetCopied s => s = sh
  | GetReturned s => Snapshot r0 nows s
  end.

(** r.stats is a snapshot except between the two writes of fillStats,
    where its Mem is already the one of the pass under way. *)
Definition filler_ok (r0 : Reporter) (nows : list runtime.Now) (sh : Stats) (f : FillPc)
  : Prop :=
  match f with
  | FillIdle | FillRuntime => Snapshot r0 nows sh
  | FillWaiting n | FillLocked n => In n nows /\ Snapshot r0 nows sh
  | FillMem n => In n nows /\ Stats_Mem sh = runtime.ReadMemStats n
  end.

(** The writer of the mutex that goes with a place of the worker. *)
Definition writer_ok (w : sync.Writer) (f : FillPc) : Prop :=
  match f with
  | FillIdle => w = sync.NoWriter
  | FillWaiting _ => w <> sync.NoWriter
  | _ => w = sync.WriterHolds
  end.

(** The invariant of the schedules, [nows] being the samples of the passes
    started so far. *)
Record Inv (r0 : Reporter) (nows : list runtime.Now) (c : Shared) : Prop := mkInv {
  inv_writer : writer_ok (sync.writer (mu c)) (filler c);
  inv_waits : sync.writer (mu c) = sync.WriterWaits -> sync.readers (mu c) <> 0%nat;
  inv_holds : sync.writer (mu c) = sync.WriterHolds -> sync.readers (mu c) = 0%nat;
  inv_readers : sync.readers (mu c) = nholding (getters c);
  inv_blocked : sync.blocked (mu c) = nwaiting (getters c);
  inv_nowriter : sync.writer (mu c) = sync.NoWriter -> sync.blocked (mu c) = 0%nat;
  inv_GoInfo : Stats_GoInfo (shared c) = Stats_GoInfo (stats r0);
  inv_ServiceInfo : Stats_ServiceInfo (shared c) = Stats_ServiceInfo (stats r0);
  inv_filler : filler_ok r0 nows (shared c) (filler c);
  inv_getters : Forall (getter_ok r0 nows (shared c)) (getters c)
}.

(** ** Inputs used in the examples *)

Definition env_ex : Env :=
  mkEnv (svcinfo.mkVars "4f2a9c1" "2019-03-01" "v1.4.0")
        (runtime.mkBuild "go1.12" "amd64" "linux").

(** Memory statistics with a given GC count, pause ring and size classes,
    everything else zero. *)
Definition mem_ex (gc : Z) (pauses : list Z) (classes : list SizeClass.t)
  : runtime.MemStats :=
  runtime.mkMemStats 0 0 0 0 0 0 0 0 0 0 0 0 0 0 0 0 0 0 0 0 0 0 0 0
                     pauses gc 0 (float64_of 0) classes.

Definition now_ex (m : runtime.MemStats) : runtime.Now :=
  runtime.mkNow m 4 0 12 4.

(** A pause ring whose entry k is 1000 * k nanoseconds. *)
Definition ring_ex : list Z := map (fun k => 1000 * Z.of_nat k) (seq 0 256).

(** The same ring with entry 11 too large for a Duration. *)
Definition ring_bad : list Z :=
  map (fun k => if (k =? 11)%nat then 2 ^ 63 else 1000 * Z.of_nat k) (seq 0 256).

Definition classes_ex : list SizeClass.t :=
  [ SizeClass.mk 16 100 40; SizeClass.mk 32 5 5 ].

(** Sixty-one size classes, as many as runtime.MemStats.BySize holds: class
    k has size 8k, 3k mallocs and 2k frees. *)
Definition classes_61 : list SizeClass.t :=
  map (fun k => SizeClass.mk (8 * Z.of_nat k) (3 * Z.of_nat k) (2 * Z.of_nat k))
      (seq 0 61).

(** The Reporter that New builds with no option, after a pass that read
    [gc] GCs, the ring [ring] and the 61 size classes. *)
Definition reporter_61 (gc : Z) (ring : list Z) : Reporter :=
  fillStats (now_ex (mem_ex gc ring classes_61)) (rep (New env_ex [] [])).

(** The Reporter that New builds with no option, after a pass that read 13
    GCs and the ring [ring]. *)
Definition reporter_ex (ring : list Z) : Reporter :=
  fillStats (now_ex (mem_ex 13 ring classes_ex)) (rep (New env_ex [] [])).

(** Two passes, reading 10 and then 13 GCs, each taking 2 ms. *)
Definition run_ex : list Action :=
  [ Select (TimerC (now_ex (mem_ex 10 ring_ex classes_ex)) 2000000);
    Select (TimerC (now_ex (mem_ex 13 ring_ex classes_ex)) 2000000) ].

(** A Reporter configured with one default tag. *)
Definition tagged_ex : System := New env_ex [] [DefaultTags ["env:prod"]].

(** A pass that takes 6 seconds. *)
Definition slow_pass : Case := TimerC (now_ex (mem_ex 10 ring_ex classes_ex)) (6 * time.Second).

(** Three callers of GetStats around one fillStats.  Caller 0 has the read
    lock when the worker calls Lock, so the worker waits; caller 1 calls
    RLock while the worker waits and is held back until the Unlock; caller
    2 calls once the pass is over. *)
Definition schedule_ex : list Move :=
  let now := now_ex (mem_ex 13 ring_ex classes_ex) in
  [ Get 0; Get 0; Fill now; Get 1; Get 0; Get 0; Get 0; Get 0;
    Fill now; Fill now; Fill now; Fill now;
    Get 1; Get 1; Get 1; Get 1; Get 1;
    Get 2; Get 2; Get 2; Get 2; Get 2; Get 2 ]%nat.

(** * More of the packages *)

(** ** svcinfo: the variables when the package starts *)

Module svcinfo_init.
Definition commitSHAEnv : string := "COMMIT_SHA".
Definition buildDateEnv : string := "BUILD_DATE".
Definition versionEnv : string := "VERSION".

(** init, run once when the package is loaded.  [compiled] holds the
    variables as the linker set them and [Getenv] is os.Getenv, which
    answers the empty string for a variable that is not set. *)
Definition init (Getenv : string -> string) (compiled : svcinfo.Vars) : svcinfo.Vars :=
  let CommitSHA := svcinfo.var_CommitSHA compiled in
  let BuildDate := svcinfo.var_BuildDate compiled in
  let Version := svcinfo.var_Version compiled in
  let CommitSHA :=
    if negb (svcinfo.nonempty CommitSHA) && svcinfo.nonempty (Getenv commitSHAEnv)
    then Getenv commitSHAEnv else CommitSHA in
  let BuildDate :=
    if negb (svcinfo.nonempty BuildDate) && svcinfo.nonempty (Getenv buildDateEnv)
    then Getenv buildDateEnv else BuildDate in
  let Version :=
    if negb (svcinfo.nonempty Version) && svcinfo.nonempty (Getenv versionEnv)
    then Getenv versionEnv else Version in
  svcinfo.mkVars CommitSHA BuildDate Version.
End svcinfo_init.

(** How many of the three variables are set. *)
Definition vars_set (v : svcinfo.Vars) : nat :=
  ((if svcinfo.nonempty (svcinfo.var_CommitSHA v) then 1 else 0)
   + (if svcinfo.nonempty (svcinfo.var_BuildDate v) then 1 else 0)
   + (if svcinfo.nonempty (svcinfo.var_Version v) then 1 else 0))%nat.

(** An environment that sets COMMIT_SHA and VERSION only. *)
Definition getenv_ex (name : string) : string :=
  if (name =? "COMMIT_SHA")%string then "9d07e21"
  else if (name =? "VERSION")%string then "v2.0.0"
  else EmptyString.

(** ** Passes of the worker *)

(** A pass that the loop of a Reporter of period [p] answers by arming a
    timer: it reads a GC count below the largest uint32 and takes less than
    the period. *)
Definition quick (p : time.Duration) (c : Case) : Prop :=
  match c with
  | TimerC now processTime =>
      0 <= runtime.NumGC (runtime.ReadMemStats now) < MaxUint32 /\
      0 <= processTime < p
  | CtxDone => False
  end.

(** The pause sample that carries [t] with the default tags of [r]. *)
Definition pauseSample (r : Reporter) (t : time.Duration) : call :=
  Timing "go.mem.pause_ns" t (defaultTags r) f1_0.


(** Three passes of 2 ms: 10 GCs, 13 GCs, and 13 GCs again. *)
Definition passes_ex : list Case :=
  [ TimerC (now_ex (mem_ex 10 ring_ex classes_ex)) 2000000;
    TimerC (now_ex (mem_ex 13 ring_ex classes_ex)) 2000000;
    TimerC (now_ex (mem_ex 13 ring_ex classes_ex)) 2000000 ].

(** A Reporter built where svcinfo has no variable set. *)
Definition env_bare : Env :=
  mkEnv (svcinfo.mkVars EmptyString EmptyString EmptyString)
        (runtime.mkBuild "go1.12" "amd64" "linux").

(** ** Progress under the RWMutex *)

(** The steps a caller that is inside GetStats still has to make; the end
    of its wait in RLock is a step of the worker, its Unlock. *)
Definition steps_left (p : GetPc) : nat :=
  match p with
  | GetIdle => 0
  | GetWaiting => 5
  | GetLocked => 5
  | GetGoInfo _ => 4
  | GetMem _ _ => 3
  | GetRuntime _ _ _ => 2
  | GetCopied _ => 1
  | GetReturned _ => 0
  end.

(** The steps the worker still has to make to leave fillStats. *)
Definition fill_left (f : FillPc) : nat :=
  match f with
  | FillIdle => 0
  | FillWaiting _ => 4
  | FillLocked _ => 3
  | FillMem _ => 2
  | FillRuntime => 1
  end.

Fixpoint steps_of (l : list GetPc) : nat :=
  match l with
  | [] => 0
  | p :: l' => steps_left p + steps_of l'
  end.

(** The steps that are left of the calls under way. *)
Definition work (c : Shared) : nat :=
  (fill_left (filler c) + steps_of (getters c))%nat.

(** A move of a goroutine that is inside a call, as opposed to the start
    of a new call. *)
Definition inside (c : Shared) (m : Move) : bool :=
  match m with
  | Fill _ => negb (is_idle (filler c))
  | Get i =>
      match nth_error (getters c) i with
      | Some GetIdle | None => false
      | Some _ => true
      end
  end.

(** A schedule in which no new call starts. *)
Fixpoint finishing (c : Shared) (l : list Move) : option Shared :=
  match l with
  | [] => Some c
  | m :: l' =>
      if inside c m
      then match move c m with
           | Some c' => finishing c' l'
           | None => None
           end
      else None
  end.

(** Two callers of GetStats and the worker, all three inside their calls:
    caller 0 copies, the worker waits in Lock, caller 1 waits in RLock. *)
Definition crowded_ex : list Move :=
  [ Get 0; Get 0; Fill (now_ex (mem_ex 13 ring_ex classes_ex)); Get 1 ]%nat.

(** ** The tag slices and their backing arrays

    The three tag lists of a Reporter are Go slices, and both buildTags and
    the size-class loop of exportMemStats append to r.defaultTags.  Here a
    slice is an index into a heap of backing arrays with a length and a
    capacity, and append writes in place when the capacity allows. *)

Module slices.
Record Slice : Type := mkSlice { arr : nat; len : nat; cap : nat }.

(** The backing arrays; the capacity of a slice is the length of its
    array (every slice here starts at the first element of its array). *)
Definition Heap : Type := list (list string).

Definition contents (h : Heap) (s : Slice) : list string :=
  firstn (len s) (nth (arr s) h []).

(** The array [a] with [vals] written from index [i] on. *)
Definition write (a : list string) (i : nat) (vals : list string) : list string :=
  firstn i a ++ vals ++ skipn (i + List.length vals) a.

(** A slice the caller made with some spare capacity, in a heap of its own. *)
Definition make (tags : list string) (spare : nat) : Heap * Slice :=
  ([tags ++ repeat EmptyString spare],
   mkSlice 0 (List.length tags) (List.length tags + spare)).

(** The literal []string{}: a new array of no element. *)
Definition empty (h : Heap) : Heap * Slice :=
  (h ++ [[]], mkSlice (List.length h) 0 0).

Section Append.
(** How much more than what is asked for a new backing array holds; Go
    leaves it to the implementation. *)
Variable extra : nat -> nat.

(** append(s, vals...): in place when the capacity is enough, in a new
    array otherwise. *)
Definition append (h : Heap) (s : Slice) (vals : list string) : Heap * Slice :=
  let n := (len s + List.length vals)%nat in
  if (n <=? cap s)%nat
  then (set_at h (arr s) (write (nth (arr s) h []) (len s) vals),
        mkSlice (arr s) n (cap s))
  else (h ++ [contents h s ++ vals ++ repeat EmptyString (extra n)],
        mkSlice (List.length h) n (n + extra n)).
End Append.

(** A slice that fits the heap it lives in. *)
Definition wf (h : Heap) (s : Slice) : Prop :=
  (arr s < List.length h)%nat /\
  List.length (nth (arr s) h []) = cap s /\
  (len s <= cap s)%nat.
End slices.

(** The tag slices of a Reporter. *)
Record TagSlices : Type := mkTagSlices {
  heap : slices.Heap;
  sl_defaultTags : slices.Slice;
  sl_infoTags : slices.Slice;
  sl_runtimeTags : slices.Slice
}.

(** A Reporter with its three tag lists read off their slices. *)
Definition view (r : Reporter) (t : TagSlices) : Reporter :=
  mkReporter (ctx r) (dd r) (period r) (stats r)
             (slices.contents (heap t) (sl_defaultTags t))
             (slices.contents (heap t) (sl_infoTags t))
             (slices.contents (heap t) (sl_runtimeTags t)).

Section TagSlices.
Variable extra : nat -> nat.

(** svcinfo.GetDDTags, on slices. *)
Definition GetDDTags_sl (v : svcinfo.Vars) (h : slices.Heap) : slices.Heap * slices.Slice :=
  let '(h, infoTags) := slices.empty h in
  let '(h, infoTags) :=
    if svcinfo.nonempty (svcinfo.var_CommitSHA v)
    then slices.append extra h infoTags [fmt.Sprintf_s "commit:" (svcinfo.var_CommitSHA v)]
    else (h, infoTags) in
  let '(h, infoTags) :=
    if svcinfo.nonempty (svcinfo.var_BuildDate v)
    then slices.append extra h infoTags [fmt.Sprintf_s "build_date:" (svcinfo.var_BuildDate v)]
    else (h, infoTags) in
  let '(h, infoTags) :=
    if svcinfo.nonempty (svcinfo.var_Version v)
    then slices.append extra h infoTags [fmt.Sprintf_s "version:" (svcinfo.var_Version v)]
    else (h, infoTags) in
  (h, infoTags).

(** buildTags, on slices: r.runtimeTags starts as r.defaultTags itself. *)
Definition buildTags_sl (v : svcinfo.Vars) (g : GoInfo) (t : TagSlices) : TagSlices :=
  let '(h, infoTags) := GetDDTags_sl v (heap t) in
  let runtimeTags := sl_defaultTags t in
  let '(h, runtimeTags) :=
    slices.append extra h runtimeTags
      [ fmt.Sprintf_s "version:" (Version g);
        fmt.Sprintf_s "arch:" (Arch g);
        fmt.Sprintf_s "os:" (OS g) ] in
  mkTagSlices h (sl_defaultTags t) infoTags runtimeTags.

(** The loop over BySize, on slices: each round starts again from
    r.defaultTags and appends its size label. *)
Fixpoint bySizeLoop_sl (h : slices.Heap) (defaultTags : slices.Slice)
         (classes : list SizeClass.t) : list call * slices.Heap :=
  match classes with
  | [] => ([], h)
  | b :: rest =>
      let tags := defaultTags in
      let '(h, tags) :=
        slices.append extra h tags [fmt.Sprintf_d "size:" (SizeClass.Size b)] in
      let calls :=
        [ Gauge "go.mem.mallocs_by_size" (float64_of (SizeClass.Mallocs b))
                (slices.contents h tags) f1_0;
          Gauge "go.mem.frees_by_size" (float64_of (SizeClass.Frees b))
                (slices.contents h tags) f1_0 ] in
      let '(more, h) := bySizeLoop_sl h defaultTags rest in
      (calls ++ more, h)
  end.

(** The calls of one pass, on slices, and the slices after it: every list
    of tags is read when its call is made. *)
Definition passCalls_sl (r : Reporter) (t : TagSlices) (lastGCNum : Z)
  : option (list call * TagSlices) :=
  let v := view r t in
  match pauseLoop v (pauseFuel v lastGCNum) lastGCNum with
  | None => None
  | Some pauses =>
      let '(sizes, h) :=
        bySizeLoop_sl (heap t) (sl_defaultTags t)
                      (runtime.BySize (Stats_Mem (stats r))) in
      let t' := mkTagSlices h (sl_defaultTags t) (sl_infoTags t) (sl_runtimeTags t) in
      let v' := view r t' in
      Some ((memGauges v ++ pauses ++ gcGauges v ++ sizes)
              ++ exportRuntimeStats v' ++ exportRuntimeInfo v' ++ exportServiceInfo v',
            t')
  end.

(** The tag slices as New leaves them, for default tags handed over in
    the slice [d] of the heap [h]. *)
Definition New_sl (e : Env) (h : slices.Heap) (d : slices.Slice) : TagSlices :=
  buildTags_sl (env_svcinfo e)
               {| Version := runtime.Version (env_build e);
                  Arch := runtime.GOARCH (env_build e);
                  OS := runtime.GOOS (env_build e) |}
               (mkTagSlices h d d d).
End TagSlices.

(** New backing arrays of exactly the length asked for. *)
Definition tight (n : nat) : nat := 0%nat.

(** New backing arrays of twice the length asked for. *)
Definition doubling (n : nat) : nat := n.

(** The tag slices are apart when the info tags and the runtime tags do
    not live in the backing array of the default tags. *)
Definition apart (t : TagSlices) : Prop :=
  slices.wf (heap t) (sl_defaultTags t) /\
  slices.wf (heap t) (sl_infoTags t) /\
  slices.wf (heap t) (sl_runtimeTags t) /\
  slices.arr (sl_infoTags t) <> slices.arr (sl_defaultTags t) /\
  slices.arr (sl_runtimeTags t) <> slices.arr (sl_defaultTags t).

(** A slice made after the heap was [h0], in an array the heap [h0] did
    not have, the arrays of [h0] being left as they were. *)
Definition made_after (h0 h : slices.Heap) (s : slices.Slice) : Prop :=
  (List.length h0 <= slices.arr s)%nat /\
  slices.wf h s /\
  (List.length h0 <= List.length h)%nat /\
  forall a, (a < List.length h0)%nat -> nth a h [] = nth a h0 [].

(** A Reporter with the default tag env:prod after a pass that read 3 GCs. *)
Definition reporter_tagged_ex : Reporter :=
  fillStats (now_ex (mem_ex 3 ring_ex classes_ex)) (rep tagged_ex).

(** The tag slices New leaves for the default tags ["env:prod"] in a
    slice with [spare] more elements of capacity. *)
Definition tag_slices_ex (extra : nat -> nat) (spare : nat) : TagSlices :=
  New_sl extra env_ex (fst (slices.make ["env:prod"] spare))
         (snd (slices.make ["env:prod"] spare)).

(** ** The older Reporter: buildTags on slices

    The older buildTags starts the info tags from r.defaultTags too.  Its
    [v] are the variables CommitSHA, BuildDate and Version of the package
    reporter itself. *)

Section OlderBuildTags.
Variable extra : nat -> nat.

Definition buildTags_v1_sl (v : svcinfo.Vars) (g : GoInfo) (t : TagSlices) : TagSlices :=
  let h := heap t in
  let infoTags := sl_defaultTags t in
  let '(h, infoTags) :=
    if svcinfo.nonempty (svcinfo.var_CommitSHA v)
    then slices.append extra h infoTags [fmt.Sprintf_s "commit:" (svcinfo.var_CommitSHA v)]
    else (h, infoTags) in
  let '(h, infoTags) :=
    if svcinfo.nonempty (svcinfo.var_BuildDate v)
    then slices.append extra h infoTags [fmt.Sprintf_s "build_date:" (svcinfo.var_BuildDate v)]
    else (h, infoTags) in
  let '(h, infoTags) :=
    if svcinfo.nonempty (svcinfo.var_Version v)
    then slices.append extra h infoTags [fmt.Sprintf_s "version:" (svcinfo.var_Version v)]
    else (h, infoTags) in
  let runtimeTags := sl_defaultTags t in
  let '(h, runtimeTags) :=
    slices.append extra h runtimeTags
      [ fmt.Sprintf_s "version:" (Version g);
        fmt.Sprintf_s "arch:" (Arch g);
        fmt.Sprintf_s "os:" (OS g) ] in
  mkTagSlices h (sl_defaultTags t) infoTags runtimeTags.
End OlderBuildTags.

(** What the appends of the info tags keep true: the slice built so far, in
    the heap [h], holds the default tags followed by [tags]; with room for
    three more elements it is still in the array of the default tags. *)
Definition info_so_far (d : slices.Slice) (D : list string)
           (h : slices.Heap) (s : slices.Slice) (tags : list string) : Prop :=
  slices.wf h s /\ slices.wf h d /\
  slices.contents h s = D ++ tags /\ slices.contents h d = D /\
  (slices.len d <= slices.len s)%nat /\
  ((slices.len d + 3 <= slices.cap d)%nat -> (List.length tags <= 3)%nat ->
   slices.arr s = slices.arr d /\ slices.len s = (slices.len d + List.length tags)%nat).

(** ** Package healthz *)

Module healthz.
Definition healthy : Z := 0.
Definition unhealthy : Z := 1.

Definition rootPrefix : string := "/healthz".

Record statusInfo : Type := mkStatusInfo { HTTPCode : Z; Description : string }.

Definition statuses : list statusInfo :=
  [ mkStatusInfo 200 "healthy"; mkStatusInfo 503 "unhealthy" ].

(** statuses[i]; None is the panic of an index out of range. *)
Definition status_at (i : Z) : option statusInfo :=
  if i <? 0 then None else nth_error statuses (Z.to_nat i).

(** The Healthz.  [dd] and [reporter] say whether the pointer is set. *)
Record Healthz : Type := mkHealthz {
  alive : Z;
  ready : Z;
  Status : Z;
  dd : bool;
  ddRate : float64;
  reporter : bool
}.

(** The option functions of New. *)
Definition SetDataDogClient (client : bool) (rate : float64) : Healthz -> Healthz :=
  fun h => mkHealthz (alive h) (ready h) (Status h) client rate (reporter h).

Definition SetReporter (r : bool) : Healthz -> Healthz :=
  fun h => mkHealthz (alive h) (ready h) (Status h) (dd h) (ddRate h) r.

Definition SetAlive : Healthz -> Healthz :=
  fun h => mkHealthz healthy (ready h) (Status h) (dd h) (ddRate h) (reporter h).

(** http.ServeMux, as the patterns registered on it.  What HandleFunc
    refuses with a panic is a matter of the Go version the service is built
    with: which patterns it takes as malformed and which registered
    pattern it takes to conflict with a new one.  Up to Go 1.21 the empty
    pattern is malformed and a pattern conflicts with itself only; from
    Go 1.22 on patterns have a syntax of their own (methods, hosts,
    wildcards) and two patterns conflict when neither is more specific
    than the other.  In every version the empty pattern is refused and a
    pattern conflicts with itself. *)
Definition ServeMux : Type := list string.

Record Rules : Type := mkRules {
  malformed : string -> bool;
  conflicts : string -> string -> bool     (* new pattern, registered pattern *)
}.

Definition lawful (rules : Rules) : Prop :=
  malformed rules EmptyString = true /\ forall p, conflicts rules p p = true.

(** The rules of the ServeMux up to Go 1.21. *)
Definition go1_21 : Rules := mkRules (fun p => (p =? EmptyString)%string) String.eqb.

Definition HandleFunc (rules : Rules) (mux : ServeMux) (pattern : string)
  : option ServeMux :=
  if malformed rules pattern then None
  else if existsb (conflicts rules pattern) mux then None
  else Some (mux ++ [pattern]).

(** The patterns New registers, in order; path.Join of the prefix and a
    clean relative path is the two with a slash in between. *)
Definition patterns : list string :=
  [ (rootPrefix ++ "/")%string;
    (rootPrefix ++ "/" ++ "ready")%string;
    (rootPrefix ++ "/" ++ "alive")%string;
    (rootPrefix ++ "/" ++ "stats")%string;
    (rootPrefix ++ "/" ++ "diediedie")%string;
    (rootPrefix ++ "/" ++ "abortabortabort")%string;
    (rootPrefix ++ "/pprof/")%string;
    (rootPrefix ++ "/" ++ "pprof/cmdline")%string;
    (rootPrefix ++ "/" ++ "pprof/profile")%string;
    (rootPrefix ++ "/" ++ "pprof/symbol")%string;
    (rootPrefix ++ "/" ++ "pprof/trace")%string ].

Fixpoint register (rules : Rules) (mux : ServeMux) (l : list string)
  : option ServeMux :=
  match l with
  | [] => Some mux
  | p :: l' =>
      match HandleFunc rules mux p with
      | Some mux' => register rules mux' l'
      | None => None
      end
  end.

Inductive NewResult : Type :=
| NewOk (h : Healthz) (mux : ServeMux)
| NewErr (err : string)
| NewPanic.

(** New; [mux] is None for a nil *http.ServeMux. *)
Definition New (rules : Rules) (mux : option ServeMux)
           (opts : list (Healthz -> Healthz)) : NewResult :=
  match mux with
  | None => NewErr "you must provide a http.ServeMux"
  | Some mux =>
      let h := mkHealthz unhealthy unhealthy unhealthy false (float64_of 0) false in
      let h := fold_left (fun h opt => opt h) opts h in
      match register rules mux patterns with
      | Some mux' => NewOk h mux'
      | None => NewPanic
      end
  end.

Definition Ready (h : Healthz) : Healthz :=
  mkHealthz (alive h) healthy (Status h) (dd h) (ddRate h) (reporter h).

Definition NotReady (h : Healthz) : Healthz :=
  mkHealthz (alive h) unhealthy (Status h) (dd h) (ddRate h) (reporter h).

Definition Alive (h : Healthz) : Healthz :=
  mkHealthz healthy (ready h) (Status h) (dd h) (ddRate h) (reporter h).

Definition NotAlive (h : Healthz) : Healthz :=
  mkHealthz unhealthy (ready h) (Status h) (dd h) (ddRate h) (reporter h).

(** A call of TimeInMilliseconds on the client. *)
Record metric : Type := TimeInMilliseconds {
  m_name : string; m_value : float64; m_tags : list string; m_rate : float64
}.

(** The struct statsHandler marshals. *)
Record StatsInfo : Type := mkStatsInfo {
  info_Status : statusInfo;
  info_SvcInfo : svcinfo.ServiceInfo;
  info_GoInfo : GoInfo;
  info_GoRuntime : RuntimeStats
}.

(** What is written to the ResponseWriter after the header: a text, or the
    JSON of a StatsInfo, kept as the value that is marshalled. *)
Inductive Body : Type :=
| Text (s : string)
| Json (i : StatsInfo).

(** What a handler does with a request: it answers with a status code and
    a body, or panics, or ends the process; with the calls it made on the
    client. *)
Inductive Outcome : Type :=
| Responds (code : Z) (body : Body) (metrics : list metric)
| Panics (metrics : list metric)
| Exits (code : Z).

(** The verb %t. *)
Definition t (b : bool) : string := if b then "true" else "false".

(** float64(time.Since(start) * time.Millisecond), time.Since(start) being
    [elapsed]: the product of two Durations, in int64. *)
Definition elapsed_value (elapsed : time.Duration) : float64 :=
  float64_of (wrap64 (elapsed * 1000000)).

(** readyHandler.  The call on the client is deferred: its arguments are
    taken when the defer statement runs, and it is made when the handler
    ends, a panic included. *)
Definition readyHandler (h : Healthz) (elapsed : time.Duration) : Outcome :=
  let ready := ready h in
  let deferred :=
    if dd h
    then [ TimeInMilliseconds "healthz.ready" (elapsed_value elapsed)
             [ ("ready:" ++ t (Z.eqb ready healthy))%string ] (ddRate h) ]
    else [] in
  match status_at ready with
  | Some st => Responds (HTTPCode st) (Text (Description st)) deferred
  | None => Panics deferred
  end.

(** livelinessHandler: the call on the client is made before the answer. *)
Definition livelinessHandler (h : Healthz) (elapsed : time.Duration) : Outcome :=
  let alive := alive h in
  let sent :=
    if dd h
    then [ TimeInMilliseconds "healthz.alive" (elapsed_value elapsed)
             [ ("alive:" ++ t (Z.eqb alive healthy))%string ] (ddRate h) ]
    else [] in
  match status_at alive with
  | Some st => Responds (HTTPCode st) (Text (Description st)) sent
  | None => Panics sent
  end.

(** statsHandler; [r] is the Reporter h.reporter points to, as it is when
    the request comes.  err is nil when the deferred call takes its
    arguments, and json.MarshalIndent does not fail on a struct of strings
    and integers. *)
Definition statsHandler (h : Healthz) (r : Reporter) (elapsed : time.Duration) : Outcome :=
  match status_at (Status h) with
  | None => Panics []
  | Some st =>
      let info :=
        mkStatsInfo st (svcinfo.mkServiceInfo EmptyString EmptyString EmptyString)
                    (mkGoInfo EmptyString EmptyString EmptyString)
                    (mkRuntimeStats 0 0 0 0) in
      let info :=
        if reporter h
        then let stats := GetStats r in
             mkStatsInfo (info_Status info) (Stats_ServiceInfo stats)
                         (Stats_GoInfo stats) (Stats_Runtime stats)
        else info in
      let deferred :=
        if dd h
        then [ TimeInMilliseconds "healthz.stats" (elapsed_value elapsed)
                 [ ("error:" ++ t false)%string ] (ddRate h) ]
        else [] in
      Responds 200 (Json info) deferred
  end.

Definition dieDieDieHandler : Outcome := Exits 255.

Definition abortAbortAbortHandler (h : Healthz) : Healthz * Outcome :=
  let h := NotReady h in
  let h := NotAlive h in
  (h, Responds 200 (Text "App reporting as unhealthy...") []).

(** What the service and its clients do to a Healthz. *)
Inductive Op : Type :=
| OpReady | OpNotReady | OpAlive | OpNotAlive
| ReqReady (elapsed : time.Duration)
| ReqAlive (elapsed : time.Duration)
| ReqStats (r : Reporter) (elapsed : time.Duration)
| ReqAbort.

Definition apply (h : Healthz) (o : Op) : Healthz :=
  match o with
  | OpReady => Ready h
  | OpNotReady => NotReady h
  | OpAlive => Alive h
  | OpNotAlive => NotAlive h
  | ReqReady _ | ReqAlive _ | ReqStats _ _ => h
  | ReqAbort => fst (abortAbortAbortHandler h)
  end.

(** The options a service can hand to New: the three the package exports. *)
Inductive Opt : Type :=
| OptDataDog (client : bool) (rate : float64)
| OptReporter (r : bool)
| OptAlive.

Definition opt (o : Opt) : Healthz -> Healthz :=
  match o with
  | OptDataDog client rate => SetDataDogClient client rate
  | OptReporter r => SetReporter r
  | OptAlive => SetAlive
  end.
End healthz.

(** The calls that leave the readiness, or the liveliness, as it is. *)
Definition keeps_ready (o : healthz.Op) : Prop :=
  o <> healthz.OpReady /\ o <> healthz.OpNotReady /\ o <> healthz.ReqAbort.

Definition keeps_alive (o : healthz.Op) : Prop :=
  o <> healthz.OpAlive /\ o <> healthz.OpNotAlive /\ o <> healthz.ReqAbort.

(** A Healthz after some calls. *)
Definition after (h : healthz.Healthz) (ops : list healthz.Op) : healthz.Healthz :=
  fold_left healthz.apply ops h.

(** Whether SetAlive is among some options. *)
Definition has_OptAlive (opts : list healthz.Opt) : bool :=
  existsb (fun o => match o with healthz.OptAlive => true | _ => false end) opts.

(** What no option and no call changes: the exported field Status, and
    that alive and ready index the table of statuses. *)
Definition settled (h : healthz.Healthz) : Prop :=
  healthz.Status h = healthz.unhealthy /\
  (healthz.alive h = healthz.healthy \/ healthz.alive h = healthz.unhealthy) /\
  (healthz.ready h = healthz.healthy \/ healthz.ready h = healthz.unhealthy).

(** * Properties *)

(** ** The pause loop *)

Lemma indices_empty (lo hi : Z) : hi < lo -> indices lo hi = [].
Proof.
  intros H. unfold indices.
  replace (Z.to_nat (hi - lo + 1)) with 0%nat by lia. reflexivity.
Qed.

Lemma indices_cons (lo hi : Z) :
  lo <= hi -> indices lo hi = lo :: indices (lo + 1) hi.
Proof.
  intros H. unfold indices.
  replace (Z.to_nat (hi - lo + 1)) with (S (Z.to_nat (hi - (lo + 1) + 1))) by lia.
  cbn [seq map]. f_equal; [lia|].
  rewrite <- seq_shift, map_map.
  apply map_ext. intros k. lia.
Qed.

Lemma indices_length (lo hi : Z) :
  List.length (indices lo hi) = Z.to_nat (hi - lo + 1).
Proof. unfold indices. now rewrite length_map, length_seq. Qed.

Lemma indices_In (lo hi i : Z) : In i (indices lo hi) <-> lo <= i <= hi.
Proof.
  unfold indices. rewrite in_map_iff. split.
  - intros (k & <- & Hk). apply in_seq in Hk. lia.
  - intros H. exists (Z.to_nat (i - lo)). split; [lia|]. apply in_seq. lia.
Qed.

Lemma indices_app (lo mid hi : Z) :
  lo <= mid -> mid <= hi + 1 ->
  indices lo hi = indices lo (mid - 1) ++ indices mid hi.
Proof.
  intros H1 H2.
  remember (Z.to_nat (mid - lo)) as n eqn:En.
  revert lo H1 En. induction n as [|n IH]; intros lo H1 En.
  - assert (lo = mid) by lia. subst lo.
    rewrite (indices_empty mid (mid - 1)) by lia. reflexivity.
  - rewrite (indices_cons lo hi) by lia.
    rewrite (indices_cons lo (mid - 1)) by lia.
    cbn [app]. f_equal. apply IH; lia.
Qed.

Section PauseLoop.
Variable r : Reporter.


(** A loop that ends makes the calls of its body at each index from i to
    NumGC, in order, whatever fuel is left over. *)
Lemma pauseLoop_ends (fuel : nat) (i : Z) :
  0 <= i -> numGC r < MaxUint32 ->
  (Z.to_nat (numGC r - i + 1) < fuel)%nat ->
  pauseLoop r fuel i = Some (flat_map (pauseBody r) (indices i (numGC r))).
Proof.
  intros Hi Hmax. revert i Hi.
  induction fuel as [|fuel IH]; intros i Hi Hfuel; [lia|].
  cbn [pauseLoop]. change (runtime.NumGC (Stats_Mem (stats r))) with (numGC r).
  destruct (Z.leb_spec i (numGC r)) as [Hle|Hgt].
  - assert (Hw : wrap32 (i + 1) = i + 1).
    { unfold wrap32. apply Z.mod_small. unfold MaxUint32 in Hmax. lia. }
    rewrite Hw, IH by lia.
    rewrite (indices_cons i (numGC r)) by lia. reflexivity.
  - rewrite indices_empty by lia. reflexivity.
Qed.

(** With NumGC at the largest uint32 the condition i <= NumGC holds for
    every value of the counter: no amount of fuel ends the loop. *)
Lemma pauseLoop_spins (fuel : nat) (i : Z) :
  numGC r = MaxUint32 -> 0 <= i <= MaxUint32 ->
  pauseLoop r fuel i = None.
Proof.
  intros Hmax. revert i.
  induction fuel as [|fuel IH]; intros i Hi; [reflexivity|].
  cbn [pauseLoop]. change (runtime.NumGC (Stats_Mem (stats r))) with (numGC r).
  destruct (Z.leb_spec i (numGC r)) as [Hle|Hgt]; [|lia].
  rewrite IH; [reflexivity|].
  unfold wrap32, MaxUint32.
  pose proof (Z.mod_pos_bound (i + 1) (2 ^ 32) ltac:(lia)). lia.
Qed.

Lemma exportMemStats_ends (last : Z) :
  0 <= last -> numGC r < MaxUint32 ->
  exportMemStats r last =
    Some (memGauges r ++ flat_map (pauseBody r) (indices last (numGC r))
            ++ gcGauges r ++ bySizeGauges r).
Proof.
  intros Hl Hmax. unfold exportMemStats.
  rewrite pauseLoop_ends; [reflexivity|assumption|assumption|].
  unfold pauseFuel. change (runtime.NumGC (Stats_Mem (stats r))) with (numGC r). lia.
Qed.

Lemma exportMemStats_spins (last : Z) :
  numGC r = MaxUint32 -> 0 <= last <= MaxUint32 ->
  exportMemStats r last = None.
Proof.
  intros Hmax Hl. unfold exportMemStats.
  now rewrite pauseLoop_spins.
Qed.

(** On well-typed counters None is never a lack of fuel: when
    exportMemStats answers None the pause loop is still running after any
    number of tests. *)
Lemma exportMemStats_None (last : Z) :
  0 <= last <= MaxUint32 -> numGC r <= MaxUint32 ->
  exportMemStats r last = None ->
  forall fuel, pauseLoop r fuel last = None.
Proof.
  intros Hl Hn Hnone fuel.
  destruct (Z.eq_dec (numGC r) MaxUint32) as [Hmax|Hne].
  - now apply pauseLoop_spins.
  - rewrite exportMemStats_ends in Hnone by lia. discriminate Hnone.
Qed.
End PauseLoop.

(** ** Pause samples *)

Lemma pauseSamples_app (l1 l2 : list call) :
  pauseSamples (l1 ++ l2) = pauseSamples l1 ++ pauseSamples l2.
Proof. apply filter_app. Qed.

Lemma pauseSamples_memGauges (r : Reporter) : pauseSamples (memGauges r) = [].
Proof. reflexivity. Qed.

Lemma pauseSamples_gcGauges (r : Reporter) : pauseSamples (gcGauges r) = [].
Proof. reflexivity. Qed.

Lemma pauseSamples_bySizeGauges (r : Reporter) : pauseSamples (bySizeGauges r) = [].
Proof.
  unfold bySizeGauges.
  induction (runtime.BySize (Stats_Mem (stats r))) as [|b l IH]; [reflexivity|].
  cbn [flat_map]. rewrite pauseSamples_app, IH. reflexivity.
Qed.

Lemma pauseSamples_pauseBody (r : Reporter) (l : list Z) :
  pauseSamples (flat_map (pauseBody r) l) = flat_map (pauseBody r) l.
Proof.
  induction l as [|i l IH]; [reflexivity|].
  cbn [flat_map]. rewrite pauseSamples_app, IH. f_equal.
  unfold pauseBody. destruct (time.ParseDuration_ns (pauseAt r i)); reflexivity.
Qed.

Lemma pauseBody_parsed (r : Reporter) (l : list Z) :
  (forall i, In i l -> pauseAt r i <= MaxInt64) ->
  flat_map (pauseBody r) l =
    map (fun i => Timing "go.mem.pause_ns" (pauseAt r i) (defaultTags r) f1_0) l.
Proof.
  induction l as [|i l IH]; intros H; [reflexivity|].
  cbn [flat_map map]. rewrite IH by (intros; apply H; now right).
  unfold pauseBody, time.ParseDuration_ns.
  destruct (Z.leb_spec (pauseAt r i) MaxInt64) as [_|Hgt]; [reflexivity|].
  specialize (H i (or_introl eq_refl)). lia.
Qed.

(** C1 (amended).  For a pass started with lastGCNum = last (in watch, the
    NumGC the stats held before fillStats) on stats whose NumGC (the count
    read by this pass) is below the largest uint32, exportMemStats sends one
    go.mem.pause_ns timing for each index i from last to NumGC whose
    entry PauseNs[i mod 256] parses as a duration, in the order of the
    indices, and none for the other indices.  When every entry of the
    range parses and last <= NumGC these are exactly NumGC - last + 1
    samples, the one at index i carrying PauseNs[i mod 256]. *)
Theorem pause_samples_of_pass (r : Reporter) (last : Z) :
  0 <= last -> numGC r < MaxUint32 ->
  exists calls,
    exportMemStats r last = Some calls /\
    pauseSamples calls =
      flat_map
        (fun i =>
           match time.ParseDuration_ns
                   (nth (Z.to_nat (i mod 256)) (runtime.PauseNs (Stats_Mem (stats r))) 0)
           with
           | Some t => [ Timing "go.mem.pause_ns" t (defaultTags r) f1_0 ]
           | None => []
           end)
        (indices last (numGC r)) /\
    (last <= numGC r ->
     (forall i, last <= i <= numGC r ->
        time.ParseDuration_ns
          (nth (Z.to_nat (i mod 256)) (runtime.PauseNs (Stats_Mem (stats r))) 0) <> None) ->
     List.length (pauseSamples calls) = Z.to_nat (numGC r - last + 1) /\
     pauseSamples calls =
       map (fun i =>
              Timing "go.mem.pause_ns"
                     (nth (Z.to_nat (i mod 256)) (runtime.PauseNs (Stats_Mem (stats r))) 0)
                     (defaultTags r) f1_0)
           (indices last (numGC r))).
Proof.
  intros Hlast Hmax.
  eexists. split; [apply exportMemStats_ends; assumption|].
  assert (Hs : pauseSamples
                 (memGauges r ++ flat_map (pauseBody r) (indices last (numGC r))
                    ++ gcGauges r ++ bySizeGauges r)
               = flat_map (pauseBody r) (indices last (numGC r))).
  { rewrite !pauseSamples_app, pauseSamples_memGauges, pauseSamples_gcGauges,
      pauseSamples_bySizeGauges, pauseSamples_pauseBody.
    cbn [app]. now rewrite app_nil_r. }
  rewrite Hs. split; [reflexivity|].
  intros Hle Hparse.
  assert (Hall : forall i, In i (indices last (numGC r)) -> pauseAt r i <= MaxInt64).
  { intros i Hi. apply indices_In in Hi. specialize (Hparse i Hi).
    unfold time.ParseDuration_ns in Hparse. fold (pauseAt r i) in Hparse.
    destruct (Z.leb_spec (pauseAt r i) MaxInt64); [assumption|congruence]. }
  rewrite (pauseBody_parsed r _ Hall). split.
  - now rewrite length_map, indices_length.
  - reflexivity.
Qed.

Lemma pause_samples_of_pass_witness :
  0 <= 10 /\ numGC (reporter_ex ring_ex) < MaxUint32 /\
  exists calls,
    exportMemStats (reporter_ex ring_ex) 10 = Some calls /\
    pauseSamples calls =
      [ Timing "go.mem.pause_ns" 10000 [] f1_0;
        Timing "go.mem.pause_ns" 11000 [] f1_0;
        Timing "go.mem.pause_ns" 12000 [] f1_0;
        Timing "go.mem.pause_ns" 13000 [] f1_0 ].
Proof.
  assert (H0 : 0 <= 10) by lia.
  assert (H1 : numGC (reporter_ex ring_ex) < MaxUint32) by (vm_compute; reflexivity).
  split; [exact H0|]. split; [exact H1|].
  destruct (pause_samples_of_pass (reporter_ex ring_ex) 10 H0 H1)
    as (calls & Hc & Hs & _).
  exists calls. split; [exact Hc|]. rewrite Hs. vm_compute. reflexivity.
Defined.

(** C1, as the spec states it, fails where an entry of the range does not
    parse: with last = 10, NumGC = 13 and PauseNs[11] = 2^63 the pass sends
    three samples, not 13 - 10 + 1 = 4. *)
Lemma pause_sample_skipped_in_range : ~ sends_whole_range (reporter_ex ring_bad) 10.
Proof.
  intros (calls & Hc & Hn).
  vm_compute in Hc. injection Hc as <-.
  vm_compute in Hn. discriminate Hn.
Qed.

(** ** Entries of the pause ring that do not parse *)

Lemma passCalls_ends (r : Reporter) (last : Z) :
  0 <= last -> numGC r < MaxUint32 ->
  passCalls r last =
    Some ((memGauges r ++ flat_map (pauseBody r) (indices last (numGC r))
             ++ gcGauges r ++ bySizeGauges r)
            ++ exportRuntimeStats r ++ exportRuntimeInfo r ++ exportServiceInfo r).
Proof.
  intros Hl Hmax. unfold passCalls. now rewrite exportMemStats_ends.
Qed.

Lemma length_zero_lt (A : Type) (l : list A) :
  (0 <? Z.of_nat (List.length l)) = match l with [] => false | _ => true end.
Proof. destruct l; [reflexivity|]. cbn [List.length]. apply Z.ltb_lt. lia. Qed.

(** C9.  An index i of the range whose entry PauseNs[i mod 256] fails to
    parse gets no Timing call.  In a pass whose NumGC is below the largest
    uint32 the loop then goes on with the indices after i, and the pass
    makes every call that follows the loop: the five gauges after it, the
    two gauges of each size class, the four runtime gauges, the go.runtime
    gauge and the info gauge.  In a pass whose NumGC is the largest uint32
    the loop never ends, with or without the skip, and none of the calls
    that follow it is made. *)
Theorem unparseable_pause_is_skipped (r : Reporter) (last i : Z) :
  0 <= last -> last <= i <= numGC r -> numGC r <= MaxUint32 ->
  time.ParseDuration_ns
    (nth (Z.to_nat (i mod 256)) (runtime.PauseNs (Stats_Mem (stats r))) 0) = None ->
  let Mem := Stats_Mem (stats r) in
  let tags := defaultTags r in
  let sample (j : Z) :=
    match time.ParseDuration_ns (nth (Z.to_nat (j mod 256)) (runtime.PauseNs Mem) 0) with
    | Some t => [ Timing "go.mem.pause_ns" t tags f1_0 ]
    | None => []
    end in
  let G (name : string) (v : Z) := Gauge name (float64_of v) tags f1_0 in
  sample i = [] /\
  (numGC r < MaxUint32 ->
   exists runtimeTags,
     passCalls r last =
       Some (memGauges r
               ++ flat_map sample (indices last (i - 1))
               ++ flat_map sample (indices (i + 1) (numGC r))
               ++ [ G "go.mem.num_gc" (runtime.NumGC Mem);
                    G "go.mem.num_forced_gc" (runtime.NumForcedGC Mem);
                    Gauge "go.mem.gc_cpu_fraction" (runtime.GCCPUFraction Mem) tags f1_0;
                    G "go.mem.num_forced_gc" (runtime.NumForcedGC Mem);
                    G "go.mem.num_forced_gc" (runtime.NumForcedGC Mem) ]
               ++ flat_map
                    (fun b =>
                       [ Gauge "go.mem.mallocs_by_size" (float64_of (SizeClass.Mallocs b))
                               (tags ++ [fmt.Sprintf_d "size:" (SizeClass.Size b)]) f1_0;
                         Gauge "go.mem.frees_by_size" (float64_of (SizeClass.Frees b))
                               (tags ++ [fmt.Sprintf_d "size:" (SizeClass.Size b)]) f1_0 ])
                    (runtime.BySize Mem)
               ++ [ G "go.num_cpu" (NumCPU (Stats_Runtime (stats r)));
                    G "go.num_cgo_calls" (NumCgoCall (Stats_Runtime (stats r)));
                    G "go.goroutines" (NumGoroutine (Stats_Runtime (stats r)));
                    G "go.max_procs" (MaxProcs (Stats_Runtime (stats r))) ]
               ++ [ Gauge "go.runtime" f1_0 runtimeTags f1_0 ]
               ++ match infoTags r with
                  | [] => []
                  | _ => [ Gauge "info" f1_0 (infoTags r) f1_0 ]
                  end)) /\
  (numGC r = MaxUint32 ->
   passCalls r last = None /\ forall fuel, pauseLoop r fuel last = None).
Proof.
  intros Hl Hi Hle Hparse Mem tags sample G.
  assert (Hi0 : sample i = []) by (unfold sample; subst Mem; now rewrite Hparse).
  split; [exact Hi0|]. split.
  - intros Hmax. exists (runtimeTags r).
    assert (Hsplit : flat_map sample (indices last (numGC r)) =
                     flat_map sample (indices last (i - 1))
                       ++ flat_map sample (indices (i + 1) (numGC r))).
    { rewrite (indices_app last i (numGC r)) by lia.
      rewrite (indices_cons i (numGC r)) by lia.
      rewrite flat_map_app. cbn [flat_map]. now rewrite Hi0. }
    rewrite passCalls_ends by assumption.
    change (flat_map (pauseBody r)) with (flat_map sample).
    rewrite Hsplit. unfold exportServiceInfo. rewrite length_zero_lt.
    rewrite <- !app_assoc. do 3 f_equal. f_equal. f_equal.
    now destruct (infoTags r).
  - intros Hmax. split.
    + unfold passCalls. rewrite exportMemStats_spins; [reflexivity|exact Hmax|lia].
    + intros fuel. apply pauseLoop_spins; [exact Hmax|lia].
Qed.

Lemma unparseable_pause_is_skipped_witness :
  (exists calls,
     passCalls (reporter_61 13 ring_bad) 10 = Some calls /\
     pauseSamples calls = [ Timing "go.mem.pause_ns" 10000 [] f1_0;
                            Timing "go.mem.pause_ns" 12000 [] f1_0;
                            Timing "go.mem.pause_ns" 13000 [] f1_0 ] /\
     List.length calls = (24 + 3 + 5 + 2 * 61 + 4 + 1 + 1)%nat /\
     List.last calls (Count "none" 0 [] f1_0) =
       Gauge "info" f1_0 ["commit:4f2a9c1"; "build_date:2019-03-01"; "version:v1.4.0"]
             f1_0) /\
  passCalls (reporter_61 MaxUint32 ring_bad) 10 = None.
Proof.
  assert (H0 : 0 <= 10) by lia.
  assert (H3 : forall gc,
             time.ParseDuration_ns
               (nth (Z.to_nat (11 mod 256))
                    (runtime.PauseNs (Stats_Mem (stats (reporter_61 gc ring_bad)))) 0) = None)
    by (intros gc; vm_compute; reflexivity).
  split.
  - assert (H1 : 10 <= 11 <= numGC (reporter_61 13 ring_bad))
      by (vm_compute; split; discriminate).
    assert (H2 : numGC (reporter_61 13 ring_bad) <= MaxUint32)
      by (vm_compute; discriminate).
    destruct (unparseable_pause_is_skipped (reporter_61 13 ring_bad) 10 11 H0 H1 H2 (H3 13))
      as (_ & Hends & _).
    destruct Hends as (rt & Hc); [vm_compute; reflexivity|].
    eexists. split; [exact Hc|]. vm_compute. repeat split.
  - assert (H1 : 10 <= 11 <= numGC (reporter_61 MaxUint32 ring_bad))
      by (vm_compute; split; discriminate).
    assert (H2 : numGC (reporter_61 MaxUint32 ring_bad) <= MaxUint32)
      by (vm_compute; discriminate).
    destruct (unparseable_pause_is_skipped (reporter_61 MaxUint32 ring_bad) 10 11
                H0 H1 H2 (H3 MaxUint32)) as (_ & _ & Hspins).
    exact (proj1 (Hspins eq_refl)).
Defined.

(** ** Size-class gauges *)

Lemma tags_eqb_eq (a b : list string) : tags_eqb a b = true <-> a = b.
Proof.
  revert b. induction a as [|x a IH]; intros [|y b]; cbn [tags_eqb];
    try (split; [discriminate|discriminate]); [split; reflexivity|].
  rewrite andb_true_iff, String.eqb_eq, IH.
  split; [intros [-> ->]; reflexivity|intros [= -> ->]; split; reflexivity].
Qed.

Lemma tags_eqb_refl (a : list string) : tags_eqb a a = true.
Proof. now apply tags_eqb_eq. Qed.

Lemma fmt_d_inj (n m : Z) : 0 <= n -> 0 <= m -> fmt.d n = fmt.d m -> n = m.
Proof.
  intros Hn Hm H. unfold fmt.d in H.
  apply (f_equal NilEmpty.uint_of_string) in H.
  rewrite !NilEmpty.usu in H. injection H as H.
  apply Unsigned.to_uint_inj in H. now apply Z2N.inj.
Qed.

Lemma size_tag_inj (n m : Z) :
  0 <= n -> 0 <= m -> fmt.Sprintf_d "size:" n = fmt.Sprintf_d "size:" m -> n = m.
Proof.
  intros Hn Hm H. unfold fmt.Sprintf_d in H. cbn [append] in H.
  injection H as H. now apply fmt_d_inj.
Qed.

Lemma bySizeCalls_app (l1 l2 : list call) :
  bySizeCalls (l1 ++ l2) = bySizeCalls l1 ++ bySizeCalls l2.
Proof. apply filter_app. Qed.

Lemma callsAt_app (name : string) (tags : list string) (l1 l2 : list call) :
  callsAt name tags (l1 ++ l2) = callsAt name tags l1 ++ callsAt name tags l2.
Proof. apply filter_app. Qed.

Lemma bySizeCalls_pauses (r : Reporter) (l : list Z) :
  bySizeCalls (flat_map (pauseBody r) l) = [].
Proof.
  induction l as [|i l IH]; [reflexivity|].
  cbn [flat_map]. rewrite bySizeCalls_app, IH.
  unfold pauseBody. destruct (time.ParseDuration_ns (pauseAt r i)); reflexivity.
Qed.

Lemma bySizeCalls_bySizeGauges (r : Reporter) :
  bySizeCalls (bySizeGauges r) = bySizeGauges r.
Proof.
  unfold bySizeGauges.
  induction (runtime.BySize (Stats_Mem (stats r))) as [|b l IH]; [reflexivity|].
  cbn [flat_map]. rewrite bySizeCalls_app, IH. reflexivity.
Qed.

Lemma bySizeGauges_length (r : Reporter) :
  List.length (bySizeGauges r) =
    (2 * List.length (runtime.BySize (Stats_Mem (stats r))))%nat.
Proof.
  unfold bySizeGauges.
  induction (runtime.BySize (Stats_Mem (stats r))) as [|b l IH]; [reflexivity|].
  cbn [flat_map]. rewrite length_app, IH. cbn [bySizeBody List.length]. lia.
Qed.

Lemma callsAt_pauses (r : Reporter) (name : string) (tags : list string) (l : list Z) :
  (name =? "go.mem.pause_ns")%string = false ->
  callsAt name tags (flat_map (pauseBody r) l) = [].
Proof.
  intros Hn. induction l as [|i l IH]; [reflexivity|].
  cbn [flat_map]. rewrite callsAt_app, IH, app_nil_r.
  unfold pauseBody. destruct (time.ParseDuration_ns (pauseAt r i)); [|reflexivity].
  unfold callsAt. cbn [filter name_of].
  rewrite String.eqb_sym, Hn. reflexivity.
Qed.

Section SizeClasses.
Variable r : Reporter.

Lemma sizeTags_differ (b b' : SizeClass.t) :
  0 <= SizeClass.Size b -> 0 <= SizeClass.Size b' ->
  SizeClass.Size b' <> SizeClass.Size b ->
  tags_eqb (sizeTags r b') (sizeTags r b) = false.
Proof.
  intros Hb Hb' Hne.
  destruct (tags_eqb (sizeTags r b') (sizeTags r b)) eqn:E; [|reflexivity].
  apply tags_eqb_eq in E. unfold sizeTags in E.
  apply app_inv_head in E.
  assert (E' : fmt.Sprintf_d "size:" (SizeClass.Size b')
               = fmt.Sprintf_d "size:" (SizeClass.Size b)) by congruence.
  apply size_tag_inj in E'; [contradiction|assumption|assumption].
Qed.

Lemma callsAt_bySizeBody_other (name : string) (b b' : SizeClass.t) :
  0 <= SizeClass.Size b -> 0 <= SizeClass.Size b' ->
  SizeClass.Size b' <> SizeClass.Size b ->
  callsAt name (sizeTags r b) (bySizeBody r b') = [].
Proof.
  intros Hb Hb' Hne. unfold callsAt, bySizeBody.
  cbn [filter name_of tags_of].
  change (defaultTags r ++ [fmt.Sprintf_d "size:" (SizeClass.Size b')])
    with (sizeTags r b').
  rewrite (sizeTags_differ b b' Hb Hb' Hne), !andb_false_r. reflexivity.
Qed.

Lemma callsAt_bySizeBody_mallocs (b : SizeClass.t) :
  callsAt "go.mem.mallocs_by_size" (sizeTags r b) (bySizeBody r b) =
    [ Gauge "go.mem.mallocs_by_size" (float64_of (SizeClass.Mallocs b))
            (sizeTags r b) f1_0 ].
Proof.
  unfold callsAt, bySizeBody. cbn [filter name_of tags_of].
  change (defaultTags r ++ [fmt.Sprintf_d "size:" (SizeClass.Size b)])
    with (sizeTags r b).
  rewrite tags_eqb_refl. reflexivity.
Qed.

Lemma callsAt_bySizeBody_frees (b : SizeClass.t) :
  callsAt "go.mem.frees_by_size" (sizeTags r b) (bySizeBody r b) =
    [ Gauge "go.mem.frees_by_size" (float64_of (SizeClass.Frees b))
            (sizeTags r b) f1_0 ].
Proof.
  unfold callsAt, bySizeBody. cbn [filter name_of tags_of].
  change (defaultTags r ++ [fmt.Sprintf_d "size:" (SizeClass.Size b)])
    with (sizeTags r b).
  rewrite tags_eqb_refl. reflexivity.
Qed.

Lemma callsAt_classes_other (name : string) (b : SizeClass.t) (l : list SizeClass.t) :
  0 <= SizeClass.Size b ->
  (forall b', In b' l -> 0 <= SizeClass.Size b') ->
  ~ In (SizeClass.Size b) (map SizeClass.Size l) ->
  callsAt name (sizeTags r b) (flat_map (bySizeBody r) l) = [].
Proof.
  intros Hb. induction l as [|b' l IH]; intros Hpos Hnin; [reflexivity|].
  cbn [flat_map]. rewrite callsAt_app.
  rewrite callsAt_bySizeBody_other, IH; try reflexivity.
  - intros; apply Hpos; now right.
  - intros Hin; apply Hnin; now right.
  - assumption.
  - apply Hpos; now left.
  - intros E; apply Hnin; now left.
Qed.

(** Among the gauges of classes with distinct sizes, the calls of a given
    by-size name that carry the tags of class b are the one call of b. *)
Lemma callsAt_classes (name : string) (one : SizeClass.t -> call)
      (b : SizeClass.t) (l : list SizeClass.t) :
  (forall b0, callsAt name (sizeTags r b0) (bySizeBody r b0) = [one b0]) ->
  (forall b', In b' l -> 0 <= SizeClass.Size b') ->
  NoDup (map SizeClass.Size l) -> In b l ->
  callsAt name (sizeTags r b) (flat_map (bySizeBody r) l) = [one b].
Proof.
  intros Hone. induction l as [|b' l IH]; intros Hpos Hnd Hin; [destruct Hin|].
  cbn [map] in Hnd. apply NoDup_cons_iff in Hnd as [Hnin Hnd].
  cbn [flat_map]. rewrite callsAt_app.
  destruct Hin as [->|Hin].
  - rewrite Hone, callsAt_classes_other; try reflexivity; try assumption.
    + apply Hpos; now left.
    + intros; apply Hpos; now right.
  - rewrite callsAt_bySizeBody_other, IH; try reflexivity; try assumption.
    + intros; apply Hpos; now right.
    + apply Hpos; now right.
    + apply Hpos; now left.
    + intros E. apply Hnin. rewrite E. now apply in_map.
Qed.
End SizeClasses.

(** C7.  On memory statistics whose BySize lists k size classes of distinct
    sizes, a pass whose NumGC is below the largest uint32 sends exactly 2k
    size-class gauges: for each class one go.mem.mallocs_by_size and one
    go.mem.frees_by_size, carrying the class's counts and tagged with the
    default tags followed by size:<n>, n being the size of the class.  A
    pass whose NumGC is the largest uint32 never leaves the pause loop,
    which comes before the loop over the size classes: exportMemStats does
    not return and sends no size-class gauge. *)
Theorem size_class_gauges_of_pass (r : Reporter) (last : Z) :
  0 <= last <= MaxUint32 ->
  NoDup (map SizeClass.Size (runtime.BySize (Stats_Mem (stats r)))) ->
  (forall b, In b (runtime.BySize (Stats_Mem (stats r))) -> 0 <= SizeClass.Size b) ->
  (numGC r < MaxUint32 ->
   exists calls,
     exportMemStats r last = Some calls /\
     List.length (bySizeCalls calls) =
       (2 * List.length (runtime.BySize (Stats_Mem (stats r))))%nat /\
     forall b, In b (runtime.BySize (Stats_Mem (stats r))) ->
       let tags := defaultTags r ++ [fmt.Sprintf_d "size:" (SizeClass.Size b)] in
       callsAt "go.mem.mallocs_by_size" tags calls =
         [ Gauge "go.mem.mallocs_by_size" (float64_of (SizeClass.Mallocs b)) tags f1_0 ] /\
       callsAt "go.mem.frees_by_size" tags calls =
         [ Gauge "go.mem.frees_by_size" (float64_of (SizeClass.Frees b)) tags f1_0 ]) /\
  (numGC r = MaxUint32 ->
   exportMemStats r last = None /\ forall fuel, pauseLoop r fuel last = None).
Proof.
  intros Hlast Hnd Hpos. split.
  - intros Hmax.
    eexists. split; [apply exportMemStats_ends; [lia|assumption]|]. split.
    + rewrite !bySizeCalls_app, bySizeCalls_pauses, bySizeCalls_bySizeGauges.
      change (bySizeCalls (memGauges r)) with (@nil call).
      change (bySizeCalls (gcGauges r)) with (@nil call).
      cbn [app]. apply bySizeGauges_length.
    + intros b Hb tags. change tags with (sizeTags r b).
      rewrite !callsAt_app, !callsAt_pauses by reflexivity.
      change (callsAt "go.mem.mallocs_by_size" (sizeTags r b) (memGauges r)) with (@nil call).
      change (callsAt "go.mem.mallocs_by_size" (sizeTags r b) (gcGauges r)) with (@nil call).
      change (callsAt "go.mem.frees_by_size" (sizeTags r b) (memGauges r)) with (@nil call).
      change (callsAt "go.mem.frees_by_size" (sizeTags r b) (gcGauges r)) with (@nil call).
      cbn [app]. unfold bySizeGauges. split.
      * apply (callsAt_classes r "go.mem.mallocs_by_size"
                 (fun b0 => Gauge "go.mem.mallocs_by_size"
                                  (float64_of (SizeClass.Mallocs b0)) (sizeTags r b0) f1_0));
          try assumption.
        apply callsAt_bySizeBody_mallocs.
      * apply (callsAt_classes r "go.mem.frees_by_size"
                 (fun b0 => Gauge "go.mem.frees_by_size"
                                  (float64_of (SizeClass.Frees b0)) (sizeTags r b0) f1_0));
          try assumption.
        apply callsAt_bySizeBody_frees.
  - intros Hmax. split.
    + now apply exportMemStats_spins.
    + intros fuel. now apply pauseLoop_spins.
Qed.

Lemma classes_61_sizes :
  NoDup (map SizeClass.Size classes_61) /\
  forall b, In b classes_61 -> 0 <= SizeClass.Size b.
Proof.
  unfold classes_61. rewrite map_map. cbn [SizeClass.Size]. split.
  - assert (Hinj : forall l : list nat,
               NoDup l -> NoDup (map (fun k => 8 * Z.of_nat k) l)).
    { induction 1 as [|x l Hx Hl IH]; cbn [map]; constructor; [|exact IH].
      intros Hin. apply in_map_iff in Hin as (y & Hy & Hin).
      assert (y = x) by lia. now subst y. }
    apply Hinj, seq_NoDup.
  - intros b Hb. apply in_map_iff in Hb as (k & <- & _). cbn [SizeClass.Size]. lia.
Qed.

Lemma size_class_gauges_of_pass_witness :
  (exists calls,
     exportMemStats (reporter_61 13 ring_ex) 10 = Some calls /\
     List.length (bySizeCalls calls) = 122%nat /\
     callsAt "go.mem.mallocs_by_size" ["size:16"] calls =
       [ Gauge "go.mem.mallocs_by_size" (float64_of 6) ["size:16"] f1_0 ] /\
     callsAt "go.mem.frees_by_size" ["size:480"] calls =
       [ Gauge "go.mem.frees_by_size" (float64_of 120) ["size:480"] f1_0 ]) /\
  exportMemStats (reporter_61 MaxUint32 ring_ex) 10 = None.
Proof.
  assert (H0 : 0 <= 10 <= MaxUint32) by (vm_compute; split; discriminate).
  destruct classes_61_sizes as [Hnd Hpos].
  split.
  - destruct (size_class_gauges_of_pass (reporter_61 13 ring_ex) 10 H0 Hnd Hpos)
      as [Hends _].
    destruct Hends as (calls & Hc & Hlen & Hb); [vm_compute; reflexivity|].
    exists calls. split; [exact Hc|]. split; [exact Hlen|]. split.
    + apply (Hb (SizeClass.mk 16 6 4)).
      apply (in_map (fun k => SizeClass.mk (8 * Z.of_nat k) (3 * Z.of_nat k) (2 * Z.of_nat k))
                    (seq 0 61) 2%nat).
      apply in_seq. lia.
    + apply (Hb (SizeClass.mk 480 180 120)).
      apply (in_map (fun k => SizeClass.mk (8 * Z.of_nat k) (3 * Z.of_nat k) (2 * Z.of_nat k))
                    (seq 0 61) 60%nat).
      apply in_seq. lia.
  - destruct (size_class_gauges_of_pass (reporter_61 MaxUint32 ring_ex) 10 H0 Hnd Hpos)
      as [_ Hspins].
    exact (proj1 (Hspins eq_refl)).
Defined.

(** ** How often each gauge name is sent *)

Lemma gaugeCount_app (name : string) (l1 l2 : list call) :
  gaugeCount name (l1 ++ l2) = (gaugeCount name l1 + gaugeCount name l2)%nat.
Proof. unfold gaugeCount. now rewrite filter_app, length_app. Qed.

Lemma gaugesNamed_app (name : string) (l1 l2 : list call) :
  gaugesNamed name (l1 ++ l2) = gaugesNamed name l1 ++ gaugesNamed name l2.
Proof. apply filter_app. Qed.

Lemma gaugeCount_gaugesNamed (name : string) (l : list call) :
  gaugeCount name l = List.length (gaugesNamed name l).
Proof. reflexivity. Qed.

Lemma gaugesNamed_pauses (r : Reporter) (name : string) (l : list Z) :
  gaugesNamed name (flat_map (pauseBody r) l) = [].
Proof.
  induction l as [|i l IH]; [reflexivity|].
  cbn [flat_map]. rewrite gaugesNamed_app, IH.
  unfold pauseBody. destruct (time.ParseDuration_ns (pauseAt r i)); reflexivity.
Qed.

Lemma gaugeCount_pos_In (name : string) (l : list call) :
  (0 < gaugeCount name l)%nat -> In name (map name_of l).
Proof.
  unfold gaugeCount. induction l as [|c l IH]; cbn [filter List.length map]; [lia|].
  destruct (is_gauge c && (name_of c =? name)%string) eqn:E.
  - intros _. left. apply andb_true_iff in E as [_ E]. now apply String.eqb_eq.
  - intros H. right. now apply IH.
Qed.

Lemma gaugeCount_bySizeGauges_other (r : Reporter) (name : string) :
  name <> "go.mem.mallocs_by_size" -> name <> "go.mem.frees_by_size" ->
  gaugeCount name (bySizeGauges r) = 0%nat.
Proof.
  intros Hm Hf. unfold bySizeGauges.
  induction (runtime.BySize (Stats_Mem (stats r))) as [|b l IH]; [reflexivity|].
  cbn [flat_map]. rewrite gaugeCount_app, IH.
  unfold gaugeCount, bySizeBody. cbn [filter is_gauge name_of andb].
  destruct (String.eqb_spec "go.mem.mallocs_by_size" name); [congruence|].
  destruct (String.eqb_spec "go.mem.frees_by_size" name); [congruence|].
  reflexivity.
Qed.

Lemma gaugeCount_bySizeGauges_mallocs (r : Reporter) :
  gaugeCount "go.mem.mallocs_by_size" (bySizeGauges r) =
    List.length (runtime.BySize (Stats_Mem (stats r))).
Proof.
  unfold bySizeGauges.
  induction (runtime.BySize (Stats_Mem (stats r))) as [|b l IH]; [reflexivity|].
  cbn [flat_map]. rewrite gaugeCount_app, IH. reflexivity.
Qed.

Lemma gaugeCount_bySizeGauges_frees (r : Reporter) :
  gaugeCount "go.mem.frees_by_size" (bySizeGauges r) =
    List.length (runtime.BySize (Stats_Mem (stats r))).
Proof.
  unfold bySizeGauges.
  induction (runtime.BySize (Stats_Mem (stats r))) as [|b l IH]; [reflexivity|].
  cbn [flat_map]. rewrite gaugeCount_app, IH. reflexivity.
Qed.

(** Before and after the pause loop each of the other names comes once. *)
Lemma gaugeCount_names_sent_once (r : Reporter) (name : string) :
  In name names_sent_once -> gaugeCount name (memGauges r ++ gcGauges r) = 1%nat.
Proof.
  unfold names_sent_once. intros H.
  repeat (destruct H as [<-|H]; [reflexivity|]). destruct H.
Qed.

(** And no gauge name comes there besides them and go.mem.num_forced_gc. *)
Lemma gaugeCount_no_other_name (r : Reporter) (name : string) :
  name <> "go.mem.num_forced_gc" -> ~ In name names_sent_once ->
  gaugeCount name (memGauges r ++ gcGauges r) = 0%nat.
Proof.
  intros Hne Hnot.
  destruct (gaugeCount name (memGauges r ++ gcGauges r)) as [|k] eqn:E; [reflexivity|].
  exfalso.
  assert (Hpos : (0 < gaugeCount name (memGauges r ++ gcGauges r))%nat) by lia.
  apply gaugeCount_pos_In in Hpos.
  cbn [memGauges gcGauges gauge app map name_of] in Hpos.
  unfold names_sent_once in Hnot.
  repeat (destruct Hpos as [<-|Hpos];
          [first [now apply Hne | apply Hnot; cbn; tauto]|]).
  destruct Hpos.
Qed.

Lemma names_sent_once_others (name : string) :
  In name names_sent_once ->
  name <> "go.mem.mallocs_by_size" /\ name <> "go.mem.frees_by_size".
Proof.
  unfold names_sent_once. intros H.
  repeat (destruct H as [<-|H]; [split; discriminate|]). destruct H.
Qed.

(** C10 (amended).  In a pass whose NumGC is below the largest uint32,
    exportMemStats sends the gauge go.mem.num_forced_gc exactly three
    times, each time with the same value and tags; it sends
    go.mem.mallocs_by_size and go.mem.frees_by_size once per size class;
    it sends each of its twenty-six other go.mem. gauge names exactly once;
    and it sends no gauge of any further go.mem. name. *)
Theorem gauge_names_of_pass (r : Reporter) (last : Z) :
  0 <= last -> numGC r < MaxUint32 ->
  exists calls,
    exportMemStats r last = Some calls /\
    gaugesNamed "go.mem.num_forced_gc" calls =
      repeat (Gauge "go.mem.num_forced_gc"
                    (float64_of (runtime.NumForcedGC (Stats_Mem (stats r))))
                    (defaultTags r) f1_0) 3 /\
    gaugeCount "go.mem.mallocs_by_size" calls =
      List.length (runtime.BySize (Stats_Mem (stats r))) /\
    gaugeCount "go.mem.frees_by_size" calls =
      List.length (runtime.BySize (Stats_Mem (stats r))) /\
    (forall name,
       In name [ "go.mem.total_alloc"; "go.mem.alloc"; "go.mem.sys"; "go.mem.lookups";
                 "go.mem.mallocs"; "go.mem.frees"; "go.mem.heap_alloc"; "go.mem.heap_sys";
                 "go.mem.heap_idle"; "go.mem.heap_inuse"; "go.mem.heap_released";
                 "go.mem.heap_objects"; "go.mem.stack_inuse"; "go.mem.stack_sys";
                 "go.mem.mspan_inuse"; "go.mem.mspan_sys"; "go.mem.mcache_inuse";
                 "go.mem.mcache_sys"; "go.mem.buck_hash_sys"; "go.mem.gc_sys";
                 "go.mem.other_sys"; "go.mem.next_gc"; "go.mem.last_gc";
                 "go.mem.pause_total_ns"; "go.mem.num_gc"; "go.mem.gc_cpu_fraction" ] ->
       gaugeCount name calls = 1%nat) /\
    (forall name,
       String.prefix "go.mem." name = true ->
       name <> "go.mem.num_forced_gc" ->
       name <> "go.mem.mallocs_by_size" ->
       name <> "go.mem.frees_by_size" ->
       ~ In name names_sent_once ->
       gaugeCount name calls = 0%nat).
Proof.
  intros Hlast Hmax.
  eexists. split; [apply exportMemStats_ends; assumption|].
  split; [|split; [|split; [|split]]].
  - rewrite !gaugesNamed_app, gaugesNamed_pauses.
    assert (Hb : gaugesNamed "go.mem.num_forced_gc" (bySizeGauges r) = []).
    { apply length_zero_iff_nil. rewrite <- gaugeCount_gaugesNamed.
      apply gaugeCount_bySizeGauges_other; discriminate. }
    rewrite Hb. reflexivity.
  - rewrite !gaugeCount_app, gaugeCount_bySizeGauges_mallocs.
    rewrite (gaugeCount_gaugesNamed _ (flat_map _ _)), gaugesNamed_pauses.
    reflexivity.
  - rewrite !gaugeCount_app, gaugeCount_bySizeGauges_frees.
    rewrite (gaugeCount_gaugesNamed _ (flat_map _ _)), gaugesNamed_pauses.
    reflexivity.
  - intros name Hin. change (In name names_sent_once) in Hin.
    destruct (names_sent_once_others name Hin) as [Hm Hf].
    rewrite !gaugeCount_app, (gaugeCount_bySizeGauges_other r name Hm Hf).
    rewrite (gaugeCount_gaugesNamed _ (flat_map _ _)), gaugesNamed_pauses.
    cbn [List.length]. rewrite Nat.add_0_l, Nat.add_0_r, <- gaugeCount_app.
    now apply gaugeCount_names_sent_once.
  - intros name _ Hn Hm Hf Hnot.
    rewrite !gaugeCount_app, (gaugeCount_bySizeGauges_other r name Hm Hf).
    rewrite (gaugeCount_gaugesNamed _ (flat_map _ _)), gaugesNamed_pauses.
    cbn [List.length]. rewrite Nat.add_0_l, Nat.add_0_r, <- gaugeCount_app.
    now apply gaugeCount_no_other_name.
Qed.

Lemma gauge_names_of_pass_witness :
  exists calls,
    exportMemStats (reporter_61 13 ring_ex) 10 = Some calls /\
    gaugeCount "go.mem.num_forced_gc" calls = 3%nat /\
    gaugeCount "go.mem.mallocs_by_size" calls = 61%nat /\
    gaugeCount "go.mem.frees_by_size" calls = 61%nat /\
    gaugeCount "go.mem.heap_alloc" calls = 1%nat /\
    gaugeCount "go.mem.gc_cpu_fraction" calls = 1%nat /\
    gaugeCount "go.mem.pause_ns" calls = 0%nat.
Proof.
  assert (H0 : 0 <= 10) by lia.
  assert (H1 : numGC (reporter_61 13 ring_ex) < MaxUint32) by (vm_compute; reflexivity).
  destruct (gauge_names_of_pass (reporter_61 13 ring_ex) 10 H0 H1)
    as (calls & Hc & Hforced & Hm & Hf & Honce & Hnone).
  exists calls. split; [exact Hc|].
  split; [rewrite gaugeCount_gaugesNamed, Hforced; reflexivity|].
  split; [exact Hm|]. split; [exact Hf|].
  split; [apply Honce; cbn; tauto|].
  split; [apply Honce; cbn; tauto|].
  apply Hnone; try discriminate; [reflexivity|].
  cbn. intuition discriminate.
Defined.

(** C10, as stated, fails on the size-class gauges: with the 61 size classes
    of MemStats, go.mem.mallocs_by_size is a go.mem. gauge name other than
    go.mem.num_forced_gc and is sent 61 times in one pass. *)
Lemma size_class_gauge_name_repeats :
  ~ exists calls,
      exportMemStats (reporter_61 13 ring_ex) 10 = Some calls /\
      forced_gc_alone_repeats calls.
Proof.
  intros (calls & Hc & _ & Honce).
  vm_compute in Hc. injection Hc as <-.
  specialize (Honce "go.mem.mallocs_by_size" eq_refl).
  vm_compute in Honce.
  assert (Hone : 61%nat = 1%nat) by (apply Honce; [discriminate|lia]).
  discriminate Hone.
Qed.

(** ** Steps and runs of the worker *)

Lemma fillStats_fixed_part (now : runtime.Now) (r : Reporter) :
  fixed_part (fillStats now r) = fixed_part r.
Proof. reflexivity. Qed.

(** A pass whose NumGC is below the largest uint32 ends, and the worker is
    back at its select. *)
Lemma watch_select_pass (s : System) (now : runtime.Now) (processTime t : time.Duration) :
  returned (worker s) = false -> timer (worker s) = Armed t ->
  0 <= numGC (rep s) -> runtime.NumGC (runtime.ReadMemStats now) < MaxUint32 ->
  exists calls,
    passCalls (fillStats now (rep s)) (numGC (rep s)) = Some calls /\
    watch_select s (TimerC now processTime) =
      Next {| rep := set_dd (dd (rep s) ++ calls) (fillStats now (rep s));
              worker := {| lastGCNum := numGC (rep s);
                           timer := nextTimer (period (rep s)) processTime;
                           returned := false |} |}.
Proof.
  intros Hret Htimer Hlast Hmax.
  eexists. split; [apply passCalls_ends; assumption|].
  unfold watch_select. rewrite Hret, Htimer.
  change (runtime.NumGC (Stats_Mem (stats (rep s)))) with (numGC (rep s)).
  rewrite passCalls_ends by assumption. reflexivity.
Qed.

(** What one action changes: the calls received grow at the end, and the
    fixed part stays. *)
Lemma act_keeps (s s' : System) (a : Action) :
  act s a = Next s' ->
  fixed_part (rep s') = fixed_part (rep s) /\
  exists calls, dd (rep s') = dd (rep s) ++ calls /\
    (forall now pt, a = Select (TimerC now pt) ->
       passCalls (fillStats now (rep s)) (numGC (rep s)) = Some calls) /\
    (a = CallCancel \/ a = Select CtxDone -> calls = []).
Proof.
  destruct a as [[now pt|]|]; cbn [act]; unfold watch_select.
  - destruct (returned (worker s)); [discriminate|].
    destruct (timer (worker s)); [|discriminate].
    change (runtime.NumGC (Stats_Mem (stats (rep s)))) with (numGC (rep s)).
    destruct (passCalls (fillStats now (rep s)) (numGC (rep s))) as [calls|] eqn:E;
      [|discriminate].
    intros [= <-]. split; [reflexivity|].
    exists calls. split; [reflexivity|]. split.
    + intros now' pt' [= <- <-]. exact E.
    + intros [H|H]; discriminate H.
  - destruct (returned (worker s)); [discriminate|].
    destruct (ctx (rep s)); [|discriminate].
    intros [= <-]. split; [reflexivity|].
    exists []. split; [symmetry; apply app_nil_r|]. split; [discriminate|reflexivity].
  - intros [= <-]. split; [reflexivity|].
    exists []. split; [symmetry; apply app_nil_r|]. split; [discriminate|reflexivity].
Qed.

Lemma run_app (s : System) (l1 l2 : list Action) :
  run s (l1 ++ l2) =
    match run s l1 with Some s1 => run s1 l2 | None => None end.
Proof.
  revert s. induction l1 as [|a l1 IH]; intros s; [reflexivity|].
  cbn [app run]. destruct (act s a); auto.
Qed.

Lemma run_fixed_part (s s' : System) (l : list Action) :
  run s l = Some s' -> fixed_part (rep s') = fixed_part (rep s).
Proof.
  revert s. induction l as [|a l IH]; intros s; cbn [run].
  - now intros [= <-].
  - destruct (act s a) as [s1| |] eqn:E; try discriminate.
    intros H. rewrite (IH _ H). now apply act_keeps in E as [E _].
Qed.

Lemma New_rep (e : Env) (client : statsd.Client) (options : list (Reporter -> Reporter)) :
  rep (New e client options) =
    let r := configured client options in
    {| ctx := ctx r;
       dd := dd r ++ [ Count "startup" 1 [] f1_0 ];
       period := period r;
       stats := {| Stats_GoInfo := {| Version := runtime.Version (env_build e);
                                      Arch := runtime.GOARCH (env_build e);
                                      OS := runtime.GOOS (env_build e) |};
                   Stats_Mem := runtime.MemStats0;
                   Stats_Runtime := mkRuntimeStats 0 0 0 0;
                   Stats_ServiceInfo := svcinfo.GetInfo (env_svcinfo e) |};
       defaultTags := defaultTags r;
       infoTags := svcinfo.GetDDTags (env_svcinfo e);
       runtimeTags := defaultTags r
                        ++ [ fmt.Sprintf_s "version:" (runtime.Version (env_build e));
                             fmt.Sprintf_s "arch:" (runtime.GOARCH (env_build e));
                             fmt.Sprintf_s "os:" (runtime.GOOS (env_build e)) ] |}.
Proof. reflexivity. Qed.

(** ** Construction *)

(** C5.  New with no option gives a Reporter whose period is 5 seconds and
    whose default tags are empty.  Period t replaces the period and nothing
    else, DefaultTags tags replaces the default tags and nothing else; given
    to New, they set these two fields of the Reporter New returns, whose
    worker at that point has not run a pass: its timer is NewTimer(0) and the
    client has received the startup counter only. *)
Theorem New_defaults_and_options :
  (forall e client,
     period (rep (New e client [])) = 5 * time.Second /\
     period (rep (New e client [])) = 5000000000 /\
     defaultTags (rep (New e client [])) = []) /\
  (forall t r,
     Period t r =
       {| ctx := ctx r; dd := dd r; period := t; stats := stats r;
          defaultTags := defaultTags r; infoTags := infoTags r;
          runtimeTags := runtimeTags r |}) /\
  (forall tags r,
     DefaultTags tags r =
       {| ctx := ctx r; dd := dd r; period := period r; stats := stats r;
          defaultTags := tags; infoTags := infoTags r;
          runtimeTags := runtimeTags r |}) /\
  (forall e client t,
     period (rep (New e client [Period t])) = t /\
     defaultTags (rep (New e client [Period t])) = []) /\
  (forall e client tags,
     period (rep (New e client [DefaultTags tags])) = 5 * time.Second /\
     defaultTags (rep (New e client [DefaultTags tags])) = tags) /\
  (forall e client t tags,
     let s := New e client [Period t; DefaultTags tags] in
     period (rep s) = t /\
     defaultTags (rep s) = tags /\
     worker s = {| lastGCNum := 0; timer := Armed 0; returned := false |} /\
     dd (rep s) = client ++ [ Count "startup" 1 [] f1_0 ]).
Proof.
  repeat split.
Qed.

(** ** The static fields of the snapshot *)

(** C8.  fillStats replaces the Mem and Runtime fields of the stats by what
    the runtime answers and leaves the other fields of the stats and of the
    Reporter as they are; and after any run of a Reporter built by New,
    whatever the number of passes, the toolchain version, architecture and
    OS and the service-identity record of its stats are the ones New set
    from the toolchain and from svcinfo. *)
Theorem static_fields_never_change :
  (forall now r,
     Stats_GoInfo (stats (fillStats now r)) = Stats_GoInfo (stats r) /\
     Stats_ServiceInfo (stats (fillStats now r)) = Stats_ServiceInfo (stats r) /\
     Stats_Mem (stats (fillStats now r)) = runtime.ReadMemStats now /\
     Stats_Runtime (stats (fillStats now r)) =
       {| MaxProcs := runtime.GOMAXPROCS now; NumCPU := runtime.NumCPU now;
          NumCgoCall := runtime.NumCgoCall now;
          NumGoroutine := runtime.NumGoroutine now |} /\
     ctx (fillStats now r) = ctx r /\ dd (fillStats now r) = dd r /\
     period (fillStats now r) = period r /\
     defaultTags (fillStats now r) = defaultTags r /\
     infoTags (fillStats now r) = infoTags r /\
     runtimeTags (fillStats now r) = runtimeTags r) /\
  (forall e client options l s,
     run (New e client options) l = Some s ->
     Stats_GoInfo (GetStats (rep s)) =
       {| Arch := runtime.GOARCH (env_build e); OS := runtime.GOOS (env_build e);
          Version := runtime.Version (env_build e) |} /\
     Stats_ServiceInfo (GetStats (rep s)) = svcinfo.GetInfo (env_svcinfo e) /\
     Stats_GoInfo (GetStats (rep s)) = Stats_GoInfo (GetStats (rep (New e client options))) /\
     Stats_ServiceInfo (GetStats (rep s)) =
       Stats_ServiceInfo (GetStats (rep (New e client options)))).
Proof.
  split.
  - intros now r. repeat split.
  - intros e client options l s Hrun.
    apply run_fixed_part in Hrun. rewrite New_rep in Hrun.
    unfold fixed_part in Hrun. cbn zeta in Hrun. cbn [stats Stats_GoInfo Stats_ServiceInfo] in Hrun.
    injection Hrun as Hg Hs _ _ _ _.
    unfold GetStats. rewrite New_rep. cbn zeta. cbn [stats Stats_GoInfo Stats_ServiceInfo].
    rewrite Hg, Hs. repeat split.
Qed.

Lemma static_fields_never_change_witness :
  exists s,
    run (New env_ex [] []) run_ex = Some s /\
    numGC (rep s) = 13 /\
    Stats_GoInfo (GetStats (rep s)) =
      {| Arch := "amd64"; OS := "linux"; Version := "go1.12" |} /\
    Stats_ServiceInfo (GetStats (rep s)) =
      {| svcinfo.BuildDate := "2019-03-01"; svcinfo.CommitSHA := "4f2a9c1";
         svcinfo.Version := "v1.4.0" |}.
Proof.
  destruct (run (New env_ex [] []) run_ex) as [s|] eqn:E;
    [|vm_compute in E; discriminate E].
  exists s. split; [reflexivity|].
  destruct (proj2 static_fields_never_change env_ex [] [] run_ex s E)
    as (Hg & Hs & _).
  split; [|split; [exact Hg|exact Hs]].
  vm_compute in E. injection E as <-. reflexivity.
Defined.

(** ** Tags *)











(** ** The wait between two passes *)

(** While period - processTime is positive the loop arms a timer of exactly
    that duration. *)
Lemma nextTimer_positive (p e : time.Duration) :
  0 < p - e <= MaxInt64 -> nextTimer p e = Armed (Z.max (p - e) 0).
Proof.
  intros H. unfold nextTimer.
  assert (Hw : wrap64 (p - e) = p - e).
  { unfold wrap64, MaxInt64 in *. rewrite Z.mod_small; lia. }
  rewrite Hw. destruct (Z.gtb_spec (p - e) 0); [|lia].
  f_equal. lia.
Qed.

Lemma nextTimer_not_positive (p e : time.Duration) :
  - 2 ^ 63 <= p - e <= 0 -> nextTimer p e = Drained.
Proof.
  intros H. unfold nextTimer.
  assert (Hw : wrap64 (p - e) = p - e).
  { unfold wrap64. rewrite Z.mod_small; lia. }
  rewrite Hw. destruct (Z.gtb_spec (p - e) 0); [lia|reflexivity].
Qed.

(** The older loop goes on at once in the same situation. *)
Lemma sleepBeforeNextPass_max (p e : time.Duration) :
  - 2 ^ 63 <= p - e <= MaxInt64 -> sleepBeforeNextPass p e = Z.max (p - e) 0.
Proof.
  intros H. unfold sleepBeforeNextPass.
  assert (Hw : wrap64 (p - e) = p - e).
  { unfold wrap64, MaxInt64 in *. rewrite Z.mod_small; lia. }
  rewrite Hw. destruct (Z.gtb_spec (p - e) 0); lia.
Qed.

(** C2.  What the loop of watch does after a pass that took at least the
    period: no timer is armed, [timer] is left on the timer whose value the
    pass received, and the select can take no further TimerC case; until
    the context is done it can take no case at all.  The next cycle does not
    start: the worker has stopped ticking. *)
Theorem pass_longer_than_period_stops_ticks
        (s s' : System) (now : runtime.Now) (processTime : time.Duration) :
  watch_select s (TimerC now processTime) = Next s' ->
  - 2 ^ 63 <= period (rep s) - processTime <= 0 ->
  timer (worker s') = Drained /\
  returned (worker s') = false /\
  (forall now' processTime', watch_select s' (TimerC now' processTime') = NotReady) /\
  (ctx (rep s') = false -> forall c, watch_select s' c = NotReady) /\
  sleepBeforeNextPass (period (rep s)) processTime = 0.
Proof.
  intros Hstep Hlate.
  assert (Hs' : timer (worker s') = Drained /\ returned (worker s') = false).
  { unfold watch_select in Hstep.
    destruct (returned (worker s)); [discriminate|].
    destruct (timer (worker s)); [|discriminate].
    destruct (passCalls _ _); [|discriminate].
    injection Hstep as <-. cbn [worker timer returned period fillStats set_stats].
    split; [|reflexivity]. now apply nextTimer_not_positive. }
  destruct Hs' as [Ht Hr].
  assert (Hno : forall now' pt', watch_select s' (TimerC now' pt') = NotReady).
  { intros now' pt'. unfold watch_select. now rewrite Hr, Ht. }
  repeat split; try assumption.
  - intros Hctx [now' pt'|]; [apply Hno|].
    unfold watch_select. now rewrite Hr, Hctx.
  - rewrite sleepBeforeNextPass_max by (unfold MaxInt64; lia). lia.
Qed.

Lemma pass_longer_than_period_stops_ticks_witness :
  exists s',
    watch_select (New env_ex [] []) slow_pass = Next s' /\
    period (rep (New env_ex [] [])) = 5 * time.Second /\
    timer (worker s') = Drained /\
    (forall now' processTime', watch_select s' (TimerC now' processTime') = NotReady).
Proof.
  destruct (watch_select (New env_ex [] []) slow_pass) as [s'| |] eqn:E;
    try (vm_compute in E; discriminate E).
  exists s'. split; [reflexivity|]. split; [reflexivity|].
  assert (Hlate : - 2 ^ 63 <= period (rep (New env_ex [] [])) - 6 * time.Second <= 0)
    by (vm_compute; split; discriminate).
  destruct (pass_longer_than_period_stops_ticks
              (New env_ex [] []) s' _ (6 * time.Second) E Hlate)
    as (Ht & _ & Hno & _).
  split; [exact Ht|exact Hno].
Defined.

(** ** Cancellation *)








(** ** GetStats against fillStats *)

Lemma Forall_set_at {A : Type} (P : A -> Prop) (l : list A) (i : nat) (v : A) :
  Forall P l -> P v -> Forall P (set_at l i v).
Proof.
  intros Hl Hv. revert i. induction Hl as [|x l Hx Hl IH]; intros i; [constructor|].
  destruct i; cbn [set_at]; constructor; auto.
Qed.

Lemma nth_error_Forall {A : Type} (P : A -> Prop) (l : list A) (i : nat) (x : A) :
  Forall P l -> nth_error l i = Some x -> P x.
Proof.
  intros Hl Hn. rewrite Forall_forall in Hl. apply Hl. now apply nth_error_In in Hn.
Qed.

(** Counting the callers of one kind when one of them moves on. *)
Lemma count_set_at (f : GetPc -> bool) (l : list GetPc) (i : nat) (p v : GetPc) :
  nth_error l i = Some p ->
  (List.length (filter f (set_at l i v)) + (if f p then 1 else 0) =
   List.length (filter f l) + (if f v then 1 else 0))%nat.
Proof.
  revert i. induction l as [|x l IH]; intros [|i]; cbn [nth_error];
    try discriminate.
  - intros [= ->]. cbn [set_at filter].
    destruct (f p), (f v); cbn [List.length]; lia.
  - intros H. specialize (IH i H). cbn [set_at filter].
    destruct (f x); cbn [List.length]; lia.
Qed.

Lemma nholding_set_at (l : list GetPc) (i : nat) (p v : GetPc) :
  nth_error l i = Some p ->
  (nholding (set_at l i v) + (if holding p then 1 else 0) =
   nholding l + (if holding v then 1 else 0))%nat.
Proof. apply count_set_at. Qed.

Lemma nwaiting_set_at (l : list GetPc) (i : nat) (p v : GetPc) :
  nth_error l i = Some p ->
  (nwaiting (set_at l i v) + (if waiting p then 1 else 0) =
   nwaiting l + (if waiting v then 1 else 0))%nat.
Proof. apply count_set_at. Qed.

(** Unlock turns the callers that wait into callers that hold. *)
Lemma nholding_wake (l : list GetPc) :
  nholding (map wake l) = (nholding l + nwaiting l)%nat.
Proof.
  unfold nholding, nwaiting. induction l as [|p l IH]; [reflexivity|].
  cbn [map filter]. destruct p; cbn [wake holding waiting List.length]; lia.
Qed.

Lemma nwaiting_wake (l : list GetPc) : nwaiting (map wake l) = 0%nat.
Proof.
  unfold nwaiting. induction l as [|p l IH]; [reflexivity|].
  cbn [map filter]. destruct p; cbn [wake waiting]; exact IH.
Qed.

Lemma getter_ok_wake (r0 : Reporter) (nows : list runtime.Now) (sh : Stats)
      (l : list GetPc) :
  Forall (getter_ok r0 nows sh) l -> Forall (getter_ok r0 nows sh) (map wake l).
Proof.
  induction 1 as [|p l Hp _ IH]; cbn [map]; constructor; [|exact IH].
  destruct p; cbn [wake]; exact Hp.
Qed.

(** With no caller holding the read lock, what the callers hold does not
    depend on r.stats. *)
Lemma getter_ok_nobody (r0 : Reporter) (nows : list runtime.Now) (sh sh' : Stats)
      (l : list GetPc) :
  nholding l = 0%nat ->
  Forall (getter_ok r0 nows sh) l -> Forall (getter_ok r0 nows sh') l.
Proof.
  unfold nholding. induction l as [|p l IH]; intros Hn Hl; [constructor|].
  apply Forall_cons_iff in Hl as [Hp Hl]. cbn [filter] in Hn.
  destruct p; cbn [holding] in Hn; try discriminate Hn;
    (constructor; [exact Hp|now apply IH]).
Qed.

Lemma Snapshot_more (r0 : Reporter) (nows nows' : list runtime.Now) (s : Stats) :
  incl nows nows' -> Snapshot r0 nows s -> Snapshot r0 nows' s.
Proof.
  intros Hi [H|(now & Hn & H)]; [now left|].
  right. exists now. split; [now apply Hi|exact H].
Qed.

Lemma Inv_more (r0 : Reporter) (nows nows' : list runtime.Now) (c : Shared) :
  incl nows nows' -> Inv r0 nows c -> Inv r0 nows' c.
Proof.
  intros Hi [H1 H2 H3 H4 H5 H6 H7 H8 Hf Hg].
  constructor; try assumption.
  - destruct (filler c); cbn [filler_ok] in *.
    + now apply (Snapshot_more r0 nows).
    + destruct Hf as [Hn Hs]. split; [now apply Hi|now apply (Snapshot_more r0 nows)].
    + destruct Hf as [Hn Hs]. split; [now apply Hi|now apply (Snapshot_more r0 nows)].
    + destruct Hf as [Hn Hs]. split; [now apply Hi|exact Hs].
    + now apply (Snapshot_more r0 nows).
  - eapply Forall_impl; [|exact Hg].
    intros p Hp. destruct p; cbn [getter_ok] in *; try exact Hp.
    now apply (Snapshot_more r0 nows).
Qed.

Lemma nholding_repeat_idle (n : nat) :
  nholding (repeat GetIdle n) = 0%nat /\ nwaiting (repeat GetIdle n) = 0%nat.
Proof. induction n; [now split|exact IHn]. Qed.

Lemma Inv_at_rest (r : Reporter) (n : nat) : Inv r [] (at_rest r n).
Proof.
  destruct (nholding_repeat_idle n) as [Hh Hw].
  constructor; cbn [at_rest mu shared filler getters sync.writer sync.readers
                      sync.blocked sync.unlocked writer_ok filler_ok];
    try reflexivity; try discriminate; try (now symmetry).
  - now left.
  - apply Forall_forall. intros p Hp. apply repeat_spec in Hp. now subst p.
Qed.

(** The stats after the second write of a pass are those of fillStats. *)
Lemma second_write (r0 : Reporter) (n : runtime.Now) (sh : Stats) :
  Stats_GoInfo sh = Stats_GoInfo (stats r0) ->
  Stats_ServiceInfo sh = Stats_ServiceInfo (stats r0) ->
  Stats_Mem sh = runtime.ReadMemStats n ->
  {| Stats_GoInfo := Stats_GoInfo sh;
     Stats_Mem := Stats_Mem sh;
     Stats_Runtime :=
       {| NumCPU := runtime.NumCPU n;
          NumCgoCall := runtime.NumCgoCall n;
          NumGoroutine := runtime.NumGoroutine n;
          MaxProcs := runtime.GOMAXPROCS n |};
     Stats_ServiceInfo := Stats_ServiceInfo sh |} = stats (fillStats n r0).
Proof. intros -> -> ->. reflexivity. Qed.

Lemma Inv_fillStats_step (r0 : Reporter) (nows : list runtime.Now) (now : runtime.Now)
      (c c' : Shared) :
  Inv r0 nows c -> fillStats_step now c = Some c' ->
  Inv r0 (nows ++ (if is_idle (filler c) then [now] else [])) c'.
Proof.
  intros Hinv. unfold fillStats_step.
  destruct (filler c) as [|n|n|n|] eqn:Ef; cbn [is_idle].
  - apply (Inv_more r0 nows (nows ++ [now])) in Hinv; [|now apply incl_appl].
    destruct Hinv as [Hw Hwt Hh Hr Hb Hn Hg Hs Hf Hge].
    rewrite Ef in Hw, Hf. cbn [writer_ok filler_ok] in Hw, Hf.
    unfold sync.Lock. rewrite Hw. intros [= <-].
    constructor; cbn [mu shared filler getters sync.writer sync.readers sync.blocked
                        writer_ok filler_ok]; auto.
    + destruct (sync.readers (mu c) =? 0)%nat; discriminate.
    + destruct (Nat.eqb_spec (sync.readers (mu c)) 0); [discriminate|auto].
    + destruct (Nat.eqb_spec (sync.readers (mu c)) 0); [auto|discriminate].
    + split; [|exact Hf]. apply in_or_app. right. now left.
  - rewrite app_nil_r.
    destruct Hinv as [Hw Hwt Hh Hr Hb Hn Hg Hs Hf Hge].
    rewrite Ef in Hw, Hf. cbn [writer_ok filler_ok] in Hw, Hf.
    destruct (sync.writer (mu c)) eqn:Ew; try discriminate.
    intros [= <-].
    constructor; cbn [mu shared filler getters writer_ok filler_ok]; auto;
      intros; congruence.
  - rewrite app_nil_r.
    destruct Hinv as [Hw Hwt Hh Hr Hb Hn Hg Hs Hf Hge].
    rewrite Ef in Hw, Hf. cbn [writer_ok filler_ok] in Hw, Hf.
    intros [= <-]. specialize (Hh Hw).
    constructor; cbn [mu shared filler getters writer_ok filler_ok
                        Stats_GoInfo Stats_ServiceInfo Stats_Mem]; auto.
    + split; [exact (proj1 Hf)|reflexivity].
    + apply (getter_ok_nobody r0 nows (shared c)); [congruence|exact Hge].
  - rewrite app_nil_r.
    destruct Hinv as [Hw Hwt Hh Hr Hb Hn Hg Hs Hf Hge].
    rewrite Ef in Hw, Hf. cbn [writer_ok filler_ok] in Hw, Hf.
    intros [= <-]. specialize (Hh Hw). destruct Hf as [Hin Hm].
    constructor; cbn [mu shared filler getters writer_ok filler_ok
                        Stats_GoInfo Stats_ServiceInfo Stats_Mem]; auto.
    + rewrite (second_write r0 n (shared c) Hg Hs Hm).
      right. exists n. now split.
    + apply (getter_ok_nobody r0 nows (shared c)); [congruence|exact Hge].
  - rewrite app_nil_r.
    destruct Hinv as [Hw Hwt Hh Hr Hb Hn Hg Hs Hf Hge].
    rewrite Ef in Hw, Hf. cbn [writer_ok filler_ok] in Hw, Hf.
    intros [= <-]. specialize (Hh Hw).
    constructor; cbn [mu shared filler getters sync.Unlock sync.writer sync.readers
                        sync.blocked writer_ok filler_ok]; auto; try discriminate.
    + rewrite nholding_wake. congruence.
    + now rewrite nwaiting_wake.
    + now apply getter_ok_wake.
Qed.

(** While a caller holds the read lock the worker does not write, and
    r.stats is a snapshot. *)
Lemma held_is_snapshot (r0 : Reporter) (nows : list runtime.Now) (c : Shared) :
  Inv r0 nows c -> (0 < nholding (getters c))%nat ->
  writing (filler c) = false /\ Snapshot r0 nows (shared c).
Proof.
  intros [Hw Hwt Hh Hr Hb Hn Hg Hs Hf Hge] Hpos.
  destruct (filler c); cbn [writer_ok filler_ok writing] in *;
    try (specialize (Hh Hw); lia).
  - now split.
  - split; [reflexivity|exact (proj2 Hf)].
Qed.

Lemma Inv_GetStats_step (r0 : Reporter) (nows : list runtime.Now) (i : nat)
      (c c' : Shared) :
  Inv r0 nows c -> GetStats_step i c = Some c' -> Inv r0 nows c'.
Proof.
  intros Hinv. pose proof (held_is_snapshot r0 nows c Hinv) as Hheld.
  destruct Hinv as [Hw Hwt Hh Hr Hb Hn Hg Hs Hf Hge]. unfold GetStats_step.
  destruct (nth_error (getters c) i) as [p|] eqn:En; [|discriminate].
  pose proof (nth_error_Forall _ _ _ _ Hge En) as Hp.
  pose proof (fun v => nholding_set_at (getters c) i p v En) as Hnh.
  pose proof (fun v => nwaiting_set_at (getters c) i p v En) as Hnw.
  destruct p as [| | |g|g m|g m rt|s|s]; cbn [getter_ok holding waiting] in Hp, Hnh, Hnw.
  - unfold sync.RLock. destruct (sync.writer (mu c)) eqn:Ew; intros [= <-].
    + specialize (Hnh GetLocked). specialize (Hnw GetLocked).
      cbn [holding waiting] in Hnh, Hnw. specialize (Hn eq_refl).
      constructor; cbn [mu shared filler getters sync.writer sync.readers sync.blocked];
        auto; try discriminate; try lia.
      apply Forall_set_at; [exact Hge|exact I].
    + specialize (Hnh GetWaiting). specialize (Hnw GetWaiting).
      cbn [holding waiting] in Hnh, Hnw.
      constructor; cbn [mu shared filler getters sync.writer sync.readers sync.blocked];
        auto; try discriminate; try lia.
      apply Forall_set_at; [exact Hge|exact I].
    + specialize (Hnh GetWaiting). specialize (Hnw GetWaiting).
      cbn [holding waiting] in Hnh, Hnw.
      constructor; cbn [mu shared filler getters sync.writer sync.readers sync.blocked];
        auto; try discriminate; try lia.
      apply Forall_set_at; [exact Hge|exact I].
  - discriminate.
  - intros [= <-]. specialize (Hnh (GetGoInfo (Stats_GoInfo (shared c)))).
    specialize (Hnw (GetGoInfo (Stats_GoInfo (shared c)))).
    cbn [holding waiting] in Hnh, Hnw.
    constructor; cbn [mu shared filler getters]; auto; try lia.
    apply Forall_set_at; [exact Hge|reflexivity].
  - intros [= <-]. specialize (Hnh (GetMem g (Stats_Mem (shared c)))).
    specialize (Hnw (GetMem g (Stats_Mem (shared c)))).
    cbn [holding waiting] in Hnh, Hnw.
    constructor; cbn [mu shared filler getters]; auto; try lia.
    apply Forall_set_at; [exact Hge|now split].
  - intros [= <-]. specialize (Hnh (GetRuntime g m (Stats_Runtime (shared c)))).
    specialize (Hnw (GetRuntime g m (Stats_Runtime (shared c)))).
    cbn [holding waiting] in Hnh, Hnw.
    constructor; cbn [mu shared filler getters]; auto; try lia.
    apply Forall_set_at; [exact Hge|]. destruct Hp as [-> ->]. now repeat split.
  - intros [= <-].
    specialize (Hnh (GetCopied (mkStats g m rt (Stats_ServiceInfo (shared c))))).
    specialize (Hnw (GetCopied (mkStats g m rt (Stats_ServiceInfo (shared c))))).
    cbn [holding waiting] in Hnh, Hnw.
    constructor; cbn [mu shared filler getters]; auto; try lia.
    apply Forall_set_at; [exact Hge|]. destruct Hp as (-> & -> & ->).
    cbn [getter_ok]. now destruct (shared c).
  - intros [= <-]. specialize (Hnh (GetReturned s)). specialize (Hnw (GetReturned s)).
    cbn [holding waiting] in Hnh, Hnw.
    destruct Hheld as [Hnowr Hsnap]; [lia|].
    constructor; cbn [mu shared filler getters sync.RUnlock sync.writer sync.readers
                        sync.blocked]; auto; try lia.
    + destruct (filler c); cbn [writer_ok writing] in *; try discriminate.
      * now rewrite Hw.
      * destruct (sync.writer (mu c)); [congruence| |discriminate].
        destruct (pred (sync.readers (mu c)) =? 0)%nat; discriminate.
    + destruct (sync.writer (mu c)); try discriminate.
      destruct (Nat.eqb_spec (pred (sync.readers (mu c))) 0); [discriminate|auto].
    + destruct (sync.writer (mu c)) eqn:Ew; try discriminate.
      * destruct (Nat.eqb_spec (pred (sync.readers (mu c))) 0); [auto|discriminate].
      * intros _. specialize (Hh eq_refl). lia.
    + destruct (sync.writer (mu c)) eqn:Ew; try discriminate; auto.
      destruct (pred (sync.readers (mu c)) =? 0)%nat; discriminate.
    + apply Forall_set_at; [exact Hge|]. cbn [getter_ok]. now subst s.
  - discriminate.
Qed.

Lemma Inv_schedule (r0 : Reporter) (l : list Move) :
  forall (nows : list runtime.Now) (c c' : Shared),
    Inv r0 nows c -> schedule c l = Some c' -> Inv r0 (nows ++ samples c l) c'.
Proof.
  induction l as [|m l IH]; intros nows c c' Hc; cbn [schedule samples].
  - intros [= <-]. now rewrite app_nil_r.
  - destruct (move c m) as [c1|] eqn:E; [|discriminate].
    intros Hrun. destruct m as [now|i]; cbn [move] in E.
    + pose proof (Inv_fillStats_step r0 nows now c c1 Hc E) as H1.
      specialize (IH _ c1 c' H1 Hrun).
      destruct (filler c); cbn [is_idle] in IH;
        rewrite <- app_assoc in IH; exact IH.
    + pose proof (Inv_GetStats_step r0 nows i c c1 Hc E) as H1.
      exact (IH _ c1 c' H1 Hrun).
Qed.

(** The five steps of fillStats, run without interruption from an unlocked
    mutex, make of r.stats what the function fillStats makes of them. *)
Lemma fillStats_steps (r : Reporter) (now : runtime.Now) :
  schedule (at_rest r 0) [Fill now; Fill now; Fill now; Fill now; Fill now]
  = Some (mkShared sync.unlocked (stats (fillStats now r)) FillIdle []).
Proof. reflexivity. Qed.

(** The six steps of GetStats, run without interruption, return what the
    function GetStats returns. *)
Lemma GetStats_steps (r : Reporter) :
  schedule (at_rest r 1) [Get 0; Get 0; Get 0; Get 0; Get 0; Get 0]%nat
  = Some (mkShared sync.unlocked (stats r) FillIdle [GetReturned (GetStats r)]).
Proof. unfold GetStats. cbn. now destruct (stats r). Qed.

(** C4.  In every schedule of the steps of fillStats and of any number of
    calls of GetStats, started between two passes, each value a call of
    GetStats returns is one snapshot: the stats as New left them, or the
    stats one whole fillStats leaves, its Mem and its Runtime both sampled
    by one and the same pass of the schedule; never the Mem of one pass
    with the Runtime of another.  The worker writes only while no caller
    holds the read lock, and r.stats does not change while a caller that
    holds the read lock copies it. *)
Theorem GetStats_returns_one_snapshot
        (r : Reporter) (n : nat) (l : list Move) (c : Shared) :
  schedule (at_rest r n) l = Some c ->
  let nows := samples (at_rest r n) l in
  (forall i s, nth_error (getters c) i = Some (GetReturned s) ->
     s = stats r \/
     exists now, In now nows /\
       Stats_Mem s = runtime.ReadMemStats now /\
       Stats_Runtime s = {| NumCPU := runtime.NumCPU now;
                            NumCgoCall := runtime.NumCgoCall now;
                            NumGoroutine := runtime.NumGoroutine now;
                            MaxProcs := runtime.GOMAXPROCS now |} /\
       Stats_GoInfo s = Stats_GoInfo (stats r) /\
       Stats_ServiceInfo s = Stats_ServiceInfo (stats r)) /\
  (forall i s, nth_error (getters c) i = Some (GetCopied s) ->
     s = shared c /\ Snapshot r nows s) /\
  (writing (filler c) = true -> nholding (getters c) = 0%nat) /\
  ((0 < nholding (getters c))%nat ->
   writing (filler c) = false /\ Snapshot r nows (shared c)).
Proof.
  intros Hs nows.
  pose proof (Inv_schedule r l [] _ c (Inv_at_rest r n) Hs) as Hinv.
  cbn [app] in Hinv. fold nows in Hinv.
  pose proof (held_is_snapshot r nows c Hinv) as Hhold.
  destruct Hinv as [Hw Hwt Hh Hr Hb Hn Hg Hsi Hf Hge].
  split; [|split; [|split]].
  - intros i s Hi. pose proof (nth_error_Forall _ _ _ _ Hge Hi) as Hc.
    cbn [getter_ok] in Hc. destruct Hc as [Hc|(now & Hin & Hc)]; [now left|].
    right. exists now. subst s. repeat split. exact Hin.
  - intros i s Hi.
    pose proof (nth_error_Forall _ _ _ _ Hge Hi) as Hc. cbn [getter_ok] in Hc. subst s.
    split; [reflexivity|].
    apply Hhold. apply nth_error_In in Hi.
    unfold nholding.
    assert (Hin : In (GetCopied (shared c)) (filter holding (getters c)))
      by (apply filter_In; split; [exact Hi|reflexivity]).
    destruct (filter holding (getters c)); [destruct Hin|cbn; lia].
  - intros Hwr. rewrite <- Hr. apply Hh.
    destruct (filler c); cbn [writing writer_ok] in *; try discriminate; exact Hw.
  - exact Hhold.
Qed.

(** While fillStats is between its two writes a caller that calls RLock is
    held back, and while a caller copies the worker waits in Lock. *)
Lemma torn_stats_are_out_of_reach (r : Reporter) (now : runtime.Now) :
  schedule (at_rest r 1) [Fill now; Fill now; Fill now; Get 0%nat; Get 0%nat] = None /\
  schedule (at_rest r 1) [Get 0%nat; Get 0%nat; Fill now; Fill now] = None.
Proof. split; reflexivity. Qed.

Lemma GetStats_returns_one_snapshot_witness :
  let r := rep (New env_ex [] []) in
  let now := now_ex (mem_ex 13 ring_ex classes_ex) in
  exists c,
    schedule (at_rest r 3) schedule_ex = Some c /\
    samples (at_rest r 3) schedule_ex = [now] /\
    getters c = [ GetReturned (stats r);
                  GetReturned (stats (fillStats now r));
                  GetReturned (stats (fillStats now r)) ] /\
    runtime.NumGC (Stats_Mem (stats r)) = 0 /\
    NumGoroutine (Stats_Runtime (stats r)) = 0 /\
    runtime.NumGC (Stats_Mem (stats (fillStats now r))) = 13 /\
    NumGoroutine (Stats_Runtime (stats (fillStats now r))) = 12 /\
    forall i s, nth_error (getters c) i = Some (GetReturned s) ->
      s = stats r \/
      exists now', In now' [now] /\
        Stats_Mem s = runtime.ReadMemStats now' /\
        Stats_Runtime s = {| NumCPU := runtime.NumCPU now';
                             NumCgoCall := runtime.NumCgoCall now';
                             NumGoroutine := runtime.NumGoroutine now';
                             MaxProcs := runtime.GOMAXPROCS now' |} /\
        Stats_GoInfo s = Stats_GoInfo (stats r) /\
        Stats_ServiceInfo s = Stats_ServiceInfo (stats r).
Proof.
  intros r now.
  destruct (schedule (at_rest r 3) schedule_ex) as [c|] eqn:E;
    [|vm_compute in E; discriminate E].
  assert (Hn : samples (at_rest r 3) schedule_ex = [now]) by (vm_compute; reflexivity).
  pose proof (GetStats_returns_one_snapshot r 3 schedule_ex c E) as (Hret & _).
  rewrite Hn in Hret.
  exists c. split; [reflexivity|]. split; [exact Hn|].
  split; [vm_compute in E; injection E as <-; reflexivity|].
  repeat (split; [reflexivity|]).
  exact Hret.
Defined.

(** * More properties *)

(** ** svcinfo *)

Lemma nonempty_false (s : string) : svcinfo.nonempty s = false <-> s = EmptyString.
Proof. destruct s; cbn; split; congruence. Qed.


(** X1.  After init each variable holds the value the linker gave it when
    there is one, and the value of its environment variable otherwise, so
    it is empty only when both are; running init again changes nothing. *)
Theorem init_prefers_compiled_values (Getenv : string -> string) (compiled : svcinfo.Vars) :
  let pick (c e : string) := if svcinfo.nonempty c then c else e in
  svcinfo_init.init Getenv compiled =
    svcinfo.mkVars (pick (svcinfo.var_CommitSHA compiled) (Getenv "COMMIT_SHA"))
                   (pick (svcinfo.var_BuildDate compiled) (Getenv "BUILD_DATE"))
                   (pick (svcinfo.var_Version compiled) (Getenv "VERSION")) /\
  svcinfo_init.init Getenv (svcinfo_init.init Getenv compiled) =
    svcinfo_init.init Getenv compiled /\
  (svcinfo.GetDDTags (svcinfo_init.init Getenv compiled) = [] <->
   compiled = svcinfo.mkVars EmptyString EmptyString EmptyString /\
   Getenv "COMMIT_SHA" = EmptyString /\ Getenv "BUILD_DATE" = EmptyString /\
   Getenv "VERSION" = EmptyString).
Proof.
  destruct compiled as [c b v]. unfold svcinfo_init.init.
  cbn [svcinfo.var_CommitSHA svcinfo.var_BuildDate svcinfo.var_Version].
  unfold svcinfo_init.commitSHAEnv, svcinfo_init.buildDateEnv, svcinfo_init.versionEnv.
  split; [|split].
  - destruct c, b, v, (Getenv "COMMIT_SHA"), (Getenv "BUILD_DATE"), (Getenv "VERSION");
      reflexivity.
  - destruct c, b, v, (Getenv "COMMIT_SHA"), (Getenv "BUILD_DATE"), (Getenv "VERSION");
      reflexivity.
  - destruct c, b, v, (Getenv "COMMIT_SHA"), (Getenv "BUILD_DATE"), (Getenv "VERSION");
      cbn; split; try discriminate; try (intros (H & ? & ? & ?); discriminate);
      try reflexivity; intros _; repeat split.
Qed.

(** X2.  GetDDTags answers one tag for each variable that is set, always in
    the order commit, build_date, version whichever of them are set, and no
    two of them are equal; it answers no tag exactly when none of the three
    is set. *)
Theorem GetDDTags_one_tag_per_set_variable (v : svcinfo.Vars) :
  List.length (svcinfo.GetDDTags v) = vars_set v /\
  NoDup (svcinfo.GetDDTags v) /\
  (svcinfo.GetDDTags v = [] <->
   v = svcinfo.mkVars EmptyString EmptyString EmptyString) /\
  (forall t, In t (svcinfo.GetDDTags v) <->
     (svcinfo.var_CommitSHA v <> EmptyString /\
        t = ("commit:" ++ svcinfo.var_CommitSHA v)%string) \/
     (svcinfo.var_BuildDate v <> EmptyString /\
        t = ("build_date:" ++ svcinfo.var_BuildDate v)%string) \/
     (svcinfo.var_Version v <> EmptyString /\
        t = ("version:" ++ svcinfo.var_Version v)%string)) /\
  svcinfo.GetDDTags v =
    (if svcinfo.nonempty (svcinfo.var_CommitSHA v)
     then [ ("commit:" ++ svcinfo.var_CommitSHA v)%string ] else [])
    ++ (if svcinfo.nonempty (svcinfo.var_BuildDate v)
        then [ ("build_date:" ++ svcinfo.var_BuildDate v)%string ] else [])
    ++ (if svcinfo.nonempty (svcinfo.var_Version v)
        then [ ("version:" ++ svcinfo.var_Version v)%string ] else []).
Proof.
  destruct v as [c b ver]. unfold svcinfo.GetDDTags, vars_set, fmt.Sprintf_s.
  cbn [svcinfo.var_CommitSHA svcinfo.var_BuildDate svcinfo.var_Version].
  split; [|split; [|split; [|split]]].
  - destruct c, b, ver; reflexivity.
  - destruct c, b, ver; cbn; repeat constructor; cbn; intuition discriminate.
  - destruct c, b, ver; cbn; split; try discriminate; reflexivity.
  - intros t. destruct c, b, ver; cbn; intuition (try congruence; try discriminate).
  - destruct c, b, ver; reflexivity.
Qed.

Lemma GetDDTags_one_tag_per_set_variable_witness :
  svcinfo.GetDDTags
    (svcinfo_init.init getenv_ex (svcinfo.mkVars EmptyString EmptyString EmptyString)) =
    [ "commit:9d07e21"; "version:v2.0.0" ] /\
  svcinfo.GetDDTags
    (svcinfo_init.init getenv_ex (svcinfo.mkVars EmptyString "2019-03-01" "v1.4.0")) =
    [ "commit:9d07e21"; "build_date:2019-03-01"; "version:v1.4.0" ].
Proof.
  split.
  - rewrite (proj2 (proj2 (proj2 (proj2
               (GetDDTags_one_tag_per_set_variable
                  (svcinfo_init.init getenv_ex
                     (svcinfo.mkVars EmptyString EmptyString EmptyString))))))).
    reflexivity.
  - rewrite (proj2 (proj2 (proj2 (proj2
               (GetDDTags_one_tag_per_set_variable
                  (svcinfo_init.init getenv_ex
                     (svcinfo.mkVars EmptyString "2019-03-01" "v1.4.0"))))))).
    reflexivity.
Defined.

(** ** The calls of one pass *)

Lemma pauseLoop_only_samples (r : Reporter) (fuel : nat) :
  forall i calls,
    pauseLoop r fuel i = Some calls ->
    Forall (fun c => exists t, c = pauseSample r t) calls.
Proof.
  induction fuel as [|fuel IH]; intros i calls; cbn [pauseLoop]; [discriminate|].
  destruct (i <=? runtime.NumGC (Stats_Mem (stats r))).
  - destruct (pauseLoop r fuel (wrap32 (i + 1))) as [rest|] eqn:E; [|discriminate].
    cbn [option_map]. intros [= <-]. apply Forall_app. split; [|now apply (IH _ _ E)].
    unfold pauseBody. destruct (time.ParseDuration_ns (pauseAt r i)) as [t|];
      constructor; [|constructor]. now exists t.
  - intros [= <-]. constructor.
Qed.

(** The calls of a pass that ends, in order: the memory gauges, the pause
    samples, the GC gauges, the size-class gauges, the runtime gauges,
    go.runtime and info. *)
Lemma passCalls_inv (r : Reporter) (last : Z) (calls : list call) :
  passCalls r last = Some calls ->
  exists pauses,
    Forall (fun c => exists t, c = pauseSample r t) pauses /\
    calls = (memGauges r ++ pauses ++ gcGauges r ++ bySizeGauges r)
              ++ exportRuntimeStats r ++ exportRuntimeInfo r ++ exportServiceInfo r.
Proof.
  unfold passCalls, exportMemStats.
  destruct (pauseLoop r (pauseFuel r last) last) as [pauses|] eqn:E; [|discriminate].
  intros H. exists pauses. split; [exact (pauseLoop_only_samples r _ _ _ E)|congruence].
Qed.

Lemma gaugesNamed_samples (r : Reporter) (name : string) (l : list call) :
  Forall (fun c => exists t, c = pauseSample r t) l -> gaugesNamed name l = [].
Proof.
  induction 1 as [|c l [t ->] _ IH]; [reflexivity|]. exact IH.
Qed.

Lemma pauseSamples_samples (r : Reporter) (l : list call) :
  Forall (fun c => exists t, c = pauseSample r t) l -> pauseSamples l = l.
Proof.
  induction 1 as [|c l [t ->] _ IH]; [reflexivity|].
  unfold pauseSamples in *. cbn [filter pauseSample is_timing name_of].
  cbn. now rewrite IH.
Qed.

(** The pause samples of a whole pass are those of its pause loop. *)
Lemma pauseSamples_pass (r : Reporter) (pauses : list call) :
  Forall (fun c => exists t, c = pauseSample r t) pauses ->
  pauseSamples ((memGauges r ++ pauses ++ gcGauges r ++ bySizeGauges r)
                  ++ exportRuntimeStats r ++ exportRuntimeInfo r ++ exportServiceInfo r)
  = pauses.
Proof.
  intros Hp.
  rewrite !pauseSamples_app, pauseSamples_memGauges, pauseSamples_gcGauges,
    pauseSamples_bySizeGauges, (pauseSamples_samples r pauses Hp).
  change (pauseSamples (exportRuntimeStats r)) with (@nil call).
  change (pauseSamples (exportRuntimeInfo r)) with (@nil call).
  assert (Hs : pauseSamples (exportServiceInfo r) = []).
  { unfold exportServiceInfo. destruct (0 <? Z.of_nat (List.length (infoTags r))); reflexivity. }
  rewrite Hs. cbn [app]. now rewrite !app_nil_r.
Qed.

(** What a Reporter built by New keeps along a run. *)
Lemma run_New_fixed (e : Env) (client : statsd.Client)
      (options : list (Reporter -> Reporter)) (l : list Action) (s : System) :
  run (New e client options) l = Some s ->
  infoTags (rep s) = svcinfo.GetDDTags (env_svcinfo e) /\
  defaultTags (rep s) = defaultTags (configured client options) /\
  period (rep s) = period (configured client options) /\
  runtimeTags (rep s) =
    defaultTags (configured client options)
      ++ [ fmt.Sprintf_s "version:" (runtime.Version (env_build e));
           fmt.Sprintf_s "arch:" (runtime.GOARCH (env_build e));
           fmt.Sprintf_s "os:" (runtime.GOOS (env_build e)) ].
Proof.
  intros Hrun. apply run_fixed_part in Hrun. rewrite New_rep in Hrun.
  unfold fixed_part in Hrun. cbn zeta in Hrun.
  cbn [stats Stats_GoInfo Stats_ServiceInfo period defaultTags infoTags runtimeTags] in Hrun.
  injection Hrun as _ _ Hp Hd Hi Hr. repeat split; assumption.
Qed.

(** The end of a pass of a Reporter built by New. *)
Lemma info_gauge_of_pass
      (e : Env) (client : statsd.Client) (options : list (Reporter -> Reporter))
      (l : list Action) (s s' : System)
      (now : runtime.Now) (processTime : time.Duration) :
  run (New e client options) l = Some s ->
  watch_select s (TimerC now processTime) = Next s' ->
  exists calls before,
    dd (rep s') = dd (rep s) ++ calls /\
    gaugeCount "info" before = 0%nat /\
    match svcinfo.GetDDTags (env_svcinfo e) with
    | [] => exists runtimeTags,
              calls = before ++ [ Gauge "go.runtime" f1_0 runtimeTags f1_0 ]
    | tags => calls = before ++ [ Gauge "info" f1_0 tags f1_0 ]
    end.
Proof.
  intros Hrun Hstep.
  destruct (run_New_fixed _ _ _ _ _ Hrun) as (Hi & _).
  pose proof (act_keeps s s' (Select (TimerC now processTime)) Hstep)
    as (_ & calls & Hdd & Hpass & _).
  specialize (Hpass now processTime eq_refl).
  apply passCalls_inv in Hpass as (pauses & Hp & ->).
  set (r := fillStats now (rep s)) in *.
  assert (Hbefore : gaugeCount "info"
                      ((memGauges r ++ pauses ++ gcGauges r ++ bySizeGauges r)
                         ++ exportRuntimeStats r) = 0%nat).
  { rewrite !gaugeCount_app, (gaugeCount_bySizeGauges_other r "info") by discriminate.
    rewrite (gaugeCount_gaugesNamed _ pauses), (gaugesNamed_samples r _ _ Hp).
    reflexivity. }
  unfold exportServiceInfo, exportRuntimeInfo in Hdd.
  change (infoTags r) with (infoTags (rep s)) in Hdd.
  change (runtimeTags r) with (runtimeTags (rep s)) in Hdd.
  rewrite length_zero_lt, Hi in Hdd.
  destruct (svcinfo.GetDDTags (env_svcinfo e)) as [|t tags] eqn:Et.
  - exists (((memGauges r ++ pauses ++ gcGauges r ++ bySizeGauges r)
               ++ exportRuntimeStats r) ++ [Gauge "go.runtime" f1_0 (runtimeTags (rep s)) f1_0]),
      ((memGauges r ++ pauses ++ gcGauges r ++ bySizeGauges r) ++ exportRuntimeStats r).
    split; [rewrite Hdd; now rewrite <- !app_assoc|]. split; [exact Hbefore|].
    now exists (runtimeTags (rep s)).
  - exists (((memGauges r ++ pauses ++ gcGauges r ++ bySizeGauges r)
               ++ exportRuntimeStats r ++ [Gauge "go.runtime" f1_0 (runtimeTags (rep s)) f1_0])
              ++ [Gauge "info" f1_0 (t :: tags) f1_0]),
      ((memGauges r ++ pauses ++ gcGauges r ++ bySizeGauges r)
         ++ exportRuntimeStats r ++ [Gauge "go.runtime" f1_0 (runtimeTags (rep s)) f1_0]).
    split; [rewrite Hdd; now rewrite <- !app_assoc|]. split; [|reflexivity].
    rewrite app_assoc, gaugeCount_app, Hbefore. reflexivity.
Qed.

(** X3.  Take a Reporter built by New at any point of its run where the
    worker waits on an armed timer.  A pass that reads a GC count below
    the largest uint32 ends, and it sends the info gauge once, as its last
    call and with the tags of svcinfo.GetDDTags, when at least one of the
    svcinfo variables is set; when none is set it sends no info gauge at
    all and its last call is the go.runtime gauge. *)
Theorem info_gauge_needs_a_variable
        (e : Env) (client : statsd.Client) (options : list (Reporter -> Reporter))
        (l : list Action) (s : System)
        (now : runtime.Now) (processTime t : time.Duration) :
  run (New e client options) l = Some s ->
  returned (worker s) = false -> timer (worker s) = Armed t ->
  0 <= numGC (rep s) -> runtime.NumGC (runtime.ReadMemStats now) < MaxUint32 ->
  exists s' calls before,
    watch_select s (TimerC now processTime) = Next s' /\
    dd (rep s') = dd (rep s) ++ calls /\
    gaugeCount "info" before = 0%nat /\
    match svcinfo.GetDDTags (env_svcinfo e) with
    | [] => exists runtimeTags,
              calls = before ++ [ Gauge "go.runtime" f1_0 runtimeTags f1_0 ]
    | tags => calls = before ++ [ Gauge "info" f1_0 tags f1_0 ]
    end.
Proof.
  intros Hrun Hr Ht Hgc Hmax.
  destruct (watch_select_pass s now processTime t Hr Ht Hgc Hmax) as (calls0 & _ & Hstep).
  destruct (info_gauge_of_pass e client options l s _ now processTime Hrun Hstep)
    as (calls & before & Hdd & Hb & Hend).
  eexists. exists calls, before. split; [exact Hstep|]. now repeat split.
Qed.

Lemma info_gauge_needs_a_variable_witness :
  let now := now_ex (mem_ex 10 ring_ex classes_ex) in
  (exists s' calls before,
     watch_select (New env_ex [] []) (TimerC now 2000000) = Next s' /\
     dd (rep s') = dd (rep (New env_ex [] [])) ++ calls /\
     gaugeCount "info" before = 0%nat /\
     calls = before ++ [ Gauge "info" f1_0
                           ["commit:4f2a9c1"; "build_date:2019-03-01"; "version:v1.4.0"]
                           f1_0 ]) /\
  (exists s' calls before,
     watch_select (New env_bare [] []) (TimerC now 2000000) = Next s' /\
     dd (rep s') = dd (rep (New env_bare [] [])) ++ calls /\
     gaugeCount "info" before = 0%nat /\
     exists runtimeTags,
       calls = before ++ [ Gauge "go.runtime" f1_0 runtimeTags f1_0 ]).
Proof.
  intros now.
  assert (Hgc : forall e, 0 <= numGC (rep (New e [] []))) by (intros e; vm_compute; discriminate).
  assert (Hmax : runtime.NumGC (runtime.ReadMemStats now) < MaxUint32)
    by (vm_compute; reflexivity).
  split.
  - exact (info_gauge_needs_a_variable env_ex [] [] [] (New env_ex [] []) now 2000000 0
             eq_refl eq_refl eq_refl (Hgc env_ex) Hmax).
  - exact (info_gauge_needs_a_variable env_bare [] [] [] (New env_bare [] []) now 2000000 0
             eq_refl eq_refl eq_refl (Hgc env_bare) Hmax).
Defined.

(** ** Edges of the GC counter *)

(** X4.  A pass that reads a GC count equal to the largest uint32 never
    ends: the condition of the pause loop holds for every value of its
    uint32 counter, so no number of tests ends the loop and the worker does
    not come back to its select. *)
Theorem pass_at_largest_gc_count_never_ends
        (s : System) (now : runtime.Now) (processTime t : time.Duration) :
  returned (worker s) = false -> timer (worker s) = Armed t ->
  0 <= numGC (rep s) <= MaxUint32 ->
  runtime.NumGC (runtime.ReadMemStats now) = MaxUint32 ->
  watch_select s (TimerC now processTime) = Spins /\
  (forall fuel, pauseLoop (fillStats now (rep s)) fuel (numGC (rep s)) = None) /\
  (forall l, run s (Select (TimerC now processTime) :: l) = None).
Proof.
  intros Hr Ht Hlast Hmax.
  assert (Hspin : forall fuel, pauseLoop (fillStats now (rep s)) fuel (numGC (rep s)) = None).
  { intros fuel. apply pauseLoop_spins; [exact Hmax|exact Hlast]. }
  assert (Hsel : watch_select s (TimerC now processTime) = Spins).
  { unfold watch_select. rewrite Hr, Ht.
    change (runtime.NumGC (Stats_Mem (stats (rep s)))) with (numGC (rep s)).
    unfold passCalls. rewrite exportMemStats_spins; [reflexivity|exact Hmax|exact Hlast]. }
  repeat split; try assumption.
  intros l. cbn [run act]. now rewrite Hsel.
Qed.

Lemma pass_at_largest_gc_count_never_ends_witness :
  watch_select (New env_ex [] [])
    (TimerC (now_ex (mem_ex MaxUint32 ring_ex classes_ex)) 2000000) = Spins.
Proof.
  apply (pass_at_largest_gc_count_never_ends (New env_ex [] []) _ 2000000 0);
    [reflexivity | reflexivity | vm_compute; split; discriminate | reflexivity].
Defined.

(** X5.  A pass that reads a GC count smaller than the one of the pass
    before (the uint32 counter of the runtime has wrapped) sends no pause
    sample; the rest of the pass is sent as usual. *)
Theorem no_pause_sample_when_gc_count_drops
        (s : System) (now : runtime.Now) (processTime t : time.Duration) :
  returned (worker s) = false -> timer (worker s) = Armed t ->
  0 <= runtime.NumGC (runtime.ReadMemStats now) < numGC (rep s) ->
  numGC (rep s) <= MaxUint32 ->
  exists s' calls,
    watch_select s (TimerC now processTime) = Next s' /\
    dd (rep s') = dd (rep s) ++ calls /\
    pauseSamples calls = [] /\
    let r := fillStats now (rep s) in
    calls = (memGauges r ++ gcGauges r ++ bySizeGauges r)
              ++ exportRuntimeStats r ++ exportRuntimeInfo r ++ exportServiceInfo r.
Proof.
  intros Hr Ht Hdrop Hmax.
  destruct (watch_select_pass s now processTime t Hr Ht) as (calls & Hc & Hs);
    [lia|lia|].
  assert (Hn : numGC (fillStats now (rep s)) = runtime.NumGC (runtime.ReadMemStats now))
    by reflexivity.
  eexists. exists calls. split; [exact Hs|]. cbn [rep dd set_dd]. split; [reflexivity|].
  rewrite passCalls_ends in Hc by lia.
  injection Hc as <-.
  rewrite indices_empty by lia. cbn [flat_map].
  split; [|reflexivity].
  apply (pauseSamples_pass (fillStats now (rep s)) []). constructor.
Qed.

Lemma no_pause_sample_when_gc_count_drops_witness :
  exists s1 s2,
    watch_select (New env_ex [] []) (TimerC (now_ex (mem_ex 13 ring_ex classes_ex)) 2000000)
      = Next s1 /\
    watch_select s1 (TimerC (now_ex (mem_ex 2 ring_ex classes_ex)) 2000000) = Next s2 /\
    exists calls, dd (rep s2) = dd (rep s1) ++ calls /\ pauseSamples calls = [].
Proof.
  destruct (watch_select (New env_ex [] [])
              (TimerC (now_ex (mem_ex 13 ring_ex classes_ex)) 2000000)) as [s1| |] eqn:E1;
    try (vm_compute in E1; discriminate E1).
  assert (Hs1 : returned (worker s1) = false /\ timer (worker s1) = Armed 4998000000
                /\ numGC (rep s1) = 13).
  { vm_compute in E1. injection E1 as <-. repeat split. }
  destruct Hs1 as (Hr & Ht & Hn).
  destruct (no_pause_sample_when_gc_count_drops s1
              (now_ex (mem_ex 2 ring_ex classes_ex)) 2000000 _ Hr Ht)
    as (s2 & calls & E2 & Hdd & Hp & _).
  - rewrite Hn. vm_compute. split; [discriminate|reflexivity].
  - rewrite Hn. vm_compute. discriminate.
  - exists s1, s2. split; [reflexivity|]. split; [exact E2|].
    exists calls. split; assumption.
Defined.

(** ** Consecutive passes *)







Lemma last_quick (p : time.Duration) (l : list Case) :
  Forall (quick p) l -> l <> [] ->
  exists now pt, List.last l CtxDone = TimerC now pt.
Proof.
  induction 1 as [|c l Hc Hl IH]; [congruence|]. intros _.
  destruct l as [|c' l'].
  - destruct c as [now pt|]; [|destruct Hc]. now exists now, pt.
  - change (List.last (c :: c' :: l') CtxDone) with (List.last (c' :: l') CtxDone).
    apply IH. discriminate.
Qed.

(** X7.  As long as every pass reads a GC count below the largest uint32
    and takes less than the period, the loop goes on: any number of such
    passes can be taken one after the other, and after each the worker
    waits in its select on a timer of exactly the period less the time the
    pass took. *)
Theorem quick_passes_keep_ticking (s : System) (l : list Case) (t : time.Duration) :
  returned (worker s) = false -> timer (worker s) = Armed t ->
  0 <= numGC (rep s) -> period (rep s) <= MaxInt64 ->
  Forall (quick (period (rep s))) l ->
  exists s',
    run s (map Select l) = Some s' /\
    returned (worker s') = false /\
    period (rep s') = period (rep s) /\
    timer (worker s') =
      match List.last l CtxDone with
      | TimerC _ processTime => Armed (period (rep s) - processTime)
      | CtxDone => Armed t
      end.
Proof.
  intros Hr Ht Hg Hp Hl. revert s t Hr Ht Hg Hp Hl.
  induction l as [|c l IH]; intros s t Hr Ht Hg Hp Hl.
  - exists s. repeat split; assumption.
  - apply Forall_cons_iff in Hl as [Hc Hl].
    destruct c as [now pt|]; [|destruct Hc]. destruct Hc as [Hgc Hpt].
    destruct (watch_select_pass s now pt t Hr Ht Hg) as (calls & _ & Hs); [lia|].
    match type of Hs with _ = Next ?x => set (s1 := x) in * end.
    assert (Ht1 : timer (worker s1) = Armed (period (rep s) - pt)).
    { cbn [s1 worker timer]. rewrite nextTimer_positive by lia. f_equal. lia. }
    destruct (IH s1 (period (rep s) - pt) eq_refl Ht1) as (s' & Hrun & Hr' & Hp' & Ht');
      [exact (proj1 Hgc)|exact Hp|exact Hl|].
    exists s'. cbn [map run act]. rewrite Hs. split; [exact Hrun|].
    split; [exact Hr'|]. split; [exact Hp'|].
    rewrite Ht'. change (period (rep s1)) with (period (rep s)).
    destruct l as [|c' l']; [reflexivity|].
    change (List.last (TimerC now pt :: c' :: l') CtxDone)
      with (List.last (c' :: l') CtxDone).
    destruct (last_quick (period (rep s)) (c' :: l') Hl) as (now' & pt' & ->);
      [discriminate|reflexivity].
Qed.

Lemma quick_passes_keep_ticking_witness :
  exists s',
    run (New env_ex [] []) (map Select passes_ex) = Some s' /\
    returned (worker s') = false /\
    timer (worker s') = Armed 4998000000.
Proof.
  assert (Hq : Forall (quick (period (rep (New env_ex [] [])))) passes_ex).
  { repeat constructor; vm_compute; try discriminate; reflexivity. }
  destruct (quick_passes_keep_ticking (New env_ex [] []) passes_ex 0 eq_refl eq_refl)
    as (s' & Hrun & Hr & _ & Ht);
    [vm_compute; discriminate|vm_compute; discriminate|exact Hq|].
  exists s'. split; [exact Hrun|]. split; [exact Hr|]. exact Ht.
Defined.



(** ** Progress under the RWMutex *)

Lemma sum_set_at (l : list GetPc) (i : nat) (p v : GetPc) :
  nth_error l i = Some p ->
  (steps_of (set_at l i v) + steps_left p =
   steps_of l + steps_left v)%nat.
Proof.
  revert i. induction l as [|x l IH]; intros [|i]; cbn [nth_error]; try discriminate.
  - intros [= ->]. cbn [set_at steps_of]. lia.
  - intros H. specialize (IH i H). cbn [set_at steps_of]. lia.
Qed.

Lemma sum_wake (l : list GetPc) :
  steps_of (map wake l) = steps_of l.
Proof.
  induction l as [|p l IH]; [reflexivity|].
  cbn [map steps_of]. rewrite IH. now destruct p.
Qed.

Lemma length_set_at_pc (l : list GetPc) (i : nat) (v : GetPc) :
  List.length (set_at l i v) = List.length l.
Proof.
  revert i. induction l as [|x l IH]; intros [|i]; cbn [set_at List.length]; auto.
Qed.

Lemma sum_steps_bound (l : list GetPc) :
  (steps_of l <= 5 * List.length l)%nat.
Proof.
  induction l as [|p l IH]; [cbn; lia|].
  cbn [steps_of List.length]. destruct p; cbn [steps_left]; lia.
Qed.

(** With no caller holding the read lock and none waiting for it, no call
    of GetStats is under way. *)
Lemma sum_steps_nobody (l : list GetPc) :
  nholding l = 0%nat -> nwaiting l = 0%nat -> steps_of l = 0%nat.
Proof.
  unfold nholding, nwaiting. induction l as [|p l IH]; [reflexivity|].
  cbn [filter steps_of].
  destruct p; cbn [holding waiting steps_left List.length]; try discriminate;
    intros Hh Hw; cbn [Nat.add]; now apply IH.
Qed.

Lemma somebody_holds (l : list GetPc) :
  (0 < nholding l)%nat -> exists i p, nth_error l i = Some p /\ holding p = true.
Proof.
  unfold nholding. induction l as [|x l IH]; cbn [filter List.length]; [lia|].
  destruct (holding x) eqn:E.
  - intros _. now exists 0%nat, x.
  - intros H. destruct (IH H) as (i & p & Hi & Hp). now exists (S i), p.
Qed.

(** A caller that holds the read lock can always make its next step. *)
Lemma holder_steps (c : Shared) (i : nat) (p : GetPc) :
  nth_error (getters c) i = Some p -> holding p = true ->
  inside c (Get i) = true /\ exists c', GetStats_step i c = Some c'.
Proof.
  intros Hi Hp. unfold inside, GetStats_step. rewrite Hi.
  destruct p; try discriminate Hp; (split; [reflexivity|eexists; reflexivity]).
Qed.

(** A move of a call under way takes one step off the work that is left,
    and leaves the number of callers as it is. *)
Lemma inside_move_works (c c' : Shared) (m : Move) :
  inside c m = true -> move c m = Some c' ->
  (S (work c') = work c)%nat /\ List.length (getters c') = List.length (getters c).
Proof.
  unfold work. destruct m as [now|i]; cbn [inside move].
  - unfold fillStats_step.
    destruct (filler c) as [|n|n|n|]; cbn [is_idle negb]; try discriminate; intros _.
    + destruct (sync.writer (mu c)); try discriminate. intros [= <-]. now split.
    + intros [= <-]. now split.
    + intros [= <-]. now split.
    + intros [= <-]. cbn [filler getters fill_left].
      rewrite sum_wake, length_map. now split.
  - unfold GetStats_step.
    destruct (nth_error (getters c) i) as [p|] eqn:En; [|discriminate].
    pose proof (fun v => sum_set_at (getters c) i p v En) as Hs.
    destruct p; try discriminate; intros _ [= <-]; cbn [filler getters];
      rewrite length_set_at_pc;
      match goal with
      | |- context [set_at _ _ ?v] => specialize (Hs v)
      end; cbn [steps_left] in Hs; (split; [lia|reflexivity]).
Qed.

Lemma new_call_keeps_length (c c' : Shared) (m : Move) :
  move c m = Some c' -> List.length (getters c') = List.length (getters c).
Proof.
  destruct m as [now|i]; cbn [move].
  - unfold fillStats_step. destruct (filler c).
    + destruct (sync.Lock (mu c)); [|discriminate]. now intros [= <-].
    + destruct (sync.writer (mu c)); try discriminate. now intros [= <-].
    + now intros [= <-].
    + now intros [= <-].
    + intros [= <-]. cbn [getters]. apply length_map.
  - unfold GetStats_step.
    destruct (nth_error (getters c) i) as [p|]; [|discriminate].
    destruct p; try discriminate;
      try destruct (sync.RLock (mu c)) as [m0 got];
      intros [= <-]; cbn [getters]; apply length_set_at_pc.
Qed.

Lemma schedule_keeps_length (l : list Move) :
  forall c c', schedule c l = Some c' ->
               List.length (getters c') = List.length (getters c).
Proof.
  induction l as [|m l IH]; intros c c'; cbn [schedule].
  - now intros [= <-].
  - destruct (move c m) as [c1|] eqn:E; [|discriminate].
    intros H. rewrite (IH _ _ H). exact (new_call_keeps_length _ _ _ E).
Qed.

(** A schedule in which no new call starts is a schedule, and no pass
    starts in it. *)
Lemma finishing_schedule (l : list Move) :
  forall c c', finishing c l = Some c' -> schedule c l = Some c' /\ samples c l = [].
Proof.
  induction l as [|m l IH]; intros c c'; cbn [finishing schedule samples].
  - intros [= <-]. now split.
  - destruct (inside c m) eqn:Ei; [|discriminate].
    destruct (move c m) as [c1|]; [|discriminate].
    intros H. destruct (IH _ _ H) as [Hs Hn]. split; [exact Hs|].
    destruct m as [now|i]; [|exact Hn].
    cbn [inside] in Ei. destruct (filler c); [discriminate|exact Hn..].
Qed.

Lemma finishing_works (l : list Move) :
  forall c c', finishing c l = Some c' -> (List.length l + work c' = work c)%nat.
Proof.
  induction l as [|m l IH]; intros c c'; cbn [finishing List.length].
  - now intros [= <-].
  - destruct (inside c m) eqn:Ei; [|discriminate].
    destruct (move c m) as [c1|] eqn:Em; [|discriminate].
    intros H. specialize (IH _ _ H).
    destruct (inside_move_works c c1 m Ei Em) as [Hw _]. lia.
Qed.

Lemma finishing_app (l1 l2 : list Move) :
  forall c c1, finishing c l1 = Some c1 -> finishing c (l1 ++ l2) = finishing c1 l2.
Proof.
  induction l1 as [|m l1 IH]; intros c c1; cbn [finishing app].
  - now intros [= <-].
  - destruct (inside c m); [|discriminate].
    destruct (move c m) as [c'|]; [|discriminate].
    apply IH.
Qed.

(** A caller inside GetStats stays inside until it has returned. *)
Lemma called_stays (c c' : Shared) (m : Move) (i : nat) (p : GetPc) :
  move c m = Some c' -> nth_error (getters c) i = Some p -> p <> GetIdle ->
  exists p', nth_error (getters c') i = Some p' /\ p' <> GetIdle.
Proof.
  intros Hm Hi Hp. destruct m as [now|j]; cbn [move] in Hm.
  - unfold fillStats_step in Hm. destruct (filler c).
    + destruct (sync.Lock (mu c)); [|discriminate]. injection Hm as <-. now exists p.
    + destruct (sync.writer (mu c)); try discriminate. injection Hm as <-. now exists p.
    + injection Hm as <-. now exists p.
    + injection Hm as <-. now exists p.
    + injection Hm as <-. cbn [getters]. rewrite nth_error_map, Hi. cbn [option_map].
      exists (wake p). split; [reflexivity|]. destruct p; cbn [wake]; congruence.
  - assert (Hset : forall v, v <> GetIdle ->
                     exists p', nth_error (set_at (getters c) j v) i = Some p' /\
                                p' <> GetIdle).
    { intros v Hv. clear Hm. revert i j Hi.
      induction (getters c) as [|x l IH]; intros [|i] [|j]; cbn [nth_error set_at];
        try discriminate; intros Hi.
      - injection Hi as ->. now exists v.
      - injection Hi as ->. now exists p.
      - now exists p.
      - now apply IH. }
    unfold GetStats_step in Hm.
    destruct (nth_error (getters c) j) as [q|] eqn:Ej; [|discriminate].
    destruct q; try discriminate;
      try destruct (sync.RLock (mu c)) as [m0 got];
      injection Hm as <-; cbn [getters]; apply Hset;
      try destruct got; discriminate.
Qed.

Lemma schedule_called_stays (l : list Move) :
  forall c c' i p,
    schedule c l = Some c' -> nth_error (getters c) i = Some p -> p <> GetIdle ->
    exists p', nth_error (getters c') i = Some p' /\ p' <> GetIdle.
Proof.
  induction l as [|m l IH]; intros c c' i p; cbn [schedule].
  - intros [= <-] Hi Hp. now exists p.
  - destruct (move c m) as [c1|] eqn:E; [|discriminate].
    intros H Hi Hp. destruct (called_stays c c1 m i p E Hi Hp) as (p1 & H1 & Hp1).
    exact (IH _ _ _ _ H H1 Hp1).
Qed.

(** Where calls are under way, one of them can make its next step. *)
Lemma never_stuck (r0 : Reporter) (nows : list runtime.Now) (c : Shared)
      (now : runtime.Now) :
  Inv r0 nows c -> (0 < work c)%nat ->
  exists m c', inside c m = true /\ move c m = Some c'.
Proof.
  intros [Hw Hwt Hh Hr Hb Hn Hg Hs Hf Hge] Hpos.
  destruct (Nat.eq_dec (nholding (getters c)) 0) as [H0|Hne].
  - destruct (filler c) as [|n|n|n|] eqn:Ef; cbn [writer_ok] in Hw.
    + exfalso. unfold work in Hpos. rewrite Ef in Hpos. cbn [fill_left] in Hpos.
      rewrite sum_steps_nobody in Hpos; [lia|exact H0|].
      rewrite <- Hb. now apply Hn.
    + exists (Fill now). cbn [inside move]. unfold fillStats_step. rewrite Ef.
      destruct (sync.writer (mu c)) eqn:Ew; [congruence| |].
      * exfalso. apply Hwt; [reflexivity|congruence].
      * eexists. split; reflexivity.
    + exists (Fill now). cbn [inside move]. unfold fillStats_step. rewrite Ef.
      eexists. split; reflexivity.
    + exists (Fill now). cbn [inside move]. unfold fillStats_step. rewrite Ef.
      eexists. split; reflexivity.
    + exists (Fill now). cbn [inside move]. unfold fillStats_step. rewrite Ef.
      eexists. split; reflexivity.
  - destruct (somebody_holds (getters c)) as (i & p & Hi & Hp); [lia|].
    destruct (holder_steps c i p Hi Hp) as [Hin [c' Hc']].
    exists (Get i), c'. now split.
Qed.

(** The calls under way can all be brought to their end. *)
Lemma can_finish (r0 : Reporter) (now : runtime.Now) (k : nat) :
  forall (nows : list runtime.Now) (c : Shared),
    Inv r0 nows c -> work c = k ->
    exists l c', finishing c l = Some c' /\ work c' = 0%nat.
Proof.
  induction k as [|k IH]; intros nows c Hinv Hk.
  - exists [], c. now split.
  - destruct (never_stuck r0 nows c now Hinv) as (m & c1 & Hin & Hm); [lia|].
    destruct (inside_move_works c c1 m Hin Hm) as [Hw _].
    assert (Hinv1 : Inv r0 nows c1).
    { assert (Hf : finishing c [m] = Some c1) by (cbn [finishing]; now rewrite Hin, Hm).
      destruct (finishing_schedule [m] c c1 Hf) as [Hs Hn].
      pose proof (Inv_schedule r0 [m] nows c c1 Hinv Hs) as H.
      now rewrite Hn, app_nil_r in H. }
    destruct (IH nows c1 Hinv1) as (l & c' & Hl & H0); [lia|].
    exists (m :: l), c'. cbn [finishing]. rewrite Hin, Hm. now split.
Qed.

(** X9.  fillStats and GetStats cannot block one another for ever.  From
    any state a schedule can reach (the worker waiting in Lock for the
    readers to leave and callers held back in RLock included), take any
    schedule in which no new call starts.  It has at most as many steps
    as the calls under way have left, never more than 4 + 5n for n
    callers; as long as steps are left one of the goroutines inside a call
    can make its next step; and when none is left the worker is out of
    fillStats and every caller that was inside GetStats has returned one
    snapshot.  Such a schedule to the end always exists. *)
Theorem calls_under_way_always_finish
        (r : Reporter) (n : nat) (l : list Move) (c : Shared) :
  schedule (at_rest r n) l = Some c ->
  (work c <= 4 + 5 * n)%nat /\
  (forall l' c', finishing c l' = Some c' ->
     (List.length l' + work c' = work c)%nat /\
     ((0 < work c')%nat ->
      exists m c'', inside c' m = true /\ move c' m = Some c'') /\
     (work c' = 0%nat ->
      filler c' = FillIdle /\
      forall i p, nth_error (getters c) i = Some p -> p <> GetIdle ->
        exists s, nth_error (getters c') i = Some (GetReturned s) /\
                  Snapshot r (samples (at_rest r n) l) s)) /\
  (exists l' c', finishing c l' = Some c' /\ work c' = 0%nat).
Proof.
  intros Hs.
  pose proof (Inv_schedule r l [] _ c (Inv_at_rest r n) Hs) as Hinv.
  cbn [app] in Hinv.
  split; [|split].
  - unfold work. pose proof (sum_steps_bound (getters c)) as Hb.
    rewrite (schedule_keeps_length l _ _ Hs) in Hb.
    cbn [at_rest getters] in Hb. rewrite repeat_length in Hb.
    destruct (filler c); cbn [fill_left]; lia.
  - intros l' c' Hf.
    destruct (finishing_schedule l' c c' Hf) as [Hs' Hn'].
    pose proof (Inv_schedule r l' _ c c' Hinv Hs') as Hinv'.
    rewrite Hn', app_nil_r in Hinv'.
    split; [exact (finishing_works l' c c' Hf)|]. split.
    + intros Hpos.
      exact (never_stuck r _ c' (runtime.mkNow runtime.MemStats0 0 0 0 0) Hinv' Hpos).
    + intros H0. unfold work in H0.
      split; [destruct (filler c'); cbn [fill_left] in H0; (reflexivity || lia)|].
      intros i p Hi Hp.
      destruct (schedule_called_stays l' c c' i p Hs' Hi Hp) as (p' & Hi' & Hp').
      assert (Hz : steps_left p' = 0%nat).
      { assert (Hsum : steps_of (getters c') = 0%nat) by lia.
        clear - Hi' Hsum. revert i Hi' Hsum.
        induction (getters c') as [|x g IH]; intros [|i]; cbn [nth_error steps_of];
          try discriminate.
        - intros [= ->] H. lia.
        - intros Hi H. apply (IH i Hi). lia. }
      destruct p'; try discriminate Hz; [congruence|].
      exists s. split; [exact Hi'|].
      destruct Hinv' as [_ _ _ _ _ _ _ _ _ Hge].
      exact (nth_error_Forall _ _ _ _ Hge Hi').
  - exact (can_finish r (runtime.mkNow runtime.MemStats0 0 0 0 0) (work c) _ c Hinv eq_refl).
Qed.

Lemma calls_under_way_always_finish_witness :
  let r := rep (New env_ex [] []) in
  let now := now_ex (mem_ex 13 ring_ex classes_ex) in
  exists c c',
    schedule (at_rest r 2) crowded_ex = Some c /\
    filler c = FillWaiting now /\
    getters c = [GetGoInfo (Stats_GoInfo (stats r)); GetWaiting] /\
    work c = 13%nat /\
    move c (Get 1%nat) = None /\ move c (Fill now) = None /\
    finishing c [ Get 0; Get 0; Get 0; Get 0; Fill now; Fill now; Fill now; Fill now;
                  Get 1; Get 1; Get 1; Get 1; Get 1 ]%nat = Some c' /\
    getters c' = [GetReturned (stats r); GetReturned (stats (fillStats now r))].
Proof.
  intros r now.
  destruct (schedule (at_rest r 2) crowded_ex) as [c|] eqn:E;
    [|vm_compute in E; discriminate E].
  pose proof (calls_under_way_always_finish r 2 crowded_ex c E) as (_ & Hall & _).
  assert (Hc : c = mkShared (sync.mkRWMutex sync.WriterWaits 1 1) (stats r)
                            (FillWaiting now)
                            [GetGoInfo (Stats_GoInfo (stats r)); GetWaiting])
    by (vm_compute in E; injection E as <-; reflexivity).
  match goal with
  | |- exists c0 c', _ /\ _ /\ _ /\ _ /\ _ /\ _ /\ finishing c0 ?l' = Some c' /\ _ =>
      destruct (finishing c l') as [c'|] eqn:E'; [|subst c; vm_compute in E'; discriminate E']
  end.
  destruct (Hall _ c' E') as (Hlen & _ & _).
  exists c, c'. split; [reflexivity|].
  subst c. repeat (split; [reflexivity|]).
  split; [exact E'|].
  vm_compute in E'. injection E' as <-. reflexivity.
Defined.

(** ** Slices *)

Lemma length_set_at {A : Type} (l : list A) (i : nat) (v : A) :
  List.length (set_at l i v) = List.length l.
Proof.
  revert i. induction l as [|x l IH]; intros [|i]; cbn [set_at List.length]; auto.
Qed.

Lemma nth_set_at_same {A : Type} (l : list A) (i : nat) (v d : A) :
  (i < List.length l)%nat -> nth i (set_at l i v) d = v.
Proof.
  revert i. induction l as [|x l IH]; intros [|i] H; cbn [List.length] in H;
    cbn [set_at nth]; try lia; [reflexivity|]. apply IH. lia.
Qed.

Lemma nth_set_at_other {A : Type} (l : list A) (i j : nat) (v d : A) :
  i <> j -> nth j (set_at l i v) d = nth j l d.
Proof.
  revert i j. induction l as [|x l IH]; intros [|i] [|j] H; cbn [set_at nth];
    try congruence. apply IH. congruence.
Qed.

Lemma length_write (a vals : list string) (i : nat) :
  (i + List.length vals <= List.length a)%nat ->
  List.length (slices.write a i vals) = List.length a.
Proof.
  intros H. unfold slices.write.
  rewrite !length_app, length_firstn, length_skipn. lia.
Qed.

Lemma firstn_write_before (a vals : list string) (i k : nat) :
  (k <= i)%nat -> (i <= List.length a)%nat ->
  firstn k (slices.write a i vals) = firstn k a.
Proof.
  intros Hk Hi. unfold slices.write.
  rewrite firstn_app, length_firstn.
  replace (k - Nat.min i (List.length a))%nat with 0%nat by lia.
  cbn [firstn]. rewrite app_nil_r, firstn_firstn. f_equal. lia.
Qed.

Lemma firstn_write_through (a vals : list string) (i : nat) :
  (i <= List.length a)%nat ->
  firstn (i + List.length vals) (slices.write a i vals) = firstn i a ++ vals.
Proof.
  intros Hi. unfold slices.write.
  rewrite app_assoc, firstn_app, length_app, length_firstn.
  replace (Nat.min i (List.length a)) with i by lia.
  replace (i + List.length vals - (i + List.length vals))%nat with 0%nat by lia.
  cbn [firstn]. rewrite app_nil_r.
  apply firstn_all2. rewrite length_app, length_firstn. lia.
Qed.

Section AppendFacts.
Variable extra : nat -> nat.
Variables (h : slices.Heap) (s : slices.Slice) (vals : list string).
Hypothesis Hwf : slices.wf h s.

Let h1 : slices.Heap := fst (slices.append extra h s vals).
Let s1 : slices.Slice := snd (slices.append extra h s vals).

Lemma append_length : (List.length h <= List.length h1)%nat.
Proof.
  unfold h1, slices.append.
  destruct (slices.len s + List.length vals <=? slices.cap s)%nat; cbn [fst].
  - rewrite length_set_at. lia.
  - rewrite length_app. cbn. lia.
Qed.

Lemma append_arr : slices.arr s1 = slices.arr s \/ slices.arr s1 = List.length h.
Proof.
  unfold s1, slices.append.
  destruct (slices.len s + List.length vals <=? slices.cap s)%nat; cbn [snd slices.arr]; auto.
Qed.

Lemma append_len : slices.len s1 = (slices.len s + List.length vals)%nat.
Proof.
  unfold s1, slices.append.
  destruct (slices.len s + List.length vals <=? slices.cap s)%nat; reflexivity.
Qed.

(** An append moves to a new array exactly when the capacity is short. *)
Lemma append_moves :
  (slices.cap s < slices.len s + List.length vals)%nat ->
  slices.arr s1 = List.length h /\ h1 = h ++ [nth (slices.arr s1) h1 []].
Proof.
  intros H. unfold s1, h1, slices.append.
  destruct (Nat.leb_spec (slices.len s + List.length vals) (slices.cap s)); [lia|].
  cbn [fst snd slices.arr]. split; [reflexivity|].
  now rewrite app_nth2, Nat.sub_diag by lia.
Qed.

Lemma append_stays :
  (slices.len s + List.length vals <= slices.cap s)%nat ->
  slices.arr s1 = slices.arr s /\
  h1 = set_at h (slices.arr s)
              (slices.write (nth (slices.arr s) h []) (slices.len s) vals).
Proof.
  intros H. unfold s1, h1, slices.append.
  destruct (Nat.leb_spec (slices.len s + List.length vals) (slices.cap s)); [|lia].
  split; reflexivity.
Qed.

Lemma append_contents : slices.contents h1 s1 = slices.contents h s ++ vals.
Proof.
  destruct Hwf as (Ha & Hl & Hc).
  unfold s1, h1, slices.append, slices.contents.
  destruct (Nat.leb_spec (slices.len s + List.length vals) (slices.cap s));
    cbn [fst snd slices.arr slices.len].
  - rewrite nth_set_at_same by exact Ha. apply firstn_write_through. lia.
  - rewrite app_nth2, Nat.sub_diag by lia. cbn [nth].
    rewrite app_assoc, firstn_app.
    assert (Hlen : List.length (firstn (slices.len s) (nth (slices.arr s) h []) ++ vals)
                   = (slices.len s + List.length vals)%nat).
    { rewrite length_app, length_firstn. lia. }
    rewrite Hlen, Nat.sub_diag. cbn [firstn]. rewrite app_nil_r.
    apply firstn_all2. lia.
Qed.

Lemma append_wf : slices.wf h1 s1.
Proof.
  destruct Hwf as (Ha & Hl & Hc).
  unfold s1, h1, slices.append, slices.wf.
  destruct (Nat.leb_spec (slices.len s + List.length vals) (slices.cap s));
    cbn [fst snd slices.arr slices.len slices.cap].
  - rewrite length_set_at, nth_set_at_same by exact Ha.
    rewrite length_write by lia. repeat split; auto.
  - rewrite length_app, app_nth2, Nat.sub_diag by lia. cbn [nth List.length].
    split; [lia|]. split; [|lia].
    unfold slices.contents.
    rewrite !length_app, length_firstn, repeat_length. lia.
Qed.

(** The other arrays are left alone. *)
Lemma append_other_array (a : nat) :
  (a < List.length h)%nat -> a <> slices.arr s -> nth a h1 [] = nth a h [].
Proof.
  intros Ha Hne. unfold h1, slices.append.
  destruct (slices.len s + List.length vals <=? slices.cap s)%nat; cbn [fst].
  - apply nth_set_at_other. congruence.
  - now rewrite app_nth1.
Qed.

(** No array changes length, and the array of the slice keeps what it
    held below the length of the slice. *)
Lemma append_same_array :
  List.length (nth (slices.arr s) h1 []) = slices.cap s /\
  firstn (slices.len s) (nth (slices.arr s) h1 []) = slices.contents h s.
Proof.
  destruct Hwf as (Ha & Hl & Hc).
  unfold h1, slices.append, slices.contents.
  destruct (Nat.leb_spec (slices.len s + List.length vals) (slices.cap s)); cbn [fst].
  - rewrite nth_set_at_same by exact Ha. split.
    + rewrite length_write; lia.
    + apply firstn_write_before; lia.
  - rewrite app_nth1 by exact Ha. now split.
Qed.

(** A slice that is wf in the heap before stays so after, and keeps its
    contents when it lives in another array or is no longer than s. *)
Lemma append_keeps (s' : slices.Slice) :
  slices.wf h s' ->
  slices.wf h1 s' /\
  (slices.arr s' <> slices.arr s \/ (slices.len s' <= slices.len s)%nat ->
   slices.contents h1 s' = slices.contents h s').
Proof.
  intros (Ha' & Hl' & Hc').
  pose proof append_length as Hlen.
  destruct (Nat.eq_dec (slices.arr s') (slices.arr s)) as [E|E].
  - destruct append_same_array as [Hl1 Hp1].
    destruct Hwf as (Ha & Hl & Hc).
    split.
    + unfold slices.wf. rewrite E, Hl1. rewrite E, Hl in Hl'. repeat split; lia.
    + intros [Hne|Hle]; [congruence|]. unfold slices.contents in *. rewrite E.
      replace (slices.len s') with (Nat.min (slices.len s') (slices.len s)) by lia.
      rewrite <- !firstn_firstn. now rewrite Hp1.
  - split.
    + unfold slices.wf. rewrite (append_other_array _ Ha' E). repeat split; lia.
    + intros _. unfold slices.contents. now rewrite (append_other_array _ Ha' E).
Qed.
End AppendFacts.

Section SlicesApart.
Variable extra : nat -> nat.

(** The loop over BySize on slices that are apart: it sends what the loop
    on lists sends and leaves the three slices as they were. *)
Lemma bySizeLoop_sl_apart (r : Reporter) (d info rt : slices.Slice)
      (classes : list SizeClass.t) :
  forall h,
    apart (mkTagSlices h d info rt) ->
    defaultTags r = slices.contents h d ->
    let '(calls, h') := bySizeLoop_sl extra h d classes in
    calls = flat_map (bySizeBody r) classes /\
    apart (mkTagSlices h' d info rt) /\
    slices.contents h' d = slices.contents h d /\
    slices.contents h' info = slices.contents h info /\
    slices.contents h' rt = slices.contents h rt.
Proof.
  induction classes as [|b classes IH]; intros h Hap Hd.
  - cbn [bySizeLoop_sl flat_map]. split; [reflexivity|]. split; [exact Hap|].
    repeat split.
  - cbn [bySizeLoop_sl flat_map].
    destruct Hap as (Hwd & Hwi & Hwr & Hni & Hnr). cbn [heap sl_defaultTags sl_infoTags
                                                          sl_runtimeTags] in *.
    set (tag := fmt.Sprintf_d "size:" (SizeClass.Size b)).
    pose proof (append_contents extra h d [tag] Hwd) as Hc.
    pose proof (append_keeps extra h d [tag] Hwd) as Hk.
    destruct (slices.append extra h d [tag]) as [h1 tags] eqn:Ea.
    cbn [fst snd] in Hc, Hk.
    destruct (Hk d Hwd) as [Hwd1 Hcd]. specialize (Hcd (or_intror (Nat.le_refl _))).
    destruct (Hk info Hwi) as [Hwi1 Hci]. specialize (Hci (or_introl Hni)).
    destruct (Hk rt Hwr) as [Hwr1 Hcr]. specialize (Hcr (or_introl Hnr)).
    assert (Hap1 : apart (mkTagSlices h1 d info rt)).
    { unfold apart. cbn [heap sl_defaultTags sl_infoTags sl_runtimeTags].
      split; [exact Hwd1|]. split; [exact Hwi1|]. split; [exact Hwr1|]. now split. }
    specialize (IH h1 Hap1 ltac:(congruence)).
    destruct (bySizeLoop_sl extra h1 d classes) as [more h2].
    destruct IH as (Hmore & Hap2 & Hd2 & Hi2 & Hr2).
    split; [|split; [exact Hap2|split; [congruence|split; congruence]]].
    rewrite Hmore. unfold bySizeBody. rewrite Hc, <- Hd. reflexivity.
Qed.

Lemma view_stats (r : Reporter) (t : TagSlices) : stats (view r t) = stats r.
Proof. reflexivity. Qed.

(** One append to a slice made after [h0]. *)
Lemma made_after_append (h0 h : slices.Heap) (s : slices.Slice)
      (tags : list string) (x : string) :
  made_after h0 h s -> slices.contents h s = tags ->
  made_after h0 (fst (slices.append extra h s [x])) (snd (slices.append extra h s [x]))
  /\ slices.contents (fst (slices.append extra h s [x]))
       (snd (slices.append extra h s [x])) = tags ++ [x].
Proof.
  intros (Ha & Hw & Hl & Hold) Hc.
  pose proof (append_length extra h s [x]) as Hlen.
  split; [|now rewrite append_contents, Hc].
  split; [|split; [|split]].
  - destruct (append_arr extra h s [x]) as [-> | ->]; lia.
  - now apply append_wf.
  - lia.
  - intros a Hlt. rewrite append_other_array by lia. now apply Hold.
Qed.

Ltac append_step :=
  match goal with
  | Hf : made_after _ ?h ?s, Hc : slices.contents ?h ?s = ?tags
    |- context [slices.append _ ?h ?s [?x]] =>
      let Hf' := fresh "Hf" in
      let Hc' := fresh "Hc" in
      destruct (made_after_append _ h s tags x Hf Hc) as [Hf' Hc'];
      destruct (slices.append extra h s [x]);
      cbn [fst snd] in Hf', Hc'; clear Hf Hc
  end.

(** svcinfo.GetDDTags on slices makes a slice of its own that holds what
    svcinfo.GetDDTags answers, and touches no array the heap had. *)
Lemma GetDDTags_sl_made_after (v : svcinfo.Vars) (h0 : slices.Heap) :
  let '(h, s) := GetDDTags_sl extra v h0 in
  made_after h0 h s /\ slices.contents h s = svcinfo.GetDDTags v.
Proof.
  unfold GetDDTags_sl, svcinfo.GetDDTags.
  assert (H0 : made_after h0 (fst (slices.empty h0)) (snd (slices.empty h0)) /\
               slices.contents (fst (slices.empty h0)) (snd (slices.empty h0)) = []).
  { unfold slices.empty, made_after, slices.wf, slices.contents.
    cbn [fst snd slices.arr slices.len slices.cap].
    rewrite length_app, app_nth2, Nat.sub_diag by lia. cbn [nth List.length firstn].
    repeat split; try lia. intros a Ha. now rewrite app_nth1. }
  destruct (slices.empty h0) as [h s]. cbn [fst snd] in H0. destruct H0 as [Hf Hc].
  destruct (svcinfo.nonempty (svcinfo.var_CommitSHA v)); [append_step|];
    (destruct (svcinfo.nonempty (svcinfo.var_BuildDate v)); [append_step|]);
    (destruct (svcinfo.nonempty (svcinfo.var_Version v)); [append_step|]);
    now split.
Qed.

(** A slice of the old heap is still there, unchanged, next to one made
    after. *)
Lemma made_after_keeps (h0 h : slices.Heap) (s d : slices.Slice) :
  made_after h0 h s -> slices.wf h0 d ->
  slices.wf h d /\ slices.contents h d = slices.contents h0 d /\
  nth (slices.arr d) h [] = nth (slices.arr d) h0 [] /\
  slices.arr s <> slices.arr d.
Proof.
  intros (Ha & Hw & Hl & Hold) (Hda & Hdl & Hdc).
  unfold slices.wf, slices.contents. rewrite (Hold _ Hda).
  repeat split; try assumption; lia.
Qed.
End SlicesApart.

(** X10.  When the slice of default tags handed to New has room for fewer
    than three more elements (as the package default and any slice literal
    have), buildTags puts the runtime tags and the info tags in arrays of
    their own; and as long as they are, a pass on slices makes exactly the
    calls of the pass on lists, whatever the growth of new arrays, and
    leaves the contents of the three slices as they were. *)
Theorem tag_slices_apart_behave_as_lists (extra : nat -> nat) :
  (forall e h d,
     slices.wf h d -> (slices.cap d < slices.len d + 3)%nat ->
     let t := New_sl extra e h d in
     apart t /\
     slices.contents (heap t) (sl_defaultTags t) = slices.contents h d /\
     slices.contents (heap t) (sl_infoTags t) = svcinfo.GetDDTags (env_svcinfo e) /\
     slices.contents (heap t) (sl_runtimeTags t) =
       slices.contents h d
         ++ [ fmt.Sprintf_s "version:" (runtime.Version (env_build e));
              fmt.Sprintf_s "arch:" (runtime.GOARCH (env_build e));
              fmt.Sprintf_s "os:" (runtime.GOOS (env_build e)) ]) /\
  (forall r t last,
     apart t ->
     match passCalls_sl extra r t last with
     | Some (calls, t') =>
         passCalls (view r t) last = Some calls /\ view r t' = view r t /\ apart t'
     | None => passCalls (view r t) last = None
     end).
Proof.
  split.
  - intros e h d Hwd Hcap. unfold New_sl, buildTags_sl.
    cbn [heap sl_defaultTags Version Arch OS].
    pose proof (GetDDTags_sl_made_after extra (env_svcinfo e) h) as Hg.
    destruct (GetDDTags_sl extra (env_svcinfo e) h) as [h1 info].
    destruct Hg as [Hf Hci].
    destruct (made_after_keeps h h1 info d Hf Hwd) as (Hwd1 & Hcd1 & _ & Hne).
    set (tags3 := [fmt.Sprintf_s "version:" (runtime.Version (env_build e));
                   fmt.Sprintf_s "arch:" (runtime.GOARCH (env_build e));
                   fmt.Sprintf_s "os:" (runtime.GOOS (env_build e))]).
    pose proof (append_contents extra h1 d tags3 Hwd1) as Hc.
    pose proof (append_wf extra h1 d tags3 Hwd1) as Hw.
    pose proof (append_keeps extra h1 d tags3 Hwd1) as Hk.
    pose proof (append_moves extra h1 d tags3) as Hm.
    destruct (slices.append extra h1 d tags3) as [h2 rt]. cbn [fst snd] in *.
    destruct Hm as [Hm _]; [cbn [tags3 List.length]; lia|].
    destruct (Hk d Hwd1) as [Hwd2 Hcd2]. specialize (Hcd2 (or_intror (Nat.le_refl _))).
    destruct (Hk info (proj1 (proj2 Hf))) as [Hwi2 Hci2]. specialize (Hci2 (or_introl Hne)).
    cbn zeta. cbn [heap sl_defaultTags sl_infoTags sl_runtimeTags].
    split; [|split; [congruence|split; congruence]].
    unfold apart. cbn [heap sl_defaultTags sl_infoTags sl_runtimeTags].
    split; [exact Hwd2|]. split; [exact Hwi2|]. split; [exact Hw|].
    split; [exact Hne|]. destruct Hwd1 as (Ha & _). lia.
  - intros r t last Hap. unfold passCalls_sl, passCalls, exportMemStats.
    destruct (pauseLoop (view r t) (pauseFuel (view r t) last) last) as [pauses|];
      [|reflexivity].
    destruct t as [h d info rt].
    pose proof (bySizeLoop_sl_apart extra (view r (mkTagSlices h d info rt)) d info rt
                  (runtime.BySize (Stats_Mem (stats r))) h Hap eq_refl) as Hloop.
    cbn [heap sl_defaultTags sl_infoTags sl_runtimeTags].
    destruct (bySizeLoop_sl extra h d (runtime.BySize (Stats_Mem (stats r))))
      as [sizes h'].
    destruct Hloop as (Hs & Hap' & Hd & Hi & Hr).
    assert (Hv : view r (mkTagSlices h' d info rt) = view r (mkTagSlices h d info rt)).
    { unfold view. cbn [heap sl_defaultTags sl_infoTags sl_runtimeTags].
      now rewrite Hd, Hi, Hr. }
    split; [|split; [exact Hv|exact Hap']].
    rewrite Hv, Hs. reflexivity.
Qed.

Lemma write_after (D l : list string) (x y : string) :
  slices.write (D ++ x :: l) (List.length D) [y] = D ++ y :: l.
Proof.
  unfold slices.write. induction D as [|z D IH]; [reflexivity|].
  cbn [List.length app firstn Nat.add skipn]. f_equal. exact IH.
Qed.

Lemma write_three_after (D a : list string) (n : nat) (x y z : string) :
  firstn n a = D -> (n + 3 <= List.length a)%nat ->
  slices.write a n [x; y; z] = D ++ [x; y; z] ++ skipn (n + 3) a.
Proof. intros <- _. reflexivity. Qed.

Lemma firstn_three_after (D rest : list string) (x y z : string) :
  firstn (List.length D + 3) (D ++ [x; y; z] ++ rest) = D ++ [x; y; z].
Proof.
  rewrite app_assoc, firstn_app.
  replace (List.length D + 3 - List.length (D ++ [x; y; z]))%nat with 0%nat
    by (rewrite length_app; cbn; lia).
  cbn [firstn]. rewrite app_nil_r. apply firstn_all2. rewrite length_app. cbn. lia.
Qed.

Section SlicesShared.
Variable extra : nat -> nat.

(** The loop over BySize when r.defaultTags has room for one more element:
    every round writes its size label into the array of r.defaultTags,
    right after the default tags. *)
Lemma bySizeLoop_sl_in_place (d : slices.Slice) (D rest : list string) (a o : string)
      (classes : list SizeClass.t) :
  List.length D = slices.len d -> (slices.len d + 3 <= slices.cap d)%nat ->
  forall h x,
    slices.wf h d ->
    nth (slices.arr d) h [] = D ++ [x; a; o] ++ rest ->
    slices.wf (snd (bySizeLoop_sl extra h d classes)) d /\
    nth (slices.arr d) (snd (bySizeLoop_sl extra h d classes)) [] =
      D ++ [ fold_left (fun _ b => fmt.Sprintf_d "size:" (SizeClass.Size b)) classes x;
             a; o ] ++ rest.
Proof.
  intros HD Hcap. induction classes as [|b classes IH]; intros h x Hw Ha.
  - cbn [bySizeLoop_sl snd fold_left]. now split.
  - cbn [bySizeLoop_sl fold_left].
    set (tag := fmt.Sprintf_d "size:" (SizeClass.Size b)).
    pose proof (append_stays extra h d [tag]) as Hs.
    pose proof (append_keeps extra h d [tag] Hw d Hw) as [Hw1 _].
    destruct (slices.append extra h d [tag]) as [h1 tags]. cbn [fst snd] in *.
    destruct Hs as [_ Hh1]; [cbn [List.length]; lia|].
    assert (Ha1 : nth (slices.arr d) h1 [] = D ++ [tag; a; o] ++ rest).
    { rewrite Hh1, nth_set_at_same by apply Hw.
      rewrite Ha, <- HD. apply write_after. }
    specialize (IH h1 tag Hw1 Ha1).
    destruct (bySizeLoop_sl extra h1 d classes) as [more h2]. exact IH.
Qed.

(** What a pass on slices leaves, and the go.runtime gauge it sends. *)
Lemma passCalls_sl_inv (r : Reporter) (t t' : TagSlices) (last : Z) (calls : list call) :
  passCalls_sl extra r t last = Some (calls, t') ->
  t' = mkTagSlices
         (snd (bySizeLoop_sl extra (heap t) (sl_defaultTags t)
                 (runtime.BySize (Stats_Mem (stats r)))))
         (sl_defaultTags t) (sl_infoTags t) (sl_runtimeTags t) /\
  In (Gauge "go.runtime" f1_0 (slices.contents (heap t') (sl_runtimeTags t')) f1_0) calls.
Proof.
  unfold passCalls_sl.
  destruct (pauseLoop _ _ last) as [pauses|]; [|discriminate].
  destruct (bySizeLoop_sl extra (heap t) (sl_defaultTags t)
              (runtime.BySize (Stats_Mem (stats r)))) as [sizes h'].
  cbn [snd]. intros H.
  set (t1 := mkTagSlices h' (sl_defaultTags t) (sl_infoTags t) (sl_runtimeTags t)) in *.
  assert (Ht : t' = t1) by congruence.
  assert (Hc : calls = (memGauges (view r t) ++ pauses ++ gcGauges (view r t) ++ sizes)
                         ++ exportRuntimeStats (view r t1) ++ exportRuntimeInfo (view r t1)
                         ++ exportServiceInfo (view r t1)) by congruence.
  clear H. subst t' calls. split; [reflexivity|].
  apply in_or_app. right. apply in_or_app. right. apply in_or_app. left.
  now left.
Qed.

(** X11.  When the slice of default tags handed to New has room for three
    more elements, buildTags builds the runtime tags inside its array, and
    the size-class loop of every pass then writes its size labels over the
    first of them: from the first pass on, the go.runtime gauge carries
    the size label of the last size class where the version of the
    toolchain was, next to arch and os. *)
Theorem spare_capacity_overwrites_the_version_tag
        (e : Env) (h : slices.Heap) (d : slices.Slice) (r : Reporter) (last : Z)
        (front : list SizeClass.t) (b : SizeClass.t)
        (calls : list call) (t' : TagSlices) :
  slices.wf h d -> (slices.len d + 3 <= slices.cap d)%nat ->
  runtime.BySize (Stats_Mem (stats r)) = front ++ [b] ->
  passCalls_sl extra r (New_sl extra e h d) last = Some (calls, t') ->
  let t := New_sl extra e h d in
  let arch := fmt.Sprintf_s "arch:" (runtime.GOARCH (env_build e)) in
  let os := fmt.Sprintf_s "os:" (runtime.GOOS (env_build e)) in
  slices.contents (heap t) (sl_runtimeTags t) =
    slices.contents h d
      ++ [ fmt.Sprintf_s "version:" (runtime.Version (env_build e)); arch; os ] /\
  slices.contents (heap t') (sl_runtimeTags t') =
    slices.contents h d ++ [ fmt.Sprintf_d "size:" (SizeClass.Size b); arch; os ] /\
  In (Gauge "go.runtime" f1_0
            (slices.contents h d ++ [ fmt.Sprintf_d "size:" (SizeClass.Size b); arch; os ])
            f1_0) calls.
Proof.
  intros Hwd Hcap Hclasses Hpass t arch os.
  (* the slices New leaves *)
  unfold t, New_sl, buildTags_sl in *. cbn [heap sl_defaultTags Version Arch OS] in *.
  pose proof (GetDDTags_sl_made_after extra (env_svcinfo e) h) as Hg.
  destruct (GetDDTags_sl extra (env_svcinfo e) h) as [h1 info].
  destruct Hg as [Hf _].
  destruct (made_after_keeps h h1 info d Hf Hwd) as (Hwd1 & Hcd1 & Harr1 & _).
  set (ver := fmt.Sprintf_s "version:" (runtime.Version (env_build e))) in *.
  fold arch os in Hpass |- *.
  pose proof (append_stays extra h1 d [ver; arch; os]) as Hs.
  pose proof (append_len extra h1 d [ver; arch; os]) as Hl.
  pose proof (append_contents extra h1 d [ver; arch; os] Hwd1) as Hc.
  pose proof (append_keeps extra h1 d [ver; arch; os] Hwd1 d Hwd1) as [Hwd2 _].
  destruct (slices.append extra h1 d [ver; arch; os]) as [h2 rt]. cbn [fst snd] in *.
  destruct Hs as [Hrt Hh2]; [cbn [List.length]; lia|].
  cbn [heap sl_runtimeTags]. split; [now rewrite Hc, Hcd1|].
  (* the array of the default tags after buildTags *)
  set (D := slices.contents h d) in *.
  assert (HD : List.length D = slices.len d).
  { unfold D, slices.contents. rewrite length_firstn.
    destruct Hwd as (_ & Hlen & Hle). lia. }
  assert (Ha2 : nth (slices.arr d) h2 [] =
                D ++ [ver; arch; os] ++ skipn (slices.len d + 3) (nth (slices.arr d) h1 [])).
  { rewrite Hh2, nth_set_at_same by apply Hwd1.
    apply write_three_after; [rewrite Harr1; reflexivity|].
    destruct Hwd1 as (_ & Hlen & _). lia. }
  (* the pass *)
  apply passCalls_sl_inv in Hpass as [-> Hin].
  cbn [heap sl_defaultTags sl_infoTags sl_runtimeTags] in *.
  pose proof (bySizeLoop_sl_in_place d D _ arch os
                (runtime.BySize (Stats_Mem (stats r))) HD Hcap h2 ver Hwd2 Ha2)
    as [_ Hloop].
  set (h3 := snd (bySizeLoop_sl extra h2 d (runtime.BySize (Stats_Mem (stats r))))) in *.
  assert (Hrt3 : slices.contents h3 rt =
                 D ++ [fmt.Sprintf_d "size:" (SizeClass.Size b); arch; os]).
  { unfold slices.contents. rewrite Hrt, Hl, Hloop, Hclasses, fold_left_app.
    cbn [fold_left List.length]. rewrite <- HD. apply firstn_three_after. }
  split; [exact Hrt3|]. rewrite <- Hrt3. exact Hin.
Qed.
End SlicesShared.

Lemma tag_slices_apart_behave_as_lists_witness :
  apart (tag_slices_ex doubling 2) /\
  view reporter_tagged_ex (tag_slices_ex doubling 2) = reporter_tagged_ex /\
  exists calls t',
    passCalls_sl doubling reporter_tagged_ex (tag_slices_ex doubling 2) 3 = Some (calls, t') /\
    passCalls reporter_tagged_ex 3 = Some calls /\
    In (Gauge "go.runtime" f1_0
              ["env:prod"; "version:go1.12"; "arch:amd64"; "os:linux"] f1_0) calls.
Proof.
  assert (Hwf : slices.wf (fst (slices.make ["env:prod"] 2)) (snd (slices.make ["env:prod"] 2)))
    by (cbv; repeat split; lia).
  assert (Hcap : (slices.cap (snd (slices.make ["env:prod"] 2))
                  < slices.len (snd (slices.make ["env:prod"] 2)) + 3)%nat) by (cbv; lia).
  destruct (proj1 (tag_slices_apart_behave_as_lists doubling) env_ex _ _ Hwf Hcap)
    as (Hap & _).
  split; [exact Hap|]. split; [reflexivity|].
  pose proof (proj2 (tag_slices_apart_behave_as_lists doubling)
                reporter_tagged_ex (tag_slices_ex doubling 2) 3 Hap) as Hpass.
  destruct (passCalls_sl doubling reporter_tagged_ex (tag_slices_ex doubling 2) 3)
    as [[calls t']|] eqn:E; [|vm_compute in E; discriminate E].
  destruct Hpass as (Hc & _ & _).
  exists calls, t'. split; [reflexivity|]. split; [exact Hc|].
  vm_compute in E. injection E as <- _.
  repeat (first [left; reflexivity | right]).
Defined.

Lemma spare_capacity_overwrites_the_version_tag_witness :
  exists calls t',
    passCalls_sl tight reporter_tagged_ex (tag_slices_ex tight 4) 3 = Some (calls, t') /\
    slices.contents (heap (tag_slices_ex tight 4)) (sl_runtimeTags (tag_slices_ex tight 4)) =
      ["env:prod"; "version:go1.12"; "arch:amd64"; "os:linux"] /\
    In (Gauge "go.runtime" f1_0 ["env:prod"; "size:32"; "arch:amd64"; "os:linux"] f1_0)
       calls.
Proof.
  destruct (passCalls_sl tight reporter_tagged_ex (tag_slices_ex tight 4) 3)
    as [[calls t']|] eqn:E; [|vm_compute in E; discriminate E].
  assert (Hwf : slices.wf (fst (slices.make ["env:prod"] 4)) (snd (slices.make ["env:prod"] 4)))
    by (cbv; repeat split; lia).
  assert (Hcap : (slices.len (snd (slices.make ["env:prod"] 4)) + 3
                  <= slices.cap (snd (slices.make ["env:prod"] 4)))%nat) by (cbv; lia).
  destruct (spare_capacity_overwrites_the_version_tag tight env_ex _ _ reporter_tagged_ex 3
              [SizeClass.mk 16 100 40] (SizeClass.mk 32 5 5) calls t' Hwf Hcap eq_refl E)
    as (Hbefore & _ & Hin).
  exists calls, t'. split; [reflexivity|]. split; [exact Hbefore|exact Hin].
Defined.

(** ** The older buildTags *)

Section OlderBuildTagsFacts.
Variable extra : nat -> nat.

Lemma info_so_far_append (d : slices.Slice) (D : list string)
      (h : slices.Heap) (s : slices.Slice) (tags : list string) (x : string) :
  info_so_far d D h s tags ->
  info_so_far d D (fst (slices.append extra h s [x])) (snd (slices.append extra h s [x]))
              (tags ++ [x]).
Proof.
  intros (Hws & Hwd & Hcs & Hcd & Hle & Hin).
  pose proof (append_keeps extra h s [x] Hws d Hwd) as [Hwd1 Hcd1].
  pose proof (append_len extra h s [x]) as Hlen. cbn [List.length] in Hlen.
  split; [now apply append_wf|]. split; [exact Hwd1|].
  split; [now rewrite append_contents, Hcs, app_assoc|].
  split; [rewrite Hcd1; [exact Hcd|right; exact Hle]|].
  split; [lia|].
  intros Hroom Hk. rewrite length_app in Hk |- *. cbn [List.length] in Hk |- *.
  destruct (Hin Hroom ltac:(lia)) as [Ha Hl].
  assert (Hcap : slices.cap s = slices.cap d).
  { destruct Hws as (_ & Hls & _). destruct Hwd as (_ & Hld & _).
    rewrite <- Hls, <- Hld, Ha. reflexivity. }
  destruct (append_stays extra h s [x]) as [Ha1 _]; [cbn [List.length]; lia|].
  split; [congruence|lia].
Qed.

Lemma info_so_far_start (h : slices.Heap) (d : slices.Slice) :
  slices.wf h d -> info_so_far d (slices.contents h d) h d [].
Proof.
  intros Hw. unfold info_so_far. rewrite app_nil_r.
  repeat split; try apply Hw; try reflexivity. cbn [List.length]. lia.
Qed.

Ltac info_step :=
  match goal with
  | Hi : info_so_far ?d ?D ?h ?s ?tags |- context [slices.append _ ?h ?s [?x]] =>
      let Hi' := fresh "Hi" in
      pose proof (info_so_far_append d D h s tags x Hi) as Hi';
      destruct (slices.append extra h s [x]);
      cbn [fst snd] in Hi'; clear Hi
  end.

(** The append of the runtime tags to r.defaultTags, after the info tags. *)
Lemma older_runtime_append (d : slices.Slice) (D : list string)
      (h1 : slices.Heap) (info : slices.Slice) (tags toolchain : list string)
      (h2 : slices.Heap) (rt : slices.Slice) :
  info_so_far d D h1 info tags ->
  List.length toolchain = 3%nat -> (List.length tags <= 3)%nat ->
  slices.append extra h1 d toolchain = (h2, rt) ->
  slices.contents h2 d = D /\
  slices.contents h2 rt = D ++ toolchain /\
  ((slices.cap d < slices.len d + 3)%nat -> slices.contents h2 info = D ++ tags) /\
  ((slices.len d + 3 <= slices.cap d)%nat ->
   slices.contents h2 info = D ++ firstn (List.length tags) toolchain).
Proof.
  intros (Hws & Hwd & Hcs & Hcd & Hle & Hin) H3 Hk E.
  pose proof (append_contents extra h1 d toolchain Hwd) as Hc.
  pose proof (append_keeps extra h1 d toolchain Hwd) as Hkeep.
  pose proof (append_moves extra h1 d toolchain) as Hm.
  pose proof (append_stays extra h1 d toolchain) as Hs.
  rewrite E in Hc, Hkeep, Hm, Hs. cbn [fst snd] in *.
  destruct (Hkeep d Hwd) as [_ Hcd2]. specialize (Hcd2 (or_intror (Nat.le_refl _))).
  destruct (Hkeep info Hws) as [_ Hci2].
  split; [congruence|]. split; [congruence|]. split.
  - intros Hshort. destruct Hm as [_ Hm]; [lia|].
    rewrite <- Hcs. unfold slices.contents. rewrite Hm, app_nth1; [reflexivity|].
    apply Hws.
  - intros Hroom. destruct (Hin Hroom Hk) as [Ha Hl].
    destruct Hs as [_ Hh2]; [lia|].
    unfold slices.contents. rewrite Ha, Hl, Hh2, nth_set_at_same by apply Hwd.
    unfold slices.write.
    change (firstn (slices.len d) (nth (slices.arr d) h1 [])) with (slices.contents h1 d).
    rewrite Hcd.
    assert (HD : slices.len d = List.length D).
    { rewrite <- Hcd. unfold slices.contents. rewrite length_firstn.
      destruct Hwd as (_ & Hdl & Hdc). lia. }
    rewrite HD, firstn_app_2, firstn_app.
    replace (List.length tags - List.length toolchain)%nat with 0%nat by lia.
    cbn [firstn]. now rewrite app_nil_r.
Qed.

(** X12.  buildTags of the older Reporter, which starts the info tags and
    the runtime tags both from r.defaultTags.  With room for fewer than
    three more elements in that slice, the info tags are the default tags
    followed by the commit, build_date and version tags that are set.  With
    room for three, the runtime tags are written over them in the same
    array: the info tags then are the default tags followed by as many of
    the toolchain tags version, arch, os as there are variables set, and no
    tag of the service is left. *)
Theorem older_buildTags_info_tags
        (v : svcinfo.Vars) (g : GoInfo) (h : slices.Heap) (d : slices.Slice) :
  slices.wf h d ->
  let t := buildTags_v1_sl extra v g (mkTagSlices h d d d) in
  let toolchain := [ fmt.Sprintf_s "version:" (Version g);
                     fmt.Sprintf_s "arch:" (Arch g);
                     fmt.Sprintf_s "os:" (OS g) ] in
  slices.contents (heap t) (sl_defaultTags t) = slices.contents h d /\
  slices.contents (heap t) (sl_runtimeTags t) = slices.contents h d ++ toolchain /\
  ((slices.cap d < slices.len d + 3)%nat ->
   slices.contents (heap t) (sl_infoTags t) = slices.contents h d ++ svcinfo.GetDDTags v) /\
  ((slices.len d + 3 <= slices.cap d)%nat ->
   slices.contents (heap t) (sl_infoTags t) =
     slices.contents h d ++ firstn (vars_set v) toolchain).
Proof.
  intros Hw t toolchain. unfold t, buildTags_v1_sl.
  cbn [heap sl_defaultTags].
  pose proof (info_so_far_start h d Hw) as Hi.
  set (D := slices.contents h d) in *.
  unfold svcinfo.GetDDTags, vars_set.
  destruct (svcinfo.nonempty (svcinfo.var_CommitSHA v)); [info_step|];
    (destruct (svcinfo.nonempty (svcinfo.var_BuildDate v)); [info_step|]);
    (destruct (svcinfo.nonempty (svcinfo.var_Version v)); [info_step|]);
    fold toolchain;
    match goal with
    | Hi : info_so_far d D ?h1 ?info ?tags |- _ =>
        let hr := fresh "hr" in
        let rt := fresh "rt" in
        let E := fresh "E" in
        destruct (slices.append extra h1 d toolchain) as [hr rt] eqn:E;
        cbn [heap sl_defaultTags sl_infoTags sl_runtimeTags];
        exact (older_runtime_append d D h1 info tags toolchain hr rt Hi eq_refl
                 ltac:(cbn [List.length app]; lia) E)
    end.
Qed.
End OlderBuildTagsFacts.

Lemma older_buildTags_info_tags_witness :
  let t := buildTags_v1_sl tight (env_svcinfo env_ex) (mkGoInfo "amd64" "linux" "go1.12")
             (mkTagSlices (fst (slices.make ["env:prod"] 4)) (snd (slices.make ["env:prod"] 4))
                          (snd (slices.make ["env:prod"] 4)) (snd (slices.make ["env:prod"] 4))) in
  slices.contents (heap t) (sl_infoTags t) =
    ["env:prod"; "version:go1.12"; "arch:amd64"; "os:linux"].
Proof.
  assert (Hwf : slices.wf (fst (slices.make ["env:prod"] 4)) (snd (slices.make ["env:prod"] 4)))
    by (cbv; repeat split; lia).
  destruct (older_buildTags_info_tags tight (env_svcinfo env_ex)
              (mkGoInfo "amd64" "linux" "go1.12") _ _ Hwf) as (_ & _ & _ & Hroom).
  cbn zeta. rewrite Hroom; [reflexivity|cbv; lia].
Defined.

(** ** healthz *)

Section Registration.
Variable rules : healthz.Rules.

Lemma register_inv (l : list string) :
  forall mux mux', healthz.register rules mux l = Some mux' -> mux' = mux ++ l.
Proof.
  induction l as [|p l IH]; intros mux mux'; cbn [healthz.register].
  - intros [= <-]. now rewrite app_nil_r.
  - unfold healthz.HandleFunc.
    destruct (healthz.malformed rules p); [discriminate|].
    destruct (existsb (healthz.conflicts rules p) mux); [discriminate|].
    intros H. apply IH in H. now rewrite H, <- app_assoc.
Qed.

(** One pattern of the list in conflict with one that is registered, and
    the registration panics, at that pattern or before. *)
Lemma register_panics (l : list string) :
  forall mux p q,
    In p l -> In q mux -> healthz.conflicts rules p q = true ->
    healthz.register rules mux l = None.
Proof.
  induction l as [|p0 l IH]; intros mux p q Hl Hm Hc; [destruct Hl|].
  cbn [healthz.register]. unfold healthz.HandleFunc.
  destruct (healthz.malformed rules p0); [reflexivity|].
  destruct (existsb (healthz.conflicts rules p0) mux) eqn:Eq; [reflexivity|].
  destruct Hl as [->|Hl].
  - assert (Ht : existsb (healthz.conflicts rules p) mux = true)
      by (apply existsb_exists; now exists q).
    congruence.
  - apply (IH _ p q Hl); [|exact Hc]. apply in_or_app. now left.
Qed.

Lemma register_ok (l : list string) :
  forall mux,
    NoDup l ->
    (forall p, In p l -> healthz.malformed rules p = false) ->
    (forall p q, In p l -> In q mux -> healthz.conflicts rules p q = false) ->
    (forall p q, In p l -> In q l -> p <> q -> healthz.conflicts rules p q = false) ->
    healthz.register rules mux l = Some (mux ++ l).
Proof.
  induction l as [|p0 l IH]; intros mux Hnd Hv Hm Hl; cbn [healthz.register].
  - now rewrite app_nil_r.
  - unfold healthz.HandleFunc. rewrite (Hv p0) by now left.
    destruct (existsb (healthz.conflicts rules p0) mux) eqn:Eq.
    + apply existsb_exists in Eq as (q & Hq & Hc).
      rewrite (Hm p0 q) in Hc; [discriminate|now left|exact Hq].
    + apply NoDup_cons_iff in Hnd as [Hp0 Hnd].
      rewrite IH; [now rewrite <- app_assoc|exact Hnd| | |].
      * intros p Hp. apply Hv. now right.
      * intros p q Hp Hq. apply in_app_or in Hq as [Hq|[<-|[]]].
        -- apply Hm; [now right|exact Hq].
        -- apply Hl; [now right|now left|]. intros ->. contradiction.
      * intros p q Hp Hq. apply Hl; now right.
Qed.
End Registration.

Lemma patterns_distinct : NoDup healthz.patterns.
Proof.
  unfold healthz.patterns.
  repeat (apply NoDup_cons; [cbn; intuition discriminate|]). constructor.
Qed.

(** Up to Go 1.21 the eleven patterns are well formed and no two of them
    conflict. *)
Lemma patterns_go1_21 :
  healthz.lawful healthz.go1_21 /\
  (forall p, In p healthz.patterns -> healthz.malformed healthz.go1_21 p = false) /\
  (forall p q, In p healthz.patterns -> In q healthz.patterns -> p <> q ->
     healthz.conflicts healthz.go1_21 p q = false).
Proof.
  split; [|split].
  - split; [reflexivity|]. intros p. apply String.eqb_refl.
  - intros p Hp. cbn in Hp.
    repeat (destruct Hp as [<-|Hp]; [reflexivity|]). destruct Hp.
  - intros p q _ _ Hne. cbn [healthz.conflicts healthz.go1_21].
    now apply String.eqb_neq.
Qed.

(** X13.  healthz.New refuses a nil mux with an error.  Under the rules of
    any version of the ServeMux: on a mux none of whose patterns conflicts
    with one of the eleven patterns of New (these being well formed and
    without conflict among themselves, as they are in every version), New
    registers the eleven, in order, after the patterns the mux had, and
    answers the Healthz with the options applied; on a mux that has a
    pattern in conflict with one of the eleven it panics; and since a
    pattern conflicts with itself, no second Healthz can be made on the
    mux of a first one. *)
Theorem healthz_New_registers_its_patterns_once (rules : healthz.Rules) :
  healthz.lawful rules ->
  (forall opts,
     healthz.New rules None opts = healthz.NewErr "you must provide a http.ServeMux") /\
  (forall mux opts,
     (forall p, In p healthz.patterns -> healthz.malformed rules p = false) ->
     (forall p q, In p healthz.patterns -> In q healthz.patterns -> p <> q ->
        healthz.conflicts rules p q = false) ->
     (forall p q, In p healthz.patterns -> In q mux ->
        healthz.conflicts rules p q = false) ->
     healthz.New rules (Some mux) opts =
       healthz.NewOk
         (fold_left (fun h o => o h) opts
            (healthz.mkHealthz healthz.unhealthy healthz.unhealthy healthz.unhealthy
                               false (float64_of 0) false))
         (mux ++ healthz.patterns)) /\
  (forall mux opts p q,
     In p healthz.patterns -> In q mux -> healthz.conflicts rules p q = true ->
     healthz.New rules (Some mux) opts = healthz.NewPanic) /\
  (forall mux opts h mux' opts',
     healthz.New rules (Some mux) opts = healthz.NewOk h mux' ->
     healthz.New rules (Some mux') opts' = healthz.NewPanic).
Proof.
  intros [_ Hrefl].
  split; [reflexivity|]. split; [|split].
  - intros mux opts Hv Hl Hm. unfold healthz.New.
    now rewrite (register_ok rules _ mux patterns_distinct Hv Hm Hl).
  - intros mux opts p q Hp Hq Hc. unfold healthz.New.
    now rewrite (register_panics rules _ mux p q Hp Hq Hc).
  - intros mux opts h mux' opts'. unfold healthz.New.
    destruct (healthz.register rules mux healthz.patterns) as [m|] eqn:E; [|discriminate].
    intros [= _ <-]. apply register_inv in E. subst m.
    rewrite (register_panics rules _ _ "/healthz/" "/healthz/");
      [reflexivity|now left| |apply Hrefl].
    apply in_or_app. right. now left.
Qed.

Lemma healthz_New_registers_its_patterns_once_witness :
  exists h mux',
    healthz.New healthz.go1_21 (Some ["/"; "/metrics"]) [healthz.SetAlive] =
      healthz.NewOk h mux' /\
    healthz.alive h = healthz.healthy /\ healthz.ready h = healthz.unhealthy /\
    mux' = ["/"; "/metrics"] ++ healthz.patterns /\
    healthz.New healthz.go1_21 (Some mux') [] = healthz.NewPanic /\
    healthz.New healthz.go1_21 (Some ["/healthz/stats"]) [] = healthz.NewPanic.
Proof.
  destruct patterns_go1_21 as (Hlaw & Hv & Hl).
  destruct (healthz_New_registers_its_patterns_once healthz.go1_21 Hlaw)
    as (_ & Hok & Hpanic & Htwice).
  assert (Hfree : forall p q, In p healthz.patterns -> In q ["/"; "/metrics"] ->
                    healthz.conflicts healthz.go1_21 p q = false).
  { intros p q Hp [<-|[<-|[]]]; cbn in Hp;
      repeat (destruct Hp as [<-|Hp]; [reflexivity|]); destruct Hp. }
  specialize (Hok ["/"; "/metrics"] [healthz.SetAlive] Hv Hl Hfree).
  do 2 eexists. split; [exact Hok|].
  split; [reflexivity|]. split; [reflexivity|]. split; [reflexivity|].
  split; [exact (Htwice _ _ _ _ [] Hok)|].
  apply (Hpanic ["/healthz/stats"] [] "/healthz/stats" "/healthz/stats");
    [cbn; tauto|now left|reflexivity].
Defined.

Lemma settled_opts (opts : list healthz.Opt) :
  forall h, settled h -> settled (fold_left (fun h o => o h) (map healthz.opt opts) h).
Proof.
  induction opts as [|o opts IH]; intros h Hh; [exact Hh|].
  cbn [map fold_left]. apply IH.
  destruct Hh as (Hs & Ha & Hr).
  destruct o; unfold settled; cbn; auto.
Qed.

Lemma settled_after (ops : list healthz.Op) :
  forall h, settled h -> settled (after h ops).
Proof.
  unfold after.
  induction ops as [|o ops IH]; intros h Hh; [exact Hh|].
  cbn [fold_left]. apply IH.
  destruct Hh as (Hs & Ha & Hr).
  destruct o; unfold settled; cbn; auto.
Qed.

Lemma settled_New (rules : healthz.Rules) (mux : healthz.ServeMux)
      (opts : list healthz.Opt) h mux' :
  healthz.New rules (Some mux) (map healthz.opt opts) = healthz.NewOk h mux' -> settled h.
Proof.
  unfold healthz.New.
  destruct (healthz.register rules mux healthz.patterns); [|discriminate].
  intros [= <- _]. apply settled_opts. unfold settled; cbn; auto.
Qed.

(** X14.  Nothing in the package ever sets Status: on a Healthz made by
    New, with any of the three options and after any calls of Ready,
    NotReady, Alive, NotAlive and any requests, the stats endpoint answers
    200 with the status 503 unhealthy in its body, also while the ready
    and the alive endpoints answer 200 healthy. *)
Theorem stats_endpoint_always_reports_unhealthy
  (rules : healthz.Rules)
  (mux mux' : healthz.ServeMux) (opts : list healthz.Opt) (h : healthz.Healthz)
  (ops : list healthz.Op) (r : Reporter) (elapsed : time.Duration) :
  healthz.New rules (Some mux) (map healthz.opt opts) = healthz.NewOk h mux' ->
  healthz.Status (after h ops) = healthz.unhealthy /\
  exists info metrics,
    healthz.statsHandler (after h ops) r elapsed =
      healthz.Responds 200 (healthz.Json info) metrics /\
    healthz.info_Status info = healthz.mkStatusInfo 503 "unhealthy".
Proof.
  intros Hnew.
  destruct (settled_after ops h (settled_New _ _ _ _ _ Hnew)) as (Hs & _ & _).
  split; [exact Hs|].
  unfold healthz.statsHandler. rewrite Hs. cbn [healthz.status_at].
  change (healthz.status_at healthz.unhealthy)
    with (Some (healthz.mkStatusInfo 503 "unhealthy")).
  cbv beta iota zeta.
  do 2 eexists. split; [reflexivity|].
  now destruct (healthz.reporter (after h ops)).
Qed.

Lemma stats_endpoint_always_reports_unhealthy_witness :
  exists h mux',
    healthz.New healthz.go1_21 (Some []) (map healthz.opt [healthz.OptAlive]) =
      healthz.NewOk h mux' /\
    healthz.readyHandler (after h [healthz.OpReady]) 5 =
      healthz.Responds 200 (healthz.Text "healthy") [] /\
    healthz.livelinessHandler (after h [healthz.OpReady]) 5 =
      healthz.Responds 200 (healthz.Text "healthy") [] /\
    exists info metrics,
      healthz.statsHandler (after h [healthz.OpReady]) reporter_tagged_ex 5 =
        healthz.Responds 200 (healthz.Json info) metrics /\
      healthz.info_Status info = healthz.mkStatusInfo 503 "unhealthy".
Proof.
  assert (Hnew : healthz.New healthz.go1_21 (Some []) (map healthz.opt [healthz.OptAlive]) =
                 healthz.NewOk (healthz.mkHealthz 0 1 1 false (float64_of 0) false)
                               healthz.patterns) by reflexivity.
  do 2 eexists. split; [exact Hnew|].
  split; [reflexivity|]. split; [reflexivity|].
  exact (proj2 (stats_endpoint_always_reports_unhealthy healthz.go1_21
                  [] _ [healthz.OptAlive] _ [healthz.OpReady] reporter_tagged_ex 5 Hnew)).
Defined.

Lemma after_app (h : healthz.Healthz) (l1 l2 : list healthz.Op) :
  after h (l1 ++ l2) = after (after h l1) l2.
Proof. unfold after. apply fold_left_app. Qed.

Lemma ready_kept (quiet : list healthz.Op) :
  Forall keeps_ready quiet ->
  forall h, healthz.ready (after h quiet) = healthz.ready h.
Proof.
  unfold after.
  induction 1 as [|o quiet (H1 & H2 & H3) _ IH]; intros h; [reflexivity|].
  cbn [fold_left]. rewrite IH. destruct o; try reflexivity; congruence.
Qed.

Lemma alive_kept (quiet : list healthz.Op) :
  Forall keeps_alive quiet ->
  forall h, healthz.alive (after h quiet) = healthz.alive h.
Proof.
  unfold after.
  induction 1 as [|o quiet (H1 & H2 & H3) _ IH]; intros h; [reflexivity|].
  cbn [fold_left]. rewrite IH. destruct o; try reflexivity; congruence.
Qed.

Lemma readyHandler_by_state (h : healthz.Healthz) (elapsed : time.Duration) :
  (healthz.ready h = healthz.healthy ->
   exists m, healthz.readyHandler h elapsed =
             healthz.Responds 200 (healthz.Text "healthy") m) /\
  (healthz.ready h = healthz.unhealthy ->
   exists m, healthz.readyHandler h elapsed =
             healthz.Responds 503 (healthz.Text "unhealthy") m).
Proof.
  unfold healthz.readyHandler.
  split; intros ->; eexists; reflexivity.
Qed.

Lemma livelinessHandler_by_state (h : healthz.Healthz) (elapsed : time.Duration) :
  (healthz.alive h = healthz.healthy ->
   exists m, healthz.livelinessHandler h elapsed =
             healthz.Responds 200 (healthz.Text "healthy") m) /\
  (healthz.alive h = healthz.unhealthy ->
   exists m, healthz.livelinessHandler h elapsed =
             healthz.Responds 503 (healthz.Text "unhealthy") m).
Proof.
  unfold healthz.livelinessHandler.
  split; intros ->; eexists; reflexivity.
Qed.

(** X15.  An endpoint answers by the last call that set it, whatever came
    before and whatever the Healthz was: after Ready, and any calls and
    requests other than Ready, NotReady and abortabortabort, the ready
    endpoint answers 200 healthy; after NotReady or a request of
    abortabortabort, and any such calls, it answers 503 unhealthy.  The
    alive endpoint does the same with Alive, NotAlive and abortabortabort;
    so one request of abortabortabort turns both endpoints to 503. *)
Theorem endpoints_answer_by_the_last_call
  (h : healthz.Healthz) (before quiet : list healthz.Op) (elapsed : time.Duration) :
  (Forall keeps_ready quiet ->
   (exists m, healthz.readyHandler (after h (before ++ healthz.OpReady :: quiet)) elapsed =
              healthz.Responds 200 (healthz.Text "healthy") m) /\
   (forall o, o = healthz.OpNotReady \/ o = healthz.ReqAbort ->
      exists m, healthz.readyHandler (after h (before ++ o :: quiet)) elapsed =
                healthz.Responds 503 (healthz.Text "unhealthy") m)) /\
  (Forall keeps_alive quiet ->
   (exists m, healthz.livelinessHandler (after h (before ++ healthz.OpAlive :: quiet)) elapsed =
              healthz.Responds 200 (healthz.Text "healthy") m) /\
   (forall o, o = healthz.OpNotAlive \/ o = healthz.ReqAbort ->
      exists m, healthz.livelinessHandler (after h (before ++ o :: quiet)) elapsed =
                healthz.Responds 503 (healthz.Text "unhealthy") m)).
Proof.
  split; intros Hq.
  - split; [|intros o Ho].
    + apply readyHandler_by_state.
      rewrite after_app. change (after ?x (?o :: ?l)) with (after (healthz.apply x o) l).
      now rewrite (ready_kept _ Hq).
    + apply readyHandler_by_state.
      rewrite after_app. change (after ?x (?a :: ?l)) with (after (healthz.apply x a) l).
      rewrite (ready_kept _ Hq). now destruct Ho as [-> | ->].
  - split; [|intros o Ho].
    + apply livelinessHandler_by_state.
      rewrite after_app. change (after ?x (?o :: ?l)) with (after (healthz.apply x o) l).
      now rewrite (alive_kept _ Hq).
    + apply livelinessHandler_by_state.
      rewrite after_app. change (after ?x (?a :: ?l)) with (after (healthz.apply x a) l).
      rewrite (alive_kept _ Hq). now destruct Ho as [-> | ->].
Qed.

Lemma endpoints_answer_by_the_last_call_witness :
  let h := healthz.mkHealthz 0 0 1 false (float64_of 0) false in
  let quiet := [healthz.ReqReady 3; healthz.ReqStats reporter_tagged_ex 4; healthz.ReqAlive 2] in
  Forall keeps_ready quiet /\ Forall keeps_alive quiet /\
  (exists m, healthz.readyHandler (after h ([healthz.OpNotReady] ++ healthz.OpReady :: quiet)) 7 =
             healthz.Responds 200 (healthz.Text "healthy") m) /\
  (exists m, healthz.readyHandler (after h ([healthz.OpReady] ++ healthz.ReqAbort :: quiet)) 7 =
             healthz.Responds 503 (healthz.Text "unhealthy") m) /\
  (exists m, healthz.livelinessHandler (after h ([healthz.OpAlive] ++ healthz.ReqAbort :: quiet)) 7 =
             healthz.Responds 503 (healthz.Text "unhealthy") m).
Proof.
  intros h quiet.
  assert (Hr : Forall keeps_ready quiet).
  { repeat (apply Forall_cons; [repeat split; discriminate|]). constructor. }
  assert (Ha : Forall keeps_alive quiet).
  { repeat (apply Forall_cons; [repeat split; discriminate|]). constructor. }
  split; [exact Hr|]. split; [exact Ha|].
  split; [|split].
  - exact (proj1 (proj1 (endpoints_answer_by_the_last_call
                           h [healthz.OpNotReady] quiet 7) Hr)).
  - exact (proj2 (proj1 (endpoints_answer_by_the_last_call
                           h [healthz.OpReady] quiet 7) Hr)
             healthz.ReqAbort (or_intror eq_refl)).
  - exact (proj2 (proj2 (endpoints_answer_by_the_last_call
                           h [healthz.OpAlive] quiet 7) Ha)
             healthz.ReqAbort (or_intror eq_refl)).
Defined.

Lemma opts_alive (opts : list healthz.Opt) :
  forall h,
    (healthz.alive h = healthz.healthy \/ healthz.alive h = healthz.unhealthy) ->
    healthz.ready (fold_left (fun h o => o h) (map healthz.opt opts) h) = healthz.ready h /\
    healthz.alive (fold_left (fun h o => o h) (map healthz.opt opts) h) =
      (if has_OptAlive opts then healthz.healthy else healthz.alive h).
Proof.
  unfold has_OptAlive.
  induction opts as [|o opts IH]; intros h Hh; [now split|].
  cbn [map fold_left existsb].
  destruct o; cbn [orb healthz.opt].
  - apply (IH (healthz.SetDataDogClient client rate h)). exact Hh.
  - apply (IH (healthz.SetReporter r h)). exact Hh.
  - destruct (IH (healthz.SetAlive h)) as [H1 H2]; [now left|].
    split; [exact H1|]. rewrite H2.
    now destruct (existsb _ opts).
Qed.

(** X16.  With options taken among the three the package exports
    (SetDataDogClient, SetReporter, SetAlive), a Healthz just made by New
    is not ready, and it is alive exactly when SetAlive is among them.  And
    on such a Healthz, after any calls and requests, the ready and the
    alive handlers never panic: each answers 200 healthy or 503 unhealthy.
    New takes any function on a Healthz as an option; functions other than
    those three are not covered. *)
Theorem healthz_starts_unhealthy_and_never_panics
  (rules : healthz.Rules)
  (mux mux' : healthz.ServeMux) (opts : list healthz.Opt) (h : healthz.Healthz)
  (ops : list healthz.Op) (elapsed : time.Duration) :
  healthz.New rules (Some mux) (map healthz.opt opts) = healthz.NewOk h mux' ->
  (exists m, healthz.readyHandler h elapsed =
             healthz.Responds 503 (healthz.Text "unhealthy") m) /\
  (exists m, healthz.livelinessHandler h elapsed =
             if has_OptAlive opts
             then healthz.Responds 200 (healthz.Text "healthy") m
             else healthz.Responds 503 (healthz.Text "unhealthy") m) /\
  (exists m, healthz.readyHandler (after h ops) elapsed =
               healthz.Responds 200 (healthz.Text "healthy") m \/
             healthz.readyHandler (after h ops) elapsed =
               healthz.Responds 503 (healthz.Text "unhealthy") m) /\
  (exists m, healthz.livelinessHandler (after h ops) elapsed =
               healthz.Responds 200 (healthz.Text "healthy") m \/
             healthz.livelinessHandler (after h ops) elapsed =
               healthz.Responds 503 (healthz.Text "unhealthy") m).
Proof.
  intros Hnew.
  pose proof (settled_after ops h (settled_New _ _ _ _ _ Hnew)) as (_ & Ha & Hr).
  unfold healthz.New in Hnew.
  destruct (healthz.register rules mux healthz.patterns); [|discriminate].
  assert (Hh : h = fold_left (fun h o => o h) (map healthz.opt opts)
                     (healthz.mkHealthz healthz.unhealthy healthz.unhealthy healthz.unhealthy
                                        false (float64_of 0) false)) by congruence.
  destruct (opts_alive opts
              (healthz.mkHealthz healthz.unhealthy healthz.unhealthy healthz.unhealthy
                                 false (float64_of 0) false)) as [H1 H2]; [now right|].
  rewrite <- Hh in H1, H2. cbn [healthz.ready healthz.alive] in H1, H2.
  split; [|split; [|split]].
  - now apply readyHandler_by_state.
  - destruct (has_OptAlive opts); now apply livelinessHandler_by_state.
  - destruct Hr as [Hr|Hr];
      [destruct (proj1 (readyHandler_by_state (after h ops) elapsed) Hr) as [m Hm]
      |destruct (proj2 (readyHandler_by_state (after h ops) elapsed) Hr) as [m Hm]];
      exists m; auto.
  - destruct Ha as [Ha|Ha];
      [destruct (proj1 (livelinessHandler_by_state (after h ops) elapsed) Ha) as [m Hm]
      |destruct (proj2 (livelinessHandler_by_state (after h ops) elapsed) Ha) as [m Hm]];
      exists m; auto.
Qed.

Lemma healthz_starts_unhealthy_and_never_panics_witness :
  exists h mux',
    healthz.New healthz.go1_21 (Some ["/"])
      (map healthz.opt [healthz.OptDataDog true f1_0; healthz.OptAlive]) =
      healthz.NewOk h mux' /\
    (exists m, healthz.readyHandler h 9 =
               healthz.Responds 503 (healthz.Text "unhealthy") m) /\
    (exists m, healthz.livelinessHandler h 9 =
               healthz.Responds 200 (healthz.Text "healthy") m).
Proof.
  assert (Hnew : healthz.New healthz.go1_21 (Some ["/"])
                   (map healthz.opt [healthz.OptDataDog true f1_0; healthz.OptAlive]) =
                 healthz.NewOk (healthz.mkHealthz 0 1 1 true f1_0 false)
                               ("/" :: healthz.patterns)) by reflexivity.
  do 2 eexists. split; [exact Hnew|].
  pose proof (healthz_starts_unhealthy_and_never_panics healthz.go1_21
                ["/"] _ [healthz.OptDataDog true f1_0; healthz.OptAlive] _ [] 9 Hnew)
    as (H1 & H2 & _).
  split; [exact H1|exact H2].
Defined.



